(** * Orchestration core of the D&T offerings co-pilot: a shallow embedding

    The development follows the Python sources under [actual-solution/app]:
    - [core/base_agent.py]: the sticky provider gateway ([LLMState],
      [BaseAgent._generate_response]), the response extractor
      ([BaseAgent._parse_json_response]), the conversation context and the
      context manager;
    - [agents/strategy.py]: completeness rubric, plan validation, fallback plan
      and [StrategyAgent.process];
    - [agents/scoping.py] and [core/baseline_estimates.py]: baseline selection,
      client factors and the mathematical refinement;
    - [core/orchestrator.py]: the dependency executor, [process_message] and
      [generate_analysis_report];
    - [agents/rag.py]: query enhancement, validation of the extracted services
      and the fallback services;
    - [agents/summarizing.py]: the follow-up questions.

    Python [str] values are modelled as [string] (sequences of 8-bit
    characters); dictionaries whose insertion order is observable are
    association lists, the others are [gmap]s; floats are exact rationals. *)

From Stdlib Require Import String Ascii ZArith QArith Lia Bool.
From stdpp Require Import base option list gmap strings pretty.

(** ** Python string primitives *)

Module PyStr.

(** [str.isspace] on the characters below 128, as [str.strip] and [str.split]
    use it: TAB..CR, FS..US and the blank.  The characters from 128 on stand
    for the bytes of non-ASCII text and are never blank here (Python also
    strips the non-ASCII spaces). *)
Definition is_space (c : ascii) : bool :=
  let n := nat_of_ascii c in
  ((9 <=? n) && (n <=? 13)) || ((28 <=? n) && (n <=? 32)).

(** [c.lower()] on one character; only the letters A..Z have a lower case
    in the model. *)
Definition lower_char (c : ascii) : ascii :=
  let n := nat_of_ascii c in
  if (65 <=? n) && (n <=? 90) then ascii_of_nat (n + 32) else c.

(** [s.lower()]. *)
Fixpoint lower (s : string) : string :=
  match s with
  | EmptyString => EmptyString
  | String c r => String (lower_char c) (lower r)
  end.

(** [s.startswith(p)]. *)
Fixpoint starts_with (p s : string) : bool :=
  match p, s with
  | EmptyString, _ => true
  | String a p', String b s' => Ascii.eqb a b && starts_with p' s'
  | String _ _, EmptyString => false
  end.

(** [s.find(needle)]: index of the first occurrence, [None] for Python's -1. *)
Fixpoint find (needle s : string) : option nat :=
  if starts_with needle s then Some 0
  else match s with
       | EmptyString => None
       | String _ r => S <$> find needle r
       end.

(** [s.rfind(needle)]: index of the last occurrence. *)
Fixpoint rfind (needle s : string) : option nat :=
  match s with
  | EmptyString => if starts_with needle EmptyString then Some 0 else None
  | String _ r =>
      match rfind needle r with
      | Some i => Some (S i)
      | None => if starts_with needle s then Some 0 else None
      end
  end.

(** [needle in s]. *)
Definition contains (needle s : string) : bool :=
  match find needle s with Some _ => true | None => false end.

(** [s[n:]] and [s[:n]]. *)
Fixpoint drop (n : nat) (s : string) : string :=
  match n, s with
  | 0, _ => s
  | S _, EmptyString => EmptyString
  | S m, String _ r => drop m r
  end.

Fixpoint take (n : nat) (s : string) : string :=
  match n, s with
  | 0, _ => EmptyString
  | S _, EmptyString => EmptyString
  | S m, String c r => String c (take m r)
  end.

(** [s[a:b]] for non-negative bounds. *)
Definition slice (a b : nat) (s : string) : string := take (b - a) (drop a s).

(** [s.find(needle, start)]. *)
Definition find_from (needle s : string) (start : nat) : option nat :=
  if String.length s <? start then None
  else (fun i => start + i) <$> find needle (drop start s).

(** [s.lstrip()], [s.rstrip()] and [s.strip()]. *)
Fixpoint lstrip (s : string) : string :=
  match s with
  | EmptyString => EmptyString
  | String c r => if is_space c then lstrip r else s
  end.

Definition is_empty (s : string) : bool :=
  match s with EmptyString => true | String _ _ => false end.

Fixpoint rstrip (s : string) : string :=
  match s with
  | EmptyString => EmptyString
  | String c r =>
      let r' := rstrip r in
      if is_space c && is_empty r' then EmptyString else String c r'
  end.

Definition strip (s : string) : string := rstrip (lstrip s).

(** [sep.join(parts)]. *)
Fixpoint join (sep : string) (parts : list string) : string :=
  match parts with
  | [] => EmptyString
  | [p] => p
  | p :: rest => p +:+ sep +:+ join sep rest
  end.

(** [len(s.split())]: the number of maximal runs of non-blank characters.
    [in_word] tells whether the previous character belonged to a word. *)
Fixpoint count_words (in_word : bool) (s : string) : nat :=
  match s with
  | EmptyString => 0
  | String c r =>
      if is_space c then count_words false r
      else if in_word then count_words true r
      else S (count_words true r)
  end.

Definition word_count (s : string) : nat := count_words false s.


(** No character of [s] is [c]. *)
Fixpoint free_of (c : ascii) (s : string) : bool :=
  match s with
  | EmptyString => true
  | String d r => negb (Ascii.eqb c d) && free_of c r
  end.

End PyStr.

(** ** Exceptions

    Python exceptions are values: a computation that may raise returns a
    [result]. *)

Inductive exn : Type :=
  | ValueError (msg : string)
  | TypeError (msg : string)
  | ProviderError (msg : string).

Inductive result (A : Type) : Type :=
  | Ok (a : A)
  | Raise (e : exn).
Arguments Ok {A} a.
Arguments Raise {A} e.

Definition exn_message (e : exn) : string :=
  match e with
  | ValueError m | TypeError m | ProviderError m => m
  end.

#[global] Instance result_ret : MRet result := fun A a => Ok a.
#[global] Instance result_bind : MBind result := fun A B k r =>
  match r with
  | Ok a => k a
  | Raise e => Raise e
  end.

(** ** Python values

    The values behind [Dict[str, Any]]: what [json.loads] builds and what the
    agents exchange.  A [dict] keeps its insertion order and has one entry per
    key; a [float] is the exact rational of its literal. *)

Module Py.

#[local] Unset Elimination Schemes.
Inductive value : Type :=
  | PNone
  | PBool (b : bool)
  | PInt (z : Z)
  | PFloat (q : Q)
  | PStr (s : string)
  | PList (items : list value)
  | PDict (fields : list (string * value)).
#[local] Set Elimination Schemes.

Abbreviation dict := (list (string * value)).

(** [d[k] = v]. *)
Fixpoint dict_set {V : Type} (k : string) (v : V) (d : list (string * V))
  : list (string * V) :=
  match d with
  | [] => [(k, v)]
  | (k', v') :: rest =>
      if String.eqb k k' then (k, v) :: rest else (k', v') :: dict_set k v rest
  end.

(** [d.get(k)]. *)
Fixpoint dict_get {V : Type} (k : string) (d : list (string * V)) : option V :=
  match d with
  | [] => None
  | (k', v) :: rest => if String.eqb k k' then Some v else dict_get k rest
  end.

(** [list(d.keys())]. *)
Definition dict_keys {V : Type} (d : list (string * V)) : list string := d.*1.

(** [x in l] for a list of strings. *)
Definition str_in (x : string) (l : list string) : bool :=
  existsb (String.eqb x) l.

(** The string under [k]; [fallback] when [k] is absent or holds a value of
    another kind. *)
Definition get_str (k : string) (d : dict) (fallback : string) : string :=
  match dict_get k d with
  | Some (PStr s) => s
  | _ => fallback
  end.

End Py.

(** ** JSON documents as [json.loads] reads them *)

Module Json.
Import Py.

(** Test documents are written with apostrophes where JSON has double
    quotes; [quoted] puts the double quotes back. *)
Fixpoint quoted (s : string) : string :=
  match s with
  | EmptyString => EmptyString
  | String c r => String (if Ascii.eqb c "'" then ascii_of_nat 34 else c) (quoted r)
  end.

(** JSON insignificant whitespace: blank, TAB, LF, CR. *)
Definition is_json_ws (c : ascii) : bool :=
  match c with
  | " " | "009" | "010" | "013" => true
  | _ => false
  end%char.

Fixpoint skip_ws (s : string) : string :=
  match s with
  | EmptyString => EmptyString
  | String c r => if is_json_ws c then skip_ws r else s
  end.

Definition is_digit (c : ascii) : bool :=
  let n := nat_of_ascii c in (48 <=? n) && (n <=? 57).

(** The longest prefix of digits, and what follows it. *)
Fixpoint span_digits (s : string) : string * string :=
  match s with
  | EmptyString => (EmptyString, EmptyString)
  | String c r =>
      if is_digit c then let '(d, rest) := span_digits r in (String c d, rest)
      else (EmptyString, s)
  end.

(** The number a run of digits denotes, after the digits already read. *)
Fixpoint digits_value (acc : Z) (s : string) : Z :=
  match s with
  | EmptyString => acc
  | String c r => digits_value (10 * acc + Z.of_nat (nat_of_ascii c - 48)) r
  end.

Definition hex_value (c : ascii) : option nat :=
  let n := nat_of_ascii c in
  if (48 <=? n) && (n <=? 57) then Some (n - 48)
  else if (97 <=? n) && (n <=? 102) then Some (n - 87)
  else if (65 <=? n) && (n <=? 70) then Some (n - 55)
  else None.

Definition dquote : ascii := ascii_of_nat 34.

Definition simple_escape (c : ascii) : option ascii :=
  if Ascii.eqb c dquote then Some dquote else
  match c with
  | "\" => Some "\"
  | "/" => Some "/"
  | "b" => Some "008"
  | "f" => Some "012"
  | "n" => Some "010"
  | "r" => Some "013"
  | "t" => Some "009"
  | _ => None
  end%char.

(** The characters of a string literal after its opening quote, up to the
    closing quote.  Control characters are refused, as [json.loads] does in its
    default strict mode; of the [\u] escapes only those below 128 are read (the
    model has 8-bit characters), the others are refused. *)
Fixpoint parse_string_body (s : string) : option (string * string) :=
  match s with
  | EmptyString => None
  | String c r =>
      if Ascii.eqb c dquote then Some (EmptyString, r)
      else if Ascii.eqb c "\" then
        match r with
        | String "u" (String h1 (String h2 (String h3 (String h4 r')))) =>
            match hex_value h1, hex_value h2, hex_value h3, hex_value h4 with
            | Some 0, Some 0, Some a, Some b =>
                if a <? 8 then
                  '(body, rest) ← parse_string_body r';
                  Some (String (ascii_of_nat (16 * a + b)) body, rest)
                else None
            | _, _, _, _ => None
            end
        | String e r' =>
            d ← simple_escape e;
            '(body, rest) ← parse_string_body r';
            Some (String d body, rest)
        | EmptyString => None
        end
      else if nat_of_ascii c <? 32 then None
      else
        '(body, rest) ← parse_string_body r;
        Some (String c body, rest)
  end.

(** The optional fraction of a number: its digits, and the rest. *)
Definition parse_fraction (s : string) : option (string * string) :=
  match s with
  | String "." r =>
      let '(d, rest) := span_digits r in
      if PyStr.is_empty d then None else Some (d, rest)
  | _ => Some (EmptyString, s)
  end.

(** The optional exponent of a number: its value when present, and the rest. *)
Definition parse_exponent (s : string) : option (option Z * string) :=
  match s with
  | String e r =>
      if Ascii.eqb e "e" || Ascii.eqb e "E" then
        let '(negative, r1) :=
          match r with
          | String "+" r' => (false, r')
          | String "-" r' => (true, r')
          | _ => (false, r)
          end in
        let '(d, rest) := span_digits r1 in
        if PyStr.is_empty d then None
        else Some (Some (if negative then - digits_value 0 d else digits_value 0 d)%Z, rest)
      else Some (None, s)
  | EmptyString => Some (None, s)
  end.

(** [m * 10 ^ e] as a reduced fraction. *)
Definition scale10 (m e : Z) : Q :=
  if (0 <=? e)%Z then Qred (inject_Z (m * 10 ^ e))
  else Qred (Qmake m (Z.to_pos (10 ^ (- e)))).

(** A number literal: an optional minus sign, an integer part without a
    leading zero, an optional fraction and an optional exponent.  A literal
    with neither fraction nor exponent is an [int], the others are [float]s. *)
Definition parse_number (s : string) : option (value * string) :=
  let '(negative, s1) :=
    match s with
    | String "-" r => (true, r)
    | _ => (false, s)
    end in
  let '(int_part, s2) := span_digits s1 in
  match int_part with
  | EmptyString => None
  | String "0" (String _ _) => None
  | _ =>
      '(frac, s3) ← parse_fraction s2;
      '(expo, s4) ← parse_exponent s3;
      let mantissa := digits_value (digits_value 0 int_part) frac in
      let signed := (if negative then - mantissa else mantissa)%Z in
      match frac, expo with
      | EmptyString, None => Some (PInt signed, s4)
      | _, _ =>
          let e := (default 0 expo - Z.of_nat (String.length frac))%Z in
          Some (PFloat (scale10 signed e), s4)
      end
  end.

(** Recursive descent.  Every call spends one unit of [fuel]; a document of
    [n] characters needs fewer than [2 * n + 4]. *)
Fixpoint parse_value (fuel : nat) (s : string) : option (value * string) :=
  match fuel with
  | 0 => None
  | S f =>
      match skip_ws s with
      | EmptyString => None
      | String c r =>
          if Ascii.eqb c "{" then
            match skip_ws r with
            | String "}" r' => Some (PDict [], r')
            | _ => parse_members f [] r
            end
          else if Ascii.eqb c "[" then
            match skip_ws r with
            | String "]" r' => Some (PList [], r')
            | _ => parse_elems f [] r
            end
          else if Ascii.eqb c dquote then
            '(body, rest) ← parse_string_body r;
            Some (PStr body, rest)
          else if PyStr.starts_with "true" (String c r) then
            Some (PBool true, PyStr.drop 4 (String c r))
          else if PyStr.starts_with "false" (String c r) then
            Some (PBool false, PyStr.drop 5 (String c r))
          else if PyStr.starts_with "null" (String c r) then
            Some (PNone, PyStr.drop 4 (String c r))
          else parse_number (String c r)
      end
  end
with parse_elems (fuel : nat) (acc : list value) (s : string)
  : option (value * string) :=
  match fuel with
  | 0 => None
  | S f =>
      '(v, r) ← parse_value f s;
      match skip_ws r with
      | String "," r' => parse_elems f (acc ++ [v]) r'
      | String "]" r' => Some (PList (acc ++ [v]), r')
      | _ => None
      end
  end
with parse_members (fuel : nat) (acc : dict) (s : string)
  : option (value * string) :=
  match fuel with
  | 0 => None
  | S f =>
      match skip_ws s with
      | String c r =>
          if Ascii.eqb c dquote then
            '(key, r1) ← parse_string_body r;
            match skip_ws r1 with
            | String ":" r2 =>
                '(v, r3) ← parse_value f r2;
                match skip_ws r3 with
                | String "," r4 => parse_members f (dict_set key v acc) r4
                | String "}" r4 => Some (PDict (dict_set key v acc), r4)
                | _ => None
                end
            | _ => None
            end
          else None
      | EmptyString => None
      end
  end.

(** [json.loads(s)]: one value, surrounded by whitespace only; [None] stands
    for [json.JSONDecodeError].  The literals [NaN] and [Infinity], which
    Python also reads, are refused. *)
Definition loads (s : string) : option value :=
  '(v, rest) ← parse_value (2 * String.length s + 4) s;
  if PyStr.is_empty (skip_ws rest) then Some v else None.

End Json.

(** ** Response extractor ([BaseAgent._parse_json_response]) *)

Module Extractor.
Import PyStr.

(** The loop that looks for the brace closing the one at [json_start]:
    [i] is the index of the first character of [s] in the response and the
    result is [json_end] when the loop breaks. *)
Fixpoint match_brace (s : string) (i : nat) (brace_count : Z) : option nat :=
  match s with
  | EmptyString => None
  | String c r =>
      if Ascii.eqb c "{" then match_brace r (S i) (brace_count + 1)
      else if Ascii.eqb c "}" then
        if (brace_count - 1 =? 0)%Z then Some (i + 1)
        else match_brace r (S i) (brace_count - 1)
      else match_brace r (S i) brace_count
  end.

(** The text handed to [json.loads]: the response trimmed, the interior of
    the first fenced block when there is one, and the last brace-balanced
    object when template markers are left. *)
Definition fenced_interior (fence : string) (text : string) : string :=
  match find fence text with
  | Some i =>
      let start := i + String.length fence in
      match find_from "```" text start with
      | Some e => strip (slice start e text)
      | None => text
      end
  | None => text
  end.

Definition last_object (text : string) : string :=
  match rfind "{" text with
  | Some json_start =>
      let json_end :=
        default json_start (match_brace (drop json_start text) json_start 0) in
      slice json_start json_end text
  | None => text
  end.

Definition extract_json_text (response_text : string) : string :=
  let response_text := strip response_text in
  let response_text :=
    if contains "```json" response_text then fenced_interior "```json" response_text
    else if contains "```" response_text then fenced_interior "```" response_text
    else response_text in
  if contains "### Response Format:" response_text
     || contains "Always respond with valid JSON" response_text
  then last_object response_text
  else response_text.

Definition _parse_json_response (agent_name : string) (response_text : string)
  : result Py.value :=
  match Json.loads (extract_json_text response_text) with
  | Some j => Ok j
  | None => Raise (ValueError ("Invalid JSON response from " +:+ agent_name))
  end.

End Extractor.

(** ** Provider gateway ([LLMState] and [BaseAgent._generate_response]) *)

Module Gateway.

(** The process-wide fallback state; [llm_state] is its one instance. *)
Record LLMState : Type := { _use_groq : bool }.

Definition llm_state_init : LLMState := {| _use_groq := false |}.

Definition should_use_groq (st : LLMState) : bool := _use_groq st.

Definition switch_to_groq (st : LLMState) : LLMState := {| _use_groq := true |}.

Inductive Provider : Type := Gemini | Groq.

(** What the two providers answer to one request: the text, or [None] when
    the call raises (for Groq also when no client is configured). *)
Record Replies : Type := {
  gemini_reply : option string;
  groq_reply : option string
}.

(** One call of [_generate_response]: the state it leaves, the providers it
    called, in order, and what it returns. *)
Record Generated : Type := {
  state_after : LLMState;
  called : list Provider;
  returned : result string
}.

Definition _generate_response_groq (w : Replies) : result string :=
  match groq_reply w with
  | Some text => Ok text
  | None => Raise (ProviderError "Groq call failed")
  end.

Definition _generate_response (st : LLMState) (w : Replies) : Generated :=
  if should_use_groq st then
    {| state_after := st; called := [Groq]; returned := _generate_response_groq w |}
  else
    match gemini_reply w with
    | Some text => {| state_after := st; called := [Gemini]; returned := Ok text |}
    | None =>
        {| state_after := switch_to_groq st;
           called := [Gemini; Groq];
           returned := _generate_response_groq w |}
    end.

(** A run of the process: the calls made one after the other, by whatever
    agent and session, on the shared state. *)
Fixpoint generate_all (st : LLMState) (ws : list Replies) : list Generated :=
  match ws with
  | [] => []
  | w :: rest =>
      let g := _generate_response st w in
      g :: generate_all (state_after g) rest
  end.

(** The state after a run. *)
Definition final_state (st : LLMState) (ws : list Replies) : LLMState :=
  foldl (fun st w => state_after (_generate_response st w)) st ws.

(** The operations the code has on the state. *)
Inductive Op : Type :=
  | OpShouldUseGroq
  | OpSwitchToGroq
  | OpGenerate (w : Replies).

Definition apply_op (st : LLMState) (op : Op) : LLMState :=
  match op with
  | OpShouldUseGroq => st
  | OpSwitchToGroq => switch_to_groq st
  | OpGenerate w => state_after (_generate_response st w)
  end.

(** The primary provider was called and failed. *)
Definition primary_failed (st : LLMState) (w : Replies) : bool :=
  negb (should_use_groq st)
  && match gemini_reply w with Some _ => false | None => true end.

End Gateway.

(** ** Conversation context and context manager ([base_agent.py]) *)

Module Context.
Import Py.

(** One turn.  The timestamp and the metadata a turn also carries are read by
    none of the functions below and are left out. *)
Record Message : Type := { role : string; content : string }.

Record PainPoint : Type := {
  description : string;
  category : string;
  urgency : string
}.

#[global] Instance PainPoint_eq_dec : EqDecision PainPoint.
Proof. solve_decision. Defined.

Record ConversationContext : Type := {
  session_id : string;
  conversation_history : list Message;
  client_context : list (string * string);
  business_context : list (string * string);
  pain_points : list PainPoint;
  discovered_services : dict;
  rag_results : dict;
  scoping_results : dict;
  current_phase : string
}.

(** [ConversationContext(session_id=...)]. *)
Definition new_context (sid : string) : ConversationContext :=
  {| session_id := sid;
     conversation_history := [];
     client_context := [];
     business_context := [];
     pain_points := [];
     discovered_services := [];
     rag_results := [];
     scoping_results := [];
     current_phase := "discovery" |}.

Definition with_history (ctx : ConversationContext) (h : list Message)
  : ConversationContext :=
  {| session_id := session_id ctx;
     conversation_history := h;
     client_context := client_context ctx;
     business_context := business_context ctx;
     pain_points := pain_points ctx;
     discovered_services := discovered_services ctx;
     rag_results := rag_results ctx;
     scoping_results := scoping_results ctx;
     current_phase := current_phase ctx |}.

Definition with_facts (ctx : ConversationContext)
    (client business : list (string * string)) (pains : list PainPoint)
  : ConversationContext :=
  {| session_id := session_id ctx;
     conversation_history := conversation_history ctx;
     client_context := client;
     business_context := business;
     pain_points := pains;
     discovered_services := discovered_services ctx;
     rag_results := rag_results ctx;
     scoping_results := scoping_results ctx;
     current_phase := current_phase ctx |}.

(** [context.add_message(role, content)]. *)
Definition add_message (ctx : ConversationContext) (r c : string)
  : ConversationContext :=
  with_history ctx (conversation_history ctx ++ [{| role := r; content := c |}]).

(** [ContextManager]: the contexts of the active sessions. *)
Abbreviation ContextManager := (gmap string ConversationContext).

(** [get_context]: the stored context, created on first use. *)
Definition get_context (cm : ContextManager) (sid : string)
  : ContextManager * ConversationContext :=
  match cm !! sid with
  | Some ctx => (cm, ctx)
  | None => (<[sid := new_context sid]> cm, new_context sid)
  end.

Definition update_context (cm : ContextManager) (ctx : ConversationContext)
  : ContextManager :=
  <[session_id ctx := ctx]> cm.

Definition clear_context (cm : ContextManager) (sid : string) : ContextManager :=
  delete sid cm.

End Context.

(** ** Agent responses and task configurations *)

Module Agent.
Import Py.

(** [AgentResponse]; the elapsed time it also carries is left out. *)
Record AgentResponse (C : Type) : Type := {
  success : bool;
  agent_name : string;
  content : C;
  confidence : Q;
  error : option string
}.
Arguments success {C} _.
Arguments agent_name {C} _.
Arguments content {C} _.
Arguments confidence {C} _.
Arguments error {C} _.

(** One entry of [agents_sequence], read at the types the code declares for
    it: identifiers and parameters are strings, [depends_on] is a list of
    strings.  A field is [None] when the key is absent; [other] keeps the keys
    the orchestration core does not look at. *)
Record AgentConfig : Type := {
  agent : option string;
  search_id : option string;
  search_focus : option string;
  scope_focus : option string;
  baseline_source : option string;
  response_type : option string;
  question_focus : option string;
  depends_on : option (list string);
  other : dict
}.

Definition with_depends_on (c : AgentConfig) (deps : list string) : AgentConfig :=
  {| agent := agent c; search_id := search_id c; search_focus := search_focus c;
     scope_focus := scope_focus c; baseline_source := baseline_source c;
     response_type := response_type c; question_focus := question_focus c;
     depends_on := Some deps; other := other c |}.

Definition with_baseline_source (c : AgentConfig) (src : string) : AgentConfig :=
  {| agent := agent c; search_id := search_id c; search_focus := search_focus c;
     scope_focus := scope_focus c; baseline_source := Some src;
     response_type := response_type c; question_focus := question_focus c;
     depends_on := depends_on c; other := other c |}.

(** The planner's decision: the [decision] and [agents_sequence] keys, and the
    remaining keys of the dictionary. *)
Record StrategyDecision : Type := {
  decision : option string;
  agents_sequence : option (list AgentConfig);
  other_fields : dict
}.

(** Python's [a or b] on strings that may be absent: the first one that is
    present and not empty. *)
Definition truthy (o : option string) : bool :=
  match o with
  | Some s => negb (PyStr.is_empty s)
  | None => false
  end.

End Agent.

(** ** Strategy planner ([agents/strategy.py]) *)

Module Strategy.
Import Py PyStr Context Agent.

Definition nl : string := String (ascii_of_nat 10) EmptyString.

(** [any(phrase in text for phrase in phrases)]. *)
Definition any_in (phrases : list string) (text : string) : bool :=
  existsb (fun phrase => contains phrase text) phrases.

(** *** Fact extraction ([_extract_context_from_conversation]) *)

Definition pain_point_keywords : list (string * string) :=
  [ ("legacy applications", "Legacy application modernization needed");
    ("scalability", "System cannot handle increasing demand");
    ("on-premise", "On-premise infrastructure limitations");
    ("data writing", "Data management and processing issues");
    ("increasing demand", "Business growth outpacing system capacity") ].

Definition pain_point_of (keyword description : string) : PainPoint :=
  {| description := description;
     category := if str_in keyword ["legacy"; "on-premise"; "data"]
                 then "technology" else "business";
     urgency := if str_in keyword ["demand"; "scalability"]
                then "high" else "medium" |}.

Definition add_pain_points (all_text : string) (pains : list PainPoint)
  : list PainPoint :=
  foldl (fun acc kd =>
           if contains kd.1 all_text then
             let pain_point := pain_point_of kd.1 kd.2 in
             if bool_decide (pain_point ∈ acc) then acc else acc ++ [pain_point]
           else acc)
        pains pain_point_keywords.

Definition set_if {V : Type} (b : bool) (k : string) (v : V)
    (d : list (string * V)) : list (string * V) :=
  if b then dict_set k v d else d.

Definition _extract_context_from_conversation
    (context : ConversationContext) (user_input : string) : ConversationContext :=
  let conversation_texts := Context.content <$> conversation_history context in
  let all_text := lower (join " " (conversation_texts ++ [user_input])) in
  let client :=
    set_if (contains "regional" all_text) "company_size" "Regional/Medium Enterprise"
      (set_if (contains "qatari" all_text || contains "qatar" all_text)
         "location" "Qatar"
         (set_if (contains "bank" all_text) "industry" "Banking/Financial Services"
            (client_context context))) in
  let business :=
    set_if (any_in ["account opening"; "new accounts"] all_text)
      "specific_processes" "Account opening processes"
      (set_if (any_in ["scalability"; "scale"; "demand"; "growth"] all_text)
         "key_drivers" "Scalability and growth"
         (set_if (any_in ["legacy"; "old"; "outdated"] all_text)
            "technology_maturity" "Legacy systems"
            (business_context context))) in
  with_facts context client business (add_pain_points all_text (pain_points context)).

(** *** Completeness rubric ([_analyze_context_completeness]) *)

Definition specific_challenge_phrases : list string :=
  [ "legacy system"; "scalability issue"; "performance problem"; "outdated";
    "slow"; "inefficient"; "data problem"; "integration issue";
    "security concern"; "compliance"; "cost reduction"; "modernization";
    "digital transformation"; "automation"; "process improvement"; "tender";
    "manual process"; "physical"; "online"; "digital"; "submission";
    "paperwork"; "in-person"; "holding"; "burden"; "labor"; "storing" ].

Definition business_impact_phrases : list string :=
  [ "losing money"; "revenue impact"; "customer complaints";
    "operational cost"; "efficiency"; "growth"; "expansion"; "competitive";
    "market pressure"; "urgent"; "critical"; "want to stop"; "trying to";
    "moving online"; "more efficient"; "mitigate"; "address"; "pain points";
    "issues"; "challenges"; "problems"; "inefficiencies" ].

(** The combined conversation text, lowered. *)
Definition all_conversation_text (context : ConversationContext) : string :=
  lower (join " " (Context.content <$> conversation_history context)).

Definition specific_challenges (context : ConversationContext) : bool :=
  any_in specific_challenge_phrases (all_conversation_text context).

Definition business_impact (context : ConversationContext) : bool :=
  any_in business_impact_phrases (all_conversation_text context).

Definition has_detail (context : ConversationContext) : bool :=
  15 <? word_count (all_conversation_text context).

Inductive Assessment : Type := Sufficient | Partial | Insufficient.

Definition assessment (context : ConversationContext) : Assessment :=
  if specific_challenges context && business_impact context && has_detail context
  then Sufficient
  else if specific_challenges context && has_detail context then Partial
  else Insufficient.




(** *** Plan validation ([_validate_strategy_decision]) *)

(** The first loop: every task names its agent; a missing [depends_on]
    becomes the empty list.  [i] is the index of the first task of [seq]. *)
Fixpoint check_agents (i : nat) (seq : list AgentConfig) : result (list AgentConfig) :=
  match seq with
  | [] => Ok []
  | agent_config :: rest =>
      match agent agent_config with
      | None => Raise (ValueError ("Agent " +:+ pretty i +:+ " missing 'agent' field"))
      | Some _ =>
          let agent_config :=
            match depends_on agent_config with
            | None => with_depends_on agent_config []
            | Some _ => agent_config
            end in
          rest' ← check_agents (S i) rest;
          Ok (agent_config :: rest')
      end
  end.

Definition is_agent (name : string) (c : AgentConfig) : bool :=
  bool_decide (agent c = Some name).

(** The inner loop: the search id of the first RAG task of the sequence. *)
Fixpoint first_rag_search_id (seq : list AgentConfig) : option string :=
  match seq with
  | [] => None
  | rag_agent :: rest =>
      if is_agent "rag_agent" rag_agent
      then Some (default "search_1" (search_id rag_agent))
      else first_rag_search_id rest
  end.

(** The body of the second loop, on one task. *)
Definition ensure_baseline_source (dec : string) (seq : list AgentConfig)
    (agent_config : AgentConfig) : AgentConfig :=
  if is_agent "scoping_agent" agent_config then
    match baseline_source agent_config with
    | Some _ => agent_config
    | None =>
        if String.eqb dec "provide_estimates"
        then with_baseline_source agent_config "direct_lookup"
        else match first_rag_search_id seq with
             | Some sid => with_baseline_source agent_config sid
             | None => agent_config
             end
    end
  else agent_config.

Definition valid_decisions : list string :=
  ["execute_pipeline"; "gather_more_context"; "provide_estimates"].

Definition _validate_strategy_decision (d : StrategyDecision) : result StrategyDecision :=
  match decision d with
  | None => Raise (ValueError "Strategy decision missing 'decision' field")
  | Some dec =>
      if negb (str_in dec valid_decisions)
      then Raise (ValueError ("Invalid decision type: " +:+ dec))
      else
        match agents_sequence d with
        | None => Raise (ValueError "Strategy decision missing 'agents_sequence'")
        | Some seq =>
            seq ← check_agents 0 seq;
            Ok {| decision := Some dec;
                  agents_sequence := Some (ensure_baseline_source dec seq <$> seq);
                  other_fields := other_fields d |}
        end
  end.

(** *** Confidence ([_calculate_confidence]) *)

Definition _calculate_confidence (d : StrategyDecision) (context : ConversationContext) : Q :=
  let base_confidence := (7 # 10)%Q in
  let base_confidence :=
    if bool_decide (pain_points context = []) then base_confidence
    else (base_confidence + (1 # 10))%Q in
  let base_confidence :=
    if bool_decide (business_context context = []) then base_confidence
    else (base_confidence + (1 # 10))%Q in
  let base_confidence :=
    if 2 <? length (conversation_history context)
    then (base_confidence + (1 # 10))%Q else base_confidence in
  let base_confidence :=
    if bool_decide (decision d = Some "execute_pipeline")
    then (base_confidence + (5 # 100))%Q else base_confidence in
  if Qle_bool base_confidence 1 then base_confidence else 1%Q.

(** *** Fallback plan ([_create_fallback_strategy]) *)

Definition fallback_retrieve : AgentConfig :=
  {| agent := Some "rag_agent"; search_id := Some "search_1";
     search_focus := Some "general D&T services for business challenges";
     scope_focus := None; baseline_source := None; response_type := None;
     question_focus := None; depends_on := Some []; other := [] |}.

Definition fallback_compose : AgentConfig :=
  {| agent := Some "summarizing_agent"; search_id := None; search_focus := None;
     scope_focus := None; baseline_source := None;
     response_type := Some "service_recommendations";
     question_focus := None; depends_on := Some ["rag_agent"]; other := [] |}.

Definition fallback_clarify : AgentConfig :=
  {| agent := Some "summarizing_agent"; search_id := None; search_focus := None;
     scope_focus := None; baseline_source := None;
     response_type := Some "targeted_follow_up";
     question_focus := Some "business challenges and pain points";
     depends_on := Some []; other := [] |}.

Definition _create_fallback_strategy (context : ConversationContext) : StrategyDecision :=
  let has_context :=
    negb (bool_decide (client_context context = []))
    || negb (bool_decide (business_context context = [])) in
  let has_pain_points := negb (bool_decide (pain_points context = [])) in
  if has_context && has_pain_points then
    {| decision := Some "execute_pipeline";
       agents_sequence := Some [fallback_retrieve; fallback_compose];
       other_fields :=
         [("consultant_hypothesis",
           PStr "Based on available context, attempting to provide service recommendations")] |}
  else
    {| decision := Some "gather_more_context";
       agents_sequence := Some [fallback_clarify];
       other_fields :=
         [("consultant_analysis", PStr "Insufficient context for service recommendations");
          ("follow_up_focus", PStr "business_context")] |}.

(** *** Reading the parsed dictionary at its declared types

    The planner's dictionary is read once into the typed records; the Python
    code reads the same keys one by one where it uses them.  A key is absent
    ([None]) or holds a value of its declared type; a document that puts a
    value of another type under one of these keys has no counterpart among
    the typed plans and is read as a failure. *)

Definition read_str (k : string) (d : dict) : result (option string) :=
  match dict_get k d with
  | None => Ok None
  | Some (PStr s) => Ok (Some s)
  | Some _ => Raise (TypeError k)
  end.

Fixpoint read_str_list (l : list value) : result (list string) :=
  match l with
  | [] => Ok []
  | PStr s :: rest => rest' ← read_str_list rest; Ok (s :: rest')
  | _ :: _ => Raise (TypeError "depends_on")
  end.

Definition config_keys : list string :=
  [ "agent"; "search_id"; "search_focus"; "scope_focus"; "baseline_source";
    "response_type"; "question_focus"; "depends_on" ].

Definition config_of_value (v : value) : result AgentConfig :=
  match v with
  | PDict d =>
      a ← read_str "agent" d;
      sid ← read_str "search_id" d;
      sfocus ← read_str "search_focus" d;
      scope ← read_str "scope_focus" d;
      base ← read_str "baseline_source" d;
      rtype ← read_str "response_type" d;
      qfocus ← read_str "question_focus" d;
      deps ← match dict_get "depends_on" d with
             | None => Ok None
             | Some (PList l) => l' ← read_str_list l; Ok (Some l')
             | Some _ => Raise (TypeError "depends_on")
             end;
      Ok {| agent := a; search_id := sid; search_focus := sfocus;
            scope_focus := scope; baseline_source := base;
            response_type := rtype; question_focus := qfocus;
            depends_on := deps;
            other := filter (fun kv => negb (str_in kv.1 config_keys)) d |}
  | _ => Raise (TypeError "agent_config")
  end.

Definition configs_of_values (l : list value) : result (list AgentConfig) :=
  foldr (fun v acc => c ← config_of_value v; rest ← acc; Ok (c :: rest)) (Ok []) l.

Definition decision_of_value (v : value) : result StrategyDecision :=
  match v with
  | PDict d =>
      dec ← match dict_get "decision" d with
            | None => Ok None
            | Some (PStr s) => Ok (Some s)
            | Some _ => Raise (ValueError "Invalid decision type")
            end;
      seq ← match dict_get "agents_sequence" d with
            | None => Ok None
            | Some (PList l) => l' ← configs_of_values l; Ok (Some l')
            | Some _ => Raise (TypeError "agents_sequence")
            end;
      Ok {| decision := dec; agents_sequence := seq;
            other_fields :=
              filter (fun kv => negb (str_in kv.1 ["decision"; "agents_sequence"])) d |}
  | _ => Raise (TypeError "strategy_decision")
  end.

(** *** [StrategyAgent.process] *)

(** What one planning run meets outside the planner: an exception while the
    prompt is assembled, if any, and the providers' replies to the prompt.
    The prompt text itself (built from the system prompt of
    [config/bots.yaml]) is not represented: the replies are given per call. *)
Record PlannerEnv : Type := {
  prompt_error : option exn;
  replies : Gateway.Replies
}.

(** The body of the [try] block after the facts have been extracted: prompt,
    provider call, parse, validation. *)
Definition plan (env : PlannerEnv) (st : Gateway.LLMState)
  : Gateway.LLMState * result StrategyDecision :=
  match prompt_error env with
  | Some e => (st, Raise e)
  | None =>
      let g := Gateway._generate_response st (replies env) in
      (Gateway.state_after g,
       response_text ← Gateway.returned g;
       strategy_decision ← Extractor._parse_json_response "strategy_agent" response_text;
       strategy_decision ← decision_of_value strategy_decision;
       _validate_strategy_decision strategy_decision)
  end.

Definition process (env : PlannerEnv) (st : Gateway.LLMState)
    (context : ConversationContext) (user_input : string)
  : Gateway.LLMState * ConversationContext * AgentResponse StrategyDecision :=
  let context := _extract_context_from_conversation context user_input in
  let '(st, planned) := plan env st in
  match planned with
  | Ok validated_decision =>
      (st, context,
       {| success := true;
          agent_name := "strategy_agent";
          content := validated_decision;
          confidence := _calculate_confidence validated_decision context;
          error := None |})
  | Raise e =>
      (st, context,
       {| success := false;
          agent_name := "strategy_agent";
          content := _create_fallback_strategy context;
          confidence := (3 # 10)%Q;
          error := Some ("Strategy analysis failed: " +:+ exn_message e) |})
  end.

End Strategy.

(** ** Baseline estimates ([core/baseline_estimates.py]) *)

Module Baseline.
Import Py PyStr.

(** One tier of the lookup table [BASELINE_ESTIMATES]. *)
Record Tier : Type := {
  tier : string;
  price_range : string;
  team_size : string;
  duration : string;
  description : string
}.

(** The table: service name to its tiers, in the order of the data file. *)
Abbreviation EstimatesData := (list (string * list Tier)).

Definition get_baseline_estimates (estimates_data : EstimatesData)
    (service_name : string) : option (list Tier) :=
  dict_get service_name estimates_data.

Definition search_services (estimates_data : EstimatesData) (query : string)
  : list string :=
  let query_lower := lower query in
  filter (fun service_name => contains query_lower (lower service_name))
         (dict_keys estimates_data).

End Baseline.

(** ** Scoping ([agents/scoping.py]) *)

Module Scoping.
Import Py PyStr Context.

(** The dictionary [_get_baseline_estimates] returns; the keys that only some
    of its branches set are optional. *)
Record BaselineEstimates : Type := {
  pricing_range : string;
  team_size : string;
  duration : string;
  description : option string;
  tier : option string;
  all_tiers : option (list Baseline.Tier);
  matched_service : option string;
  complexity_factors : list string
}.

Definition default_complexity_factors : list string :=
  [ "Client size"; "Technical complexity"; "Integration requirements";
    "Timeline constraints" ].

(** The tier taken as the baseline: index 1 when there are two tiers or more,
    index 0 otherwise. *)
Definition select_baseline_tier (estimates_tiers : list Baseline.Tier)
  : option Baseline.Tier :=
  if 2 <=? length estimates_tiers then estimates_tiers !! 1 else estimates_tiers !! 0.

Definition of_tier (baseline_tier : Baseline.Tier)
    (estimates_tiers : list Baseline.Tier) (matched : option string)
  : BaselineEstimates :=
  {| pricing_range := Baseline.price_range baseline_tier;
     team_size := Baseline.team_size baseline_tier;
     duration := Baseline.duration baseline_tier;
     description := Some (Baseline.description baseline_tier);
     tier := Some (Baseline.tier baseline_tier);
     all_tiers := Some estimates_tiers;
     matched_service := matched;
     complexity_factors := default_complexity_factors |}.

Definition generic_baseline : BaselineEstimates :=
  {| pricing_range := "$100K - $500K (varies by complexity)";
     team_size := "3-6 consultants";
     duration := "4-8 months";
     description := None;
     tier := None;
     all_tiers := None;
     matched_service := None;
     complexity_factors := default_complexity_factors |}.

(** A list that Python treats as true: present and not empty. *)
Definition nonempty_tiers (o : option (list Baseline.Tier)) : option (list Baseline.Tier) :=
  match o with
  | Some (t :: l) => Some (t :: l)
  | _ => None
  end.

(** [_get_baseline_estimates]: exact name, else the first fuzzy match, else
    the generic estimates.  The context and the baseline source the method
    also receives are not read by it. *)
Definition _get_baseline_estimates (estimates_data : Baseline.EstimatesData)
    (service_name : string) : BaselineEstimates :=
  match nonempty_tiers (Baseline.get_baseline_estimates estimates_data service_name) with
  | Some estimates_tiers =>
      match select_baseline_tier estimates_tiers with
      | Some baseline_tier => of_tier baseline_tier estimates_tiers None
      | None => generic_baseline
      end
  | None =>
      match Baseline.search_services estimates_data service_name with
      | matched :: _ =>
          match nonempty_tiers (Baseline.get_baseline_estimates estimates_data matched) with
          | Some estimates_tiers =>
              match select_baseline_tier estimates_tiers with
              | Some baseline_tier => of_tier baseline_tier estimates_tiers (Some matched)
              | None => generic_baseline
              end
          | None => generic_baseline
          end
      | [] => generic_baseline
      end
  end.

(** *** Client factors ([_analyze_client_factors]) *)

Definition hex_digit (n : nat) : ascii :=
  ascii_of_nat (if n <? 10 then 48 + n else 87 + n).

(** [repr(s)] of a string: quoted with apostrophes unless it holds an
    apostrophe and no double quote; backslash, the quote and control
    characters escaped. *)
Fixpoint repr_body (quote : ascii) (s : string) : string :=
  match s with
  | EmptyString => EmptyString
  | String c r =>
      let n := nat_of_ascii c in
      let rest := repr_body quote r in
      if Ascii.eqb c "\" then String "\" (String "\" rest)
      else if Ascii.eqb c quote then String "\" (String c rest)
      else if n =? 10 then String "\" (String "n" rest)
      else if n =? 13 then String "\" (String "r" rest)
      else if n =? 9 then String "\" (String "t" rest)
      else if (n <? 32) || (n =? 127) then
        String "\" (String "x" (String (hex_digit (n / 16))
                                 (String (hex_digit (n mod 16)) rest)))
      else String c rest
  end.

Definition repr_str (s : string) : string :=
  let quote :=
    if negb (free_of "'" s) && free_of Json.dquote s then Json.dquote else "'"%char in
  String quote (repr_body quote s +:+ String quote EmptyString).

(** [str(d)] of a dictionary of strings. *)
Definition str_of_dict (d : list (string * string)) : string :=
  "{" +:+ join ", " ((fun kv => repr_str kv.1 +:+ ": " +:+ repr_str kv.2) <$> d) +:+ "}".

Definition initial_factors : list (string * string) :=
  [ ("size", "sme"); ("industry", "standard"); ("complexity", "medium");
    ("urgency", "standard"); ("technical_maturity", "mixed");
    ("integration_needs", "moderate") ].

Definition size_factor (factors : list (string * string)) (company_size : string)
  : list (string * string) :=
  let size := lower company_size in
  if Strategy.any_in ["startup"; "small"] size then dict_set "size" "startup" factors
  else if Strategy.any_in ["sme"; "medium"] size then dict_set "size" "sme" factors
  else if contains "large" size then dict_set "size" "large_enterprise" factors
  else if contains "enterprise" size then dict_set "size" "enterprise" factors
  else factors.

Definition _analyze_client_factors (context : ConversationContext)
  : list (string * string) :=
  let factors := initial_factors in
  let factors :=
    match dict_get "company_size" (client_context context) with
    | Some company_size => size_factor factors company_size
    | None => factors
    end in
  let factors :=
    match dict_get "industry" (client_context context) with
    | Some industry =>
        if Strategy.any_in ["financial"; "banking"; "healthcare"; "government"]
             (lower industry)
        then dict_set "complexity" "high" (dict_set "industry" "regulated" factors)
        else factors
    | None => factors
    end in
  let factors :=
    match business_context context with
    | [] => factors
    | business =>
        let text := lower (str_of_dict business) in
        let factors :=
          if Strategy.any_in ["urgent"; "asap"; "immediately"; "critical"] text
          then dict_set "urgency" "urgent" factors else factors in
        if Strategy.any_in ["legacy"; "old system"; "mainframe"] text
        then dict_set "technical_maturity" "legacy" factors
        else if Strategy.any_in ["modern"; "cloud"; "microservices"] text
        then dict_set "technical_maturity" "modern" factors
        else factors
    end in
  match pain_points context with
  | [] => factors
  | pains =>
      let pain_point_text := lower (join " " (Context.description <$> pains)) in
      if Strategy.any_in ["integration"; "multiple systems"; "complex"] pain_point_text
      then dict_set "complexity" "high" (dict_set "integration_needs" "high" factors)
      else factors
  end.

(** *** Mathematical refinement ([_mathematical_refinement]) *)

(** [self.complexity_multipliers]. *)
Definition complexity_multipliers : list (string * list (string * Q)) :=
  [ ("client_size",
     [ ("startup", 7 # 10); ("sme", 1); ("enterprise", 15 # 10);
       ("large_enterprise", 2) ]);
    ("industry_complexity",
     [ ("low", 9 # 10); ("medium", 1); ("high", 13 # 10); ("regulated", 16 # 10) ]);
    ("technical_maturity",
     [ ("modern", 8 # 10); ("mixed", 1); ("legacy", 14 # 10);
       ("very_legacy", 18 # 10) ]);
    ("urgency",
     [ ("standard", 1); ("urgent", 12 # 10); ("critical", 15 # 10) ]) ]%Q.

(** The loop over [client_factors.items()]: a factor whose name is a key of
    the multiplier table contributes the multiplier of its value (1.0 when the
    value has none); the other factors contribute nothing. *)
Definition total_multiplier (client_factors : list (string * string)) : Q :=
  foldl (fun total kv =>
           match dict_get kv.1 complexity_multipliers with
           | Some table => (total * default 1 (dict_get kv.2 table))%Q
           | None => total
           end)
        1%Q client_factors.

(** The format [.1f] on a non-negative number: one decimal, ties to even.
    (A float is formatted from its binary value; the model rounds the exact
    rational.) *)
Definition format_1f (q : Q) : string :=
  let n := (10 * Qnum q)%Z in
  let d := Z.pos (Qden q) in
  let lo := (n / d)%Z in
  let twice_rem := (2 * (n mod d))%Z in
  let tenths :=
    if (twice_rem <? d)%Z then lo
    else if (d <? twice_rem)%Z then (lo + 1)%Z
    else if Z.even lo then lo else (lo + 1)%Z in
  pretty (tenths / 10)%Z +:+ "." +:+ pretty (tenths mod 10)%Z.

Definition _adjust_pricing_range (baseline_range : string) (multiplier : Q) : string :=
  if contains "to be determined" (lower baseline_range)
  then "Estimated " +:+ format_1f multiplier
       +:+ "x standard rates - to be refined in discovery"
  else baseline_range +:+ " (adjusted for complexity: " +:+ format_1f multiplier +:+ "x)".

Definition _adjust_team_size (baseline_team : string) (multiplier : Q) : string :=
  if Qlt_le_dec (13 # 10) multiplier
  then baseline_team +:+ " + additional specialists for complexity"
  else if Qlt_le_dec multiplier (8 # 10)
  then "Streamlined team: " +:+ baseline_team
  else baseline_team.

Definition _adjust_duration (baseline_duration : string) (multiplier : Q) : string :=
  if Qlt_le_dec (13 # 10) multiplier
  then baseline_duration +:+ " + buffer for complexity"
  else if Qlt_le_dec multiplier (8 # 10)
  then "Accelerated timeline: " +:+ baseline_duration
  else baseline_duration.

Record RefinedEstimates : Type := {
  refined_pricing_range : string;
  team_composition : string;
  refined_duration : string;
  key_assumptions : list string
}.

Record Refinement : Type := {
  estimates : RefinedEstimates;
  rationale : string;
  risks : list string;
  confidence : Q
}.

Definition _mathematical_refinement (baseline_estimates : BaselineEstimates)
    (client_factors : list (string * string)) : Refinement :=
  let total_multiplier := total_multiplier client_factors in
  {| estimates :=
       {| refined_pricing_range :=
            _adjust_pricing_range (pricing_range baseline_estimates) total_multiplier;
          team_composition :=
            _adjust_team_size (team_size baseline_estimates) total_multiplier;
          refined_duration :=
            _adjust_duration (duration baseline_estimates) total_multiplier;
          key_assumptions :=
            [ "Complexity multiplier: " +:+ format_1f total_multiplier +:+ "x";
              "Standard delivery approach";
              "Client resources available" ] |};
     rationale := "Mathematical refinement applied with "
                  +:+ format_1f total_multiplier +:+ "x complexity factor";
     risks := [ "Estimate based on limited context";
                "May require adjustment after discovery" ];
     confidence := (6 # 10)%Q |}.

End Scoping.

(** ** Orchestrator ([core/orchestrator.py]) *)

Module Orchestrator.
Import Py PyStr Context Agent.

(** One entry of [execution_results].  A processor that returned gives the
    six keys of its response; a processor that raised gives [success],
    [agent_name] and [error] only, hence the optional fields. *)
Record ExecutionResult : Type := {
  success : bool;
  agent_name : string;
  content : option dict;
  confidence : option Q;
  error : option string
}.

(** The three task processors.  [W] stands for what a processor reads and
    changes besides the conversation context: the providers and the knowledge
    base.  A processor returns its response or raises. *)
Record Processors (W : Type) : Type := {
  rag_process :
    W -> ConversationContext -> AgentConfig ->
    W * ConversationContext * result (AgentResponse dict);
  scoping_process :
    W -> ConversationContext -> AgentConfig ->
    W * ConversationContext * result (AgentResponse dict);
  summarizing_process :
    W -> ConversationContext -> AgentConfig ->
    W * ConversationContext * result (AgentResponse dict)
}.
Arguments rag_process {W} _.
Arguments scoping_process {W} _.
Arguments summarizing_process {W} _.

Section Executor.
Context {W : Type} (P : Processors W).

Definition failed_result (name : string) (e : exn) : ExecutionResult :=
  {| success := false; agent_name := name; content := None;
     confidence := None; error := Some (exn_message e) |}.

Definition _execute_single_agent (w : W) (context : ConversationContext)
    (agent_config : AgentConfig) : W * ConversationContext * ExecutionResult :=
  let agent_name := default EmptyString (agent agent_config) in
  let processor :=
    if String.eqb agent_name "rag_agent" then Some (rag_process P)
    else if String.eqb agent_name "scoping_agent" then Some (scoping_process P)
    else if String.eqb agent_name "summarizing_agent" then Some (summarizing_process P)
    else None in
  match processor with
  | Some process =>
      let '(w, context, outcome) := process w context agent_config in
      match outcome with
      | Ok result =>
          (w, context,
           {| success := Agent.success result;
              agent_name := agent_name;
              content := Some (Agent.content result);
              confidence := Some (Agent.confidence result);
              error := Agent.error result |})
      | Raise e => (w, context, failed_result agent_name e)
      end
  | None =>
      (w, context, failed_result agent_name (ValueError ("Unknown agent: " +:+ agent_name)))
  end.

(** [_dependencies_satisfied]. *)
Definition _dependencies_satisfied (depends_on : list string)
    (executed_agents : gmap string ExecutionResult) : bool :=
  forallb (fun dependency =>
             match executed_agents !! dependency with
             | None => false
             | Some r => success r
             end)
          depends_on.

(** The identifier a successful task is tracked under:
    [search_id or scope_focus or agent_name]. *)
Definition agent_id (agent_config : AgentConfig) : string :=
  let agent_name := default EmptyString (agent agent_config) in
  if truthy (search_id agent_config) then default EmptyString (search_id agent_config)
  else if truthy (scope_focus agent_config)
  then default EmptyString (scope_focus agent_config)
  else agent_name.

(** The bookkeeping after a successful task. *)
Definition track (agent_config : AgentConfig) (agent_result : ExecutionResult)
    (executed_agents : gmap string ExecutionResult) : gmap string ExecutionResult :=
  let agent_name := default EmptyString (agent agent_config) in
  let executed_agents := <[agent_id agent_config := agent_result]> executed_agents in
  if String.eqb agent_name "scoping_agent"
  then <["scoping_agent" := agent_result]> executed_agents
  else
    match search_id agent_config with
    | Some sid =>
        if String.eqb agent_name "rag_agent"
        then <[sid := agent_result]> executed_agents
        else executed_agents
    | None => executed_agents
    end.

(** The state of the loop of [_execute_agent_sequence]. *)
Record Loop : Type := {
  world : W;
  context : ConversationContext;
  executed_agents : gmap string ExecutionResult;
  execution_results : list ExecutionResult
}.

(** One iteration of the loop: a task with an unmet dependency is passed
    over ([continue]); otherwise the task is run, its result appended and, when
    successful, tracked.  [_execute_single_agent] catches what a processor
    raises and the other statements of the [try] block do not raise on typed
    configurations, so the handler of the loop has no case here. *)
Definition step (l : Loop) (agent_config : AgentConfig) : Loop :=
  let depends_on := default [] (depends_on agent_config) in
  if negb (_dependencies_satisfied depends_on (executed_agents l)) then l
  else
    let '(w, ctx, agent_result) :=
      _execute_single_agent (world l) (context l) agent_config in
    {| world := w;
       context := ctx;
       executed_agents :=
         if success agent_result
         then track agent_config agent_result (executed_agents l)
         else executed_agents l;
       execution_results := execution_results l ++ [agent_result] |}.

Definition run_loop (l : Loop) (agents_sequence : list AgentConfig) : Loop :=
  foldl step l agents_sequence.

(** The method returns [execution_results]; the final loop state also holds
    the context and the world as the processors left them. *)
Definition _execute_agent_sequence (w : W) (ctx : ConversationContext)
    (agents_sequence : list AgentConfig) : Loop :=
  run_loop {| world := w; context := ctx; executed_agents := ∅;
              execution_results := [] |}
           agents_sequence.

End Executor.

Arguments Loop : clear implicits.
Arguments world {W} _.
Arguments context {W} _.
Arguments executed_agents {W} _.
Arguments execution_results {W} _.

(** *** Result aggregation ([_generate_final_response]) *)

Definition successful_names (execution_results : list ExecutionResult) : value :=
  PList (PStr <$> (agent_name <$> filter (fun r => success r) execution_results)).

(** The last successful result of the summarizing agent. *)
Definition summarizing_result (execution_results : list ExecutionResult)
  : option ExecutionResult :=
  head (filter (fun r => String.eqb (agent_name r) "summarizing_agent" && success r)
               (rev execution_results)).

(** What a [for] loop iterates over. *)
Definition py_iter (v : value) : result (list value) :=
  match v with
  | PList l => Ok l
  | PDict d => Ok (PStr <$> dict_keys d)
  | PStr s => Ok ((fun c => PStr (String c EmptyString)) <$> list_ascii_of_string s)
  | _ => Raise (TypeError "object is not iterable")
  end.

Definition estimate_entry (estimate : value) : result value :=
  match estimate with
  | PDict e =>
      Ok (PDict
            [ ("service_name", default (PStr EmptyString) (dict_get "service_name" e));
              ("description", PStr "Detailed service estimates");
              ("refined_estimates", default (PDict []) (dict_get "refined_estimates" e));
              ("baseline_estimates", default (PDict []) (dict_get "refined_estimates" e));
              ("scope_assumptions", default (PList []) (dict_get "scope_assumptions" e));
              ("next_steps", default (PList []) (dict_get "next_steps" e)) ])
  | _ => Raise (TypeError "object has no attribute 'get'")
  end.

Definition strategy_decision_name (d : StrategyDecision) : value :=
  PStr (default "unknown" (decision d)).

Definition _generate_final_response (strategy_decision : StrategyDecision)
    (execution_results : list ExecutionResult) : result value :=
  match summarizing_result execution_results with
  | Some r =>
      let content := default [] (content r) in
      recommended_services ←
        (if String.eqb (get_str "response_type" content EmptyString) "service_estimates"
         then
           service_estimates ←
             py_iter (default (PList []) (dict_get "service_estimates" content));
           entries ← foldr (fun v acc => e ← estimate_entry v; rest ← acc; Ok (e :: rest))
                           (Ok []) service_estimates;
           Ok (PList entries)
         else Ok (default (PList []) (dict_get "recommended_services" content)));
      Ok (PDict
            [ ("content",
               default (PStr "I'm here to help you with your client consultation.")
                       (dict_get "consultant_message" content));
              ("type", default (PStr "conversational") (dict_get "response_type" content));
              ("metadata",
               PDict
                 [ ("strategy_decision", strategy_decision_name strategy_decision);
                   ("agents_executed", successful_names execution_results);
                   ("confidence", PFloat (default 0%Q (confidence r)));
                   ("recommended_services", recommended_services);
                   ("conversation_guidance",
                    default (PStr EmptyString) (dict_get "conversation_guidance" content));
                   ("suggested_probes",
                    default (PList []) (dict_get "suggested_probes" content));
                   ("business_focus",
                    default (PStr EmptyString) (dict_get "business_focus" content)) ]) ])
  | None =>
      match filter (fun r => success r) execution_results with
      | _ :: _ =>
          Ok (PDict
                [ ("content",
                   PStr "I've analyzed the available information. Let me gather a bit more context to provide you with the best service recommendations for your client.");
                  ("type", PStr "conversational");
                  ("metadata",
                   PDict
                     [ ("strategy_decision", strategy_decision_name strategy_decision);
                       ("agents_executed", successful_names execution_results);
                       ("confidence", PFloat (6 # 10));
                       ("fallback_used", PBool true) ]) ])
      | [] =>
          Ok (PDict
                [ ("content",
                   PStr "I'd like to help you identify the right D&T services for your client. Could you tell me more about their business situation? For example, what industry they're in and what challenges they're facing?");
                  ("type", PStr "conversational");
                  ("metadata",
                   PDict
                     [ ("strategy_decision", strategy_decision_name strategy_decision);
                       ("agents_executed", PList []);
                       ("confidence", PFloat (4 # 10));
                       ("all_agents_failed", PBool true) ]) ])
      end
  end.

(** [_create_error_response]. *)
Definition _create_error_response (message : string) (error : option string) : value :=
  PDict
    [ ("content", PStr message);
      ("type", PStr "conversational");
      ("metadata",
       PDict
         [ ("error_occurred", PBool true);
           ("error_message", match error with Some e => PStr e | None => PNone end);
           ("confidence", PFloat (3 # 10));
           ("suggested_next_steps",
            PList
              [ PStr "Provide more details about the client's industry";
                PStr "Describe specific business challenges they're facing";
                PStr "Share what's driving their need for change" ]) ]) ].

(** *** [process_message] *)

(** What a pipeline run reads and leaves behind: the context manager, the
    gateway state seen by the planner, and the processors' world. *)
Record System (W : Type) : Type := {
  contexts : ContextManager;
  llm_state : Gateway.LLMState;
  processors_world : W
}.
Arguments contexts {W} _.
Arguments llm_state {W} _.
Arguments processors_world {W} _.

Definition planning_trouble : string :=
  "I'm having trouble analyzing your request. Could you provide more details about your client's situation?".

Definition general_trouble : string :=
  "I encountered an issue processing your request. Let me help you with a general approach - could you tell me more about your client's business challenges?".

(** Steps 2 and 3 of [process_message] and its return: the plan is executed,
    the final response composed and appended to the history, the context
    stored.  An exception on the way is caught by the outer handler. *)
Definition run_strategy {W : Type} (P : Processors W) (cm : ContextManager)
    (st : Gateway.LLMState) (w : W) (sid : string) (ctx : ConversationContext)
    (strategy_decision : StrategyDecision) : System W * value :=
  let agents_sequence := default [] (agents_sequence strategy_decision) in
  let l := _execute_agent_sequence P w ctx agents_sequence in
  let outcome :=
    final_response ← _generate_final_response strategy_decision (execution_results l);
    match final_response with
    | PDict d =>
        match dict_get "content" d with
        | Some (PStr text) => Ok (final_response, text)
        | _ => Raise (TypeError "content of the final response is not a string")
        end
    | _ => Raise (TypeError "final response is not a dictionary")
    end in
  match outcome with
  | Ok (final_response, text) =>
      let ctx := add_message (context l) "ai" text in
      ({| contexts := update_context (<[sid := ctx]> cm) ctx;
          llm_state := st; processors_world := world l |},
       PDict
         [ ("success", PBool true);
           ("ai_response", final_response);
           ("agents_executed", successful_names (execution_results l));
           ("strategy_decision", strategy_decision_name strategy_decision) ])
  | Raise e =>
      let error_msg := "Orchestrator failed: " +:+ exn_message e in
      ({| contexts := <[sid := context l]> cm; llm_state := st;
          processors_world := world l |},
       PDict
         [ ("success", PBool false);
           ("error", PStr error_msg);
           ("ai_response", _create_error_response general_trouble (Some error_msg)) ])
  end.

(** The context object handed out by [get_context] is the stored one: what a
    run appends to it is in the store on every exit, which the insertions
    write out.  The elapsed time of the returned dictionary is left out. *)
Definition process_message {W : Type} (P : Processors W) (env : Strategy.PlannerEnv)
    (sys : System W) (sid user_message : string) : System W * value :=
  let '(cm, ctx) := get_context (contexts sys) sid in
  let ctx := add_message ctx "user" user_message in
  let '(st, ctx, strategy_response) :=
    Strategy.process env (llm_state sys) ctx user_message in
  if negb (Agent.success strategy_response) then
    ({| contexts := <[sid := ctx]> cm; llm_state := st;
        processors_world := processors_world sys |},
     _create_error_response planning_trouble (Agent.error strategy_response))
  else
    run_strategy P cm st (processors_world sys) sid ctx (Agent.content strategy_response).

(** *** [generate_analysis_report] *)

Definition str_dict (d : list (string * string)) : value :=
  PDict ((fun kv => (kv.1, PStr kv.2)) <$> d).

Definition pain_point_value (p : PainPoint) : value :=
  PDict [ ("description", PStr (Context.description p));
          ("category", PStr (Context.category p));
          ("urgency", PStr (Context.urgency p)) ].

Definition _create_conversation_summary (ctx : ConversationContext) : value :=
  PDict
    [ ("total_messages", PInt (Z.of_nat (length (conversation_history ctx))));
      ("conversation_phase", PStr (current_phase ctx));
      ("duration", PStr "Active session");
      ("key_topics_discussed", PList (PStr <$> dict_keys (discovered_services ctx))) ].

Definition _create_client_analysis (ctx : ConversationContext) : value :=
  PDict
    [ ("client_context", str_dict (client_context ctx));
      ("business_context", str_dict (business_context ctx));
      ("pain_points", PList (pain_point_value <$> pain_points ctx));
      ("analysis_confidence",
       PStr (if negb (bool_decide (client_context ctx = []))
                && negb (bool_decide (pain_points ctx = []))
             then "High" else "Medium")) ].

(** [x.get(k, default)] on a value that has to be a dictionary. *)
Definition py_get (k : string) (v fallback : value) : result value :=
  match v with
  | PDict d => Ok (default fallback (dict_get k d))
  | _ => Raise (TypeError "object has no attribute 'get'")
  end.

Definition collect {A B : Type} (f : A -> result (list B)) (l : list A)
  : result (list B) :=
  foldr (fun a acc => bs ← f a; rest ← acc; Ok (bs ++ rest)) (Ok []) l.

Definition service_entry (search_id : string) (service : value) : result (list value) :=
  name ← py_get "service_name" service (PStr EmptyString);
  score ← py_get "relevance_score" service (PInt 0);
  descr ← py_get "description" service (PStr EmptyString);
  Ok [ PDict [ ("service_name", name);
               ("relevance_score", score);
               ("description", descr);
               ("source", PStr ("RAG Search " +:+ search_id)) ] ].

Definition _create_service_summary (ctx : ConversationContext) : result value :=
  services ←
    collect (fun kv =>
               relevant ← py_get "relevant_services" kv.2 (PList []);
               items ← py_iter relevant;
               collect (service_entry kv.1) items)
            (rag_results ctx);
  Ok (PList services).

Definition _create_scoping_summary (ctx : ConversationContext) : result value :=
  entries ←
    collect (fun kv =>
               refined ← py_get "refined_estimates" kv.2 (PDict []);
               why ← py_get "scope_rationale" kv.2 (PStr EmptyString);
               conf ← py_get "confidence" kv.2 (PInt 0);
               Ok [ PDict [ ("service_name", PStr kv.1);
                            ("refined_estimates", refined);
                            ("scope_rationale", why);
                            ("confidence", conf) ] ])
            (scoping_results ctx);
  Ok (PList entries).

Definition _create_next_steps (ctx : ConversationContext) : value :=
  let next_steps :=
    (match scoping_results ctx with
     | [] => []
     | _ => [ "Schedule discovery workshops for recommended services";
              "Prepare detailed proposals based on scoped estimates" ]
     end)
    ++
    (match rag_results ctx with
     | [] => []
     | _ => [ "Present service recommendations to client";
              "Gather additional requirements for detailed scoping" ]
     end) in
  PList (PStr <$>
           match next_steps with
           | [] => [ "Continue gathering client context and requirements";
                     "Identify specific business challenges and pain points";
                     "Determine client priorities and timeline" ]
           | _ => next_steps
           end).

Definition report_fields : list string :=
  [ "conversation_summary"; "client_analysis"; "service_recommendations";
    "scoping_analysis"; "next_steps"; "generated_at" ].

(** [now] is the reading of the clock the report is stamped with. *)
Definition generate_analysis_report (cm : ContextManager) (now : Q) (sid : string)
  : ContextManager * value :=
  let '(cm, ctx) := get_context cm sid in
  match conversation_history ctx with
  | [] =>
      (cm,
       PDict [ ("success", PBool false);
               ("error", PStr "No conversation history available for analysis") ])
  | _ :: _ =>
      let report :=
        services ← _create_service_summary ctx;
        scoping ← _create_scoping_summary ctx;
        Ok (PDict
              [ ("success", PBool true);
                ("session_id", PStr sid);
                ("conversation_summary", _create_conversation_summary ctx);
                ("client_analysis", _create_client_analysis ctx);
                ("service_recommendations", services);
                ("scoping_analysis", scoping);
                ("next_steps", _create_next_steps ctx);
                ("generated_at", PFloat now) ]) in
      match report with
      | Ok r => (cm, r)
      | Raise e => (cm, PDict [ ("success", PBool false); ("error", PStr (exn_message e)) ])
      end
  end.

End Orchestrator.

(** ** More of the conversation context ([base_agent.py]) *)

Module ContextOps.
Import Context.

(** [get_recent_messages(count)]: the slice [conversation_history[-count:]].
    For a positive [count] the slice starts [count] places before the end
    (at the start when the history is shorter); [-0] is [0], so a zero count
    gives the whole history; a negative count drops that many turns from the
    start. *)
Definition get_recent_messages (ctx : ConversationContext) (count : Z)
  : list Message :=
  let h := conversation_history ctx in
  if (0 <? count)%Z then drop (length h - Z.to_nat count) h
  else drop (Z.to_nat (- count)) h.

End ContextOps.

(** ** Dynamic dictionary idioms

    The validators below receive whatever [json.loads] produced and use
    [k in x] and [x[k] = v] on it; these are the two operations on a value of
    any kind. *)

Module PyDyn.
Import Py PyStr.

(** The name of the type of a value, as error texts show it. *)
Definition type_name (v : value) : string :=
  match v with
  | PNone => "NoneType"
  | PBool _ => "bool"
  | PInt _ => "int"
  | PFloat _ => "float"
  | PStr _ => "str"
  | PList _ => "list"
  | PDict _ => "dict"
  end.

(** A list holds the string [k]. *)
Definition str_elem (k : string) (l : list value) : bool :=
  existsb (fun v => match v with PStr s => String.eqb s k | _ => false end) l.

(** [k in x] for a string [k]: a key of a dictionary, a substring of a
    string, an element of a list; the other kinds are not iterable. *)
Definition py_in (k : string) (x : value) : result bool :=
  match x with
  | PDict d => Ok (bool_decide (is_Some (dict_get k d)))
  | PStr s => Ok (contains k s)
  | PList l => Ok (str_elem k l)
  | _ => Raise (TypeError "argument is not iterable")
  end.

(** [x[k] = v] for a string [k]: only a dictionary takes it. *)
Definition py_setitem (k : string) (v : value) (x : value) : result value :=
  match x with
  | PDict d => Ok (PDict (dict_set k v d))
  | _ => Raise (TypeError "object does not support item assignment")
  end.

(** [if k not in x: x[k] = v]. *)
Definition ensure_key (k : string) (v : value) (x : value) : result value :=
  present ← py_in k x;
  if (present : bool) then Ok x else py_setitem k v x.

(** [min(x, 1.0)]: [1.0] when it is smaller than [x], else [x] itself. *)
Definition py_min_one (x : value) : result value :=
  match x with
  | PFloat q => Ok (if Qlt_le_dec 1 q then PFloat 1 else x)
  | PInt z => Ok (if (1 <? z)%Z then PFloat 1 else x)
  | PBool _ => Ok x
  | _ => Raise (TypeError "'<' not supported between these instances")
  end.

End PyDyn.

(** ** Refinement through the provider ([agents/scoping.py]) *)

Module Refine.
Import Py PyStr PyDyn Scoping.

(** The dictionary [_mathematical_refinement] returns. *)
Definition refinement_dict (r : Refinement) : value :=
  PDict
    [ ("estimates",
       PDict
         [ ("pricing_range", PStr (refined_pricing_range (estimates r)));
           ("team_composition", PStr (team_composition (estimates r)));
           ("duration", PStr (refined_duration (estimates r)));
           ("key_assumptions", PList (PStr <$> key_assumptions (estimates r))) ]);
      ("rationale", PStr (rationale r));
      ("risks", PList (PStr <$> risks r));
      ("confidence", PFloat (confidence r)) ].

(** [_validate_refinement]: the missing fields of the parsed reply are filled
    in, in place.  The client factors it also receives are not read. *)
Definition _validate_refinement (refinement : value)
    (baseline_estimates : BaselineEstimates) : result value :=
  refinement ← ensure_key "refined_estimates" (PDict []) refinement;
  match refinement with
  | PDict r =>
      match dict_get "refined_estimates" r with
      | Some estimates =>
          estimates ← ensure_key "pricing_range"
                        (PStr (pricing_range baseline_estimates)) estimates;
          estimates ← ensure_key "team_composition"
                        (PStr (team_size baseline_estimates)) estimates;
          estimates ← ensure_key "duration"
                        (PStr (duration baseline_estimates)) estimates;
          estimates ← ensure_key "key_assumptions"
                        (PList [ PStr "Standard complexity assumed";
                                 PStr "Client resources available as needed";
                                 PStr "No major technical blockers" ])
                        estimates;
          refinement ← Ok (PDict (dict_set "refined_estimates" estimates r));
          refinement ← ensure_key "scope_rationale"
                         (PStr "Estimates refined based on client size and industry factors")
                         refinement;
          refinement ← ensure_key "risk_factors"
                         (PList [ PStr "Scope creep potential";
                                  PStr "Resource availability";
                                  PStr "Technical complexity discoveries" ])
                         refinement;
          ensure_key "confidence" (PFloat (7 # 10)) refinement
      | None => Raise (TypeError "refined_estimates")
      end
  | _ => Raise (TypeError "indices must be integers")
  end.

(** [_refine_estimates]: a failing provider call is not caught here; a reply
    that does not parse or does not validate gives the mathematical
    refinement. *)
Definition _refine_estimates (st : Gateway.LLMState) (w : Gateway.Replies)
    (baseline_estimates : BaselineEstimates) (client_factors : list (string * string))
  : Gateway.LLMState * result value :=
  let g := Gateway._generate_response st w in
  (Gateway.state_after g,
   response_text ← Gateway.returned g;
   Ok (match (refinement_result ←
                Extractor._parse_json_response "scoping_agent" response_text;
              _validate_refinement refinement_result baseline_estimates) with
       | Ok validated_refinement => validated_refinement
       | Raise _ =>
           refinement_dict (_mathematical_refinement baseline_estimates client_factors)
       end)).

End Refine.

(** ** Retrieval ([agents/rag.py]) *)

Module Rag.
Import Py PyStr PyDyn Context.

Definition d_and_t_services : list string :=
  [ "Strategy & Design: Cloud";
    "Strategy & Design: Digital";
    "Strategy & Design: AI & Data";
    "Strategy & Design: Cybersecurity";
    "Strategy & Design: Enterprise Architecture";
    "Strategy & Design: Operating Model Design";
    "Execution: Enterprise Solutions";
    "Execution: ERP";
    "Operation: Cybersecurity";
    "Operation: AMS (Application Management Services)";
    "Operation: Advisory as a Service";
    "Execution: Bespoke Solutions" ].

(** [_map_to_dt_service]. *)
Definition _map_to_dt_service (service_name : string) : string :=
  let service_lower := lower service_name in
  if Strategy.any_in ["cloud"; "infrastructure"; "aws"; "azure"] service_lower
  then "Strategy & Design: Cloud"
  else if Strategy.any_in ["data"; "analytics"; "ai"; "ml"; "machine learning"] service_lower
  then "Strategy & Design: AI & Data"
  else if Strategy.any_in ["digital"; "automation"; "process"; "workflow"] service_lower
  then "Strategy & Design: Digital"
  else if Strategy.any_in ["security"; "cybersecurity"; "cyber"] service_lower
  then "Strategy & Design: Cybersecurity"
  else if Strategy.any_in ["enterprise"; "architecture"; "system"] service_lower
  then
    if Strategy.any_in ["sap"; "erp"; "enterprise resource"] service_lower
    then "Execution: ERP"
    else "Strategy & Design: Enterprise Architecture"
  else if Strategy.any_in ["operating model"; "business model"; "operating"] service_lower
  then "Strategy & Design: Operating Model Design"
  else if Strategy.any_in ["implementation"; "development"; "build"; "custom"] service_lower
  then
    if Strategy.any_in ["enterprise"; "large"] service_lower
    then "Execution: Enterprise Solutions"
    else "Execution: Bespoke Solutions"
  else if Strategy.any_in ["operation"; "support"; "maintenance"; "ams"] service_lower
  then
    if Strategy.any_in ["application"; "app"] service_lower
    then "Operation: AMS (Application Management Services)"
    else if Strategy.any_in ["security"; "cyber"] service_lower
    then "Operation: Cybersecurity"
    else "Operation: Advisory as a Service"
  else "Strategy & Design: Cloud".

(** The test of [_validate_service_information] on a service name: some
    service of the list holds it, or is held by it, letter case apart. *)
Definition known_service (service_name : string) : bool :=
  existsb (fun dt_service =>
             contains (lower dt_service) (lower service_name)
             || contains (lower service_name) (lower dt_service))
          d_and_t_services.

(** [_enhance_search_query]. *)
Definition _enhance_search_query (base_query : string) (context : ConversationContext)
  : string :=
  let query_parts := [base_query] in
  let query_parts :=
    match pain_points context with
    | [] => query_parts
    | pains => query_parts ++ [join " " (Context.description <$> pains)]
    end in
  let query_parts :=
    match dict_get "industry" (business_context context) with
    | Some industry => query_parts ++ ["industry " +:+ industry]
    | None => query_parts
    end in
  let query_parts :=
    match dict_get "company_size" (business_context context) with
    | Some company_size => query_parts ++ [company_size +:+ " company"]
    | None => query_parts
    end in
  join " " query_parts.

(** The body of the loop of [_validate_service_information] on one service:
    [None] when the service is passed over. *)
Definition validate_service (service : value) : result (option value) :=
  present ← py_in "service_name" service;
  if negb present then Ok None
  else
    match service with
    | PDict s =>
        match dict_get "service_name" s with
        | Some (PStr service_name) =>
            let s :=
              if known_service service_name then s
              else dict_set "service_name" (PStr (_map_to_dt_service service_name)) s in
            service ← ensure_key "baseline_estimates" (PDict []) (PDict s);
            match service with
            | PDict s =>
                baseline ← Ok (default (PDict []) (dict_get "baseline_estimates" s));
                baseline ← ensure_key "pricing_range"
                             (PStr "To be determined based on scope") baseline;
                baseline ← ensure_key "team_size" (PStr "2-5 consultants") baseline;
                baseline ← ensure_key "duration" (PStr "3-6 months") baseline;
                baseline ← ensure_key "complexity_factors"
                             (PList [ PStr "Client size"; PStr "Integration complexity";
                                      PStr "Timeline requirements" ])
                             baseline;
                service ← ensure_key "relevance_score" (PFloat (7 # 10))
                            (PDict (dict_set "baseline_estimates" baseline s));
                Ok (Some service)
            | _ => Raise (TypeError "service")
            end
        | _ => Raise (TypeError "object has no attribute 'lower'")
        end
    | _ => Raise (TypeError "indices must be integers")
    end.

(** [_validate_service_information]. *)
Definition _validate_service_information (services : value) : result (list value) :=
  services ← Orchestrator.py_iter services;
  foldr (fun service acc =>
           validated ← validate_service service;
           rest ← acc;
           Ok (match validated with Some s => s :: rest | None => rest end))
        (Ok []) services.

(** One result of the knowledge-base search, as [_perform_semantic_search]
    formats it; its metadata is not read below. *)
Record SearchResult : Type := { content : string; score : Q }.

Definition cloud_service (relevance : Q) : value :=
  PDict
    [ ("service_name", PStr "Strategy & Design: Cloud");
      ("relevance_score", PFloat relevance);
      ("description", PStr "Cloud transformation services identified from search results");
      ("baseline_estimates",
       PDict [ ("pricing_range", PStr "To be determined");
               ("team_size", PStr "3-6 consultants");
               ("duration", PStr "4-8 months");
               ("complexity_factors",
                PList [PStr "Current infrastructure"; PStr "Migration complexity"]) ]) ].

Definition data_service (relevance : Q) : value :=
  PDict
    [ ("service_name", PStr "Strategy & Design: AI & Data");
      ("relevance_score", PFloat relevance);
      ("description", PStr "Data and analytics services identified from search results");
      ("baseline_estimates",
       PDict [ ("pricing_range", PStr "To be determined");
               ("team_size", PStr "2-5 consultants");
               ("duration", PStr "3-6 months");
               ("complexity_factors",
                PList [PStr "Data volume"; PStr "Integration requirements"]) ]) ].

Definition default_services : list value :=
  [ PDict
      [ ("service_name", PStr "Strategy & Design: Cloud");
        ("relevance_score", PFloat (8 # 10));
        ("description",
         PStr "Legacy system modernization and cloud migration strategy for scalable banking infrastructure");
        ("baseline_estimates",
         PDict [ ("pricing_range", PStr "$150K - $500K depending on complexity");
                 ("team_size", PStr "4-8 consultants (architects, engineers, project managers)");
                 ("duration", PStr "6-12 months for full transformation");
                 ("complexity_factors",
                  PList [ PStr "Legacy system complexity"; PStr "Data migration scope";
                          PStr "Regulatory compliance"; PStr "Integration requirements" ]) ]) ];
    PDict
      [ ("service_name", PStr "Execution: Bespoke Solutions");
        ("relevance_score", PFloat (7 # 10));
        ("description",
         PStr "Custom application development for modern account opening and data processing systems");
        ("baseline_estimates",
         PDict [ ("pricing_range", PStr "$200K - $800K for enterprise applications");
                 ("team_size", PStr "3-6 developers plus architects");
                 ("duration", PStr "4-8 months development cycle");
                 ("complexity_factors",
                  PList [ PStr "Feature complexity"; PStr "Integration points";
                          PStr "Performance requirements"; PStr "Security standards" ]) ]) ];
    PDict
      [ ("service_name", PStr "Strategy & Design: AI & Data");
        ("relevance_score", PFloat (6 # 10));
        ("description",
         PStr "Modern data architecture and processing solutions for banking operations");
        ("baseline_estimates",
         PDict [ ("pricing_range", PStr "$100K - $400K for data platform");
                 ("team_size", PStr "2-5 data engineers and architects");
                 ("duration", PStr "3-6 months implementation");
                 ("complexity_factors",
                  PList [ PStr "Data volume"; PStr "Real-time requirements";
                          PStr "Compliance needs"; PStr "Integration complexity" ]) ]) ] ].

(** The service a search result gives rise to, if any. *)
Definition detect_service (result : SearchResult) : list value :=
  let content := lower (content result) in
  if contains "cloud" content then [cloud_service (score result)]
  else if contains "data" content || contains "analytics" content
  then [data_service (score result)]
  else [].

(** Python's truth value of a dictionary entry. *)
Definition truthy_value (v : value) : bool :=
  match v with
  | PNone => false
  | PBool b => b
  | PInt z => negb (z =? 0)%Z
  | PFloat q => negb (Qeq_bool q 0)
  | PStr s => negb (is_empty s)
  | PList l => negb (bool_decide (l = []))
  | PDict d => negb (bool_decide (d = []))
  end.

(** The last loop: a service without baseline estimates, or with empty ones,
    gets the generic ones. *)
Definition with_baseline_estimates (service : value) : value :=
  match service with
  | PDict s =>
      match dict_get "baseline_estimates" s with
      | Some b =>
          if truthy_value b then service
          else PDict (dict_set "baseline_estimates"
                 (PDict [ ("pricing_range", PStr "$50K - $300K (varies by scope)");
                          ("team_size", PStr "2-5 consultants");
                          ("duration", PStr "3-6 months");
                          ("complexity_factors",
                           PList [ PStr "Client size"; PStr "Technical complexity";
                                   PStr "Timeline requirements" ]) ]) s)
      | None =>
          PDict (dict_set "baseline_estimates"
                 (PDict [ ("pricing_range", PStr "$50K - $300K (varies by scope)");
                          ("team_size", PStr "2-5 consultants");
                          ("duration", PStr "3-6 months");
                          ("complexity_factors",
                           PList [ PStr "Client size"; PStr "Technical complexity";
                                   PStr "Timeline requirements" ]) ]) s)
      end
  | _ => service
  end.

(** [_create_fallback_services]. *)
Definition _create_fallback_services (search_results : list SearchResult) : list value :=
  match search_results with
  | [] => []
  | _ =>
      let services := search_results ≫= detect_service in
      let services :=
        match services with
        | [] => default_services
        | _ => services
        end in
      firstn 3 (with_baseline_estimates <$> services)
  end.

(** What [_extract_service_information] returns. *)
Record Extracted : Type := {
  services : list value;
  insights : value;
  extraction_confidence : value
}.

(** [_extract_service_information]: without search results no provider is
    asked; a failing provider call is not caught here; a reply that cannot be
    used gives the fallback services. *)
Definition _extract_service_information (st : Gateway.LLMState) (w : Gateway.Replies)
    (search_results : list SearchResult) : Gateway.LLMState * result Extracted :=
  match search_results with
  | [] =>
      (st, Ok {| services := [];
                 insights := PList [PStr "No relevant information found in knowledge base"];
                 extraction_confidence := PFloat (1 # 10) |})
  | _ =>
      let g := Gateway._generate_response st w in
      (Gateway.state_after g,
       response_text ← Gateway.returned g;
       Ok (match (extraction_result ←
                    Extractor._parse_json_response "rag_agent" response_text;
                  relevant ← Orchestrator.py_get "relevant_services"
                               extraction_result (PList []);
                  validated_services ← _validate_service_information relevant;
                  key_insights ← Orchestrator.py_get "key_insights"
                                   extraction_result (PList []);
                  confidence ← Orchestrator.py_get "confidence"
                                 extraction_result (PFloat (5 # 10));
                  confidence ← py_min_one confidence;
                  Ok {| services := validated_services;
                        insights := key_insights;
                        extraction_confidence := confidence |}) with
           | Ok extracted => extracted
           | Raise _ =>
               {| services := _create_fallback_services search_results;
                  insights :=
                    PList [PStr "Extracted basic service information from search results"];
                  extraction_confidence := PFloat (3 # 10) |}
           end))
  end.

End Rag.

(** ** Follow-up questions ([agents/summarizing.py]) *)

Module Summarizing.
Import Py PyStr PyDyn.

(** [_validate_follow_up_response]. *)
Definition _validate_follow_up_response (follow_up : value) (question_focus : value)
  : result value :=
  follow_up ← ensure_key "response_type" (PStr "targeted_follow_up") follow_up;
  follow_up ← ensure_key "consultant_message"
                (PStr "To better understand your client's needs, could you share more details?")
                follow_up;
  follow_up ← ensure_key "information_needed" question_focus follow_up;
  follow_up ← ensure_key "suggested_probes"
                (PList [ PStr "What specific challenges are they facing?";
                         PStr "What's driving their need for change right now?" ])
                follow_up;
  ensure_key "business_focus"
    (PStr "Understanding business impact helps identify the right services") follow_up.

(** [s.replace('_', ' ')]. *)
Fixpoint underscores_to_blanks (s : string) : string :=
  match s with
  | EmptyString => EmptyString
  | String c r =>
      String (if Ascii.eqb c "_" then " "%char else c) (underscores_to_blanks r)
  end.

Definition focus_questions : list (string * list string) :=
  [ ("business_context",
     [ "What industry is your client in, and what makes their business unique?";
       "What are the main business challenges they're trying to solve?";
       "What's driving their urgency to address these issues now?" ]);
    ("pain_points",
     [ "What specific problems are costing them time or money?";
       "How are these issues impacting their daily operations?";
       "What would success look like for them?" ]);
    ("priorities",
     [ "What are their top 3 business priorities this year?";
       "What's their timeline for addressing these challenges?";
       "Who are the key decision makers involved?" ]) ].

(** [_create_structured_follow_up] on a question focus that is a string. *)
Definition _create_structured_follow_up (question_focus : string) : value :=
  let questions :=
    default (default [] (dict_get "business_context" focus_questions))
            (dict_get question_focus focus_questions) in
  PDict
    [ ("response_type", PStr "targeted_follow_up");
      ("consultant_message",
       PStr ("To provide the best service recommendations, I need to understand more about "
             +:+ underscores_to_blanks question_focus +:+ ". Could you share:"));
      ("information_needed", PStr question_focus);
      ("suggested_probes", PList (PStr <$> questions));
      ("business_focus",
       PStr "This information helps us identify which D&T services will deliver the most value for your client") ].


End Summarizing.

(** ** The executor on plans as the planner hands them over

    [Orchestrator] above reads a task at the types the code declares for it.
    The plan itself comes out of [json.loads]: a task is a dictionary whose
    values are of any kind, and the executor uses them as dictionary keys, as
    truth values and as sequences.  This module follows
    [_execute_agent_sequence] on such plans, with the [except] clause of its
    loop.  An [AttributeError] is written as a [TypeError] with its text. *)

Module PlanExecutor.
Import Py PyStr PyDyn Context.

(** *** Values as keys, truth values and sequences *)

(** Lists and dictionaries cannot be keys. *)
Definition hashable (v : value) : bool :=
  match v with
  | PList _ | PDict _ => false
  | _ => true
  end.

Definition unhashable (v : value) : exn :=
  TypeError ("unhashable type: '" +:+ type_name v +:+ "'").

(** The number a key stands for: [True] is 1 and [False] is 0. *)
Definition number (v : value) : option Q :=
  match v with
  | PBool b => Some (if b then 1%Q else 0%Q)
  | PInt z => Some (inject_Z z)
  | PFloat q => Some q
  | _ => None
  end.

(** [a == b] on hashable values: numbers by their value, strings by their
    text, [None] with itself. *)
Definition key_eqb (a b : value) : bool :=
  match a, b with
  | PNone, PNone => true
  | PStr s, PStr t => String.eqb s t
  | _, _ =>
      match number a, number b with
      | Some x, Some y => Qeq_bool x y
      | _, _ => false
      end
  end.

(** [v == s] for a string literal [s]. *)
Definition is_str (s : string) (v : value) : bool :=
  match v with
  | PStr t => String.eqb t s
  | _ => false
  end.

(** Python's truth value. *)
Definition truthy (v : value) : bool :=
  match v with
  | PNone => false
  | PBool b => b
  | PInt z => negb (z =? 0)%Z
  | PFloat q => negb (Qeq_bool q 0)
  | PStr s => negb (is_empty s)
  | PList l => negb (bool_decide (l = []))
  | PDict d => negb (bool_decide (d = []))
  end.

(** [a or b]. *)
Definition py_or (a b : value) : value := if truthy a then a else b.

(** What [for x in v] goes through. *)
Definition elements (v : value) : result (list value) :=
  match v with
  | PList l => Ok l
  | PStr s => Ok ((fun c => PStr (String c EmptyString)) <$> list_ascii_of_string s)
  | PDict d => Ok (PStr <$> dict_keys d)
  | _ => Raise (TypeError ("'" +:+ type_name v +:+ "' object is not iterable"))
  end.

(** *** Results and the map of completed results *)

(** The text under [error]: a text as it stands, or the text of
    [ValueError(f"Unknown agent: {agent_name}")]. *)
Inductive ErrorText : Type :=
  | Text (s : string)
  | UnknownAgent (agent_name : value).

(** One entry of [execution_results]; the fields that only a returned
    response has are optional. *)
Record ExecutionResult : Type := {
  success : bool;
  agent_name : value;
  content : option dict;
  confidence : option Q;
  error : option ErrorText
}.

Definition failed_result (name : value) (e : ErrorText) : ExecutionResult :=
  {| success := false; agent_name := name; content := None;
     confidence := None; error := Some e |}.

(** [executed_agents]: a dictionary with keys of any hashable kind. *)
Abbreviation Tracker := (list (value * ExecutionResult)).

Fixpoint tracker_get (k : value) (m : Tracker) : option ExecutionResult :=
  match m with
  | [] => None
  | (k', r) :: rest => if key_eqb k k' then Some r else tracker_get k rest
  end.

Fixpoint tracker_put (k : value) (r : ExecutionResult) (m : Tracker) : Tracker :=
  match m with
  | [] => [(k, r)]
  | (k', r') :: rest =>
      if key_eqb k k' then (k', r) :: rest else (k', r') :: tracker_put k r rest
  end.

(** [executed_agents[k] = r]. *)
Definition tracker_set (k : value) (r : ExecutionResult) (m : Tracker) : result Tracker :=
  if hashable k then Ok (tracker_put k r m) else Raise (unhashable k).

(** The three task processors, each given the task as it is. *)
Record Agents (W : Type) : Type := {
  rag_agent :
    W -> ConversationContext -> dict ->
    W * ConversationContext * result (Agent.AgentResponse dict);
  scoping_agent :
    W -> ConversationContext -> dict ->
    W * ConversationContext * result (Agent.AgentResponse dict);
  summarizing_agent :
    W -> ConversationContext -> dict ->
    W * ConversationContext * result (Agent.AgentResponse dict)
}.
Arguments rag_agent {W} _.
Arguments scoping_agent {W} _.
Arguments summarizing_agent {W} _.

Section Executor.
Context {W : Type} (A : Agents W).

(** [agent_config.get("agent", "")]. *)
Definition agent_of (agent_config : dict) : value :=
  default (PStr EmptyString) (dict_get "agent" agent_config).

(** [agent_config.get("depends_on", [])]. *)
Definition depends_on_of (agent_config : dict) : value :=
  default (PList []) (dict_get "depends_on" agent_config).

Definition _execute_single_agent (w : W) (context : ConversationContext)
    (agent_config : dict) : W * ConversationContext * ExecutionResult :=
  let agent_name := agent_of agent_config in
  let processor :=
    if is_str "rag_agent" agent_name then Some (rag_agent A)
    else if is_str "scoping_agent" agent_name then Some (scoping_agent A)
    else if is_str "summarizing_agent" agent_name then Some (summarizing_agent A)
    else None in
  match processor with
  | Some process =>
      let '(w, context, outcome) := process w context agent_config in
      match outcome with
      | Ok result =>
          (w, context,
           {| success := Agent.success result;
              agent_name := agent_name;
              content := Some (Agent.content result);
              confidence := Some (Agent.confidence result);
              error := Text <$> Agent.error result |})
      | Raise e => (w, context, failed_result agent_name (Text (exn_message e)))
      end
  | None => (w, context, failed_result agent_name (UnknownAgent agent_name))
  end.

(** The loop of [_dependencies_satisfied]. *)
Fixpoint all_completed (dependencies : list value) (executed_agents : Tracker)
  : result bool :=
  match dependencies with
  | [] => Ok true
  | dependency :: rest =>
      if negb (hashable dependency) then Raise (unhashable dependency)
      else
        match tracker_get dependency executed_agents with
        | None => Ok false
        | Some r => if success r then all_completed rest executed_agents else Ok false
        end
  end.

Definition _dependencies_satisfied (depends_on : value) (executed_agents : Tracker)
  : result bool :=
  if negb (truthy depends_on) then Ok true
  else
    dependencies ← elements depends_on;
    all_completed dependencies executed_agents.

(** [search_id or scope_focus or agent_name]. *)
Definition agent_id (agent_config : dict) : value :=
  py_or (default PNone (dict_get "search_id" agent_config))
        (py_or (default PNone (dict_get "scope_focus" agent_config))
               (agent_of agent_config)).

(** The bookkeeping after a successful task: the map as the statements left
    it, and the exception that stopped them, if any. *)
Definition track (agent_config : dict) (agent_result : ExecutionResult)
    (executed_agents : Tracker) : Tracker * option exn :=
  match tracker_set (agent_id agent_config) agent_result executed_agents with
  | Raise e => (executed_agents, Some e)
  | Ok executed_agents =>
      if is_str "scoping_agent" (agent_of agent_config)
      then (tracker_put (PStr "scoping_agent") agent_result executed_agents, None)
      else
        match dict_get "search_id" agent_config with
        | Some search_id =>
            if is_str "rag_agent" (agent_of agent_config)
            then match tracker_set search_id agent_result executed_agents with
                 | Ok executed_agents => (executed_agents, None)
                 | Raise e => (executed_agents, Some e)
                 end
            else (executed_agents, None)
        | None => (executed_agents, None)
        end
  end.

(** The state of the loop of [_execute_agent_sequence]. *)
Record Loop : Type := {
  world : W;
  context : ConversationContext;
  executed_agents : Tracker;
  execution_results : list ExecutionResult
}.

(** The [except] clause of the loop: a failed result is appended. *)
Definition handler (l : Loop) (agent_config : dict) (e : exn) : Loop :=
  {| world := world l;
     context := context l;
     executed_agents := executed_agents l;
     execution_results :=
       execution_results l
       ++ [failed_result (default (PStr "unknown") (dict_get "agent" agent_config))
             (Text (exn_message e))] |}.

(** One iteration of the loop on a task that is a dictionary. *)
Definition step (l : Loop) (agent_config : dict) : Loop :=
  match _dependencies_satisfied (depends_on_of agent_config) (executed_agents l) with
  | Raise e => handler l agent_config e
  | Ok false => l
  | Ok true =>
      let '(w, ctx, agent_result) :=
        _execute_single_agent (world l) (context l) agent_config in
      if success agent_result then
        let '(tracked, raised) := track agent_config agent_result (executed_agents l) in
        let l :=
          {| world := w; context := ctx; executed_agents := tracked;
             execution_results := execution_results l ++ [agent_result] |} in
        match raised with
        | Some e => handler l agent_config e
        | None => l
        end
      else
        {| world := w; context := ctx; executed_agents := executed_agents l;
           execution_results := execution_results l ++ [agent_result] |}
  end.

(** The loop: a task that is not a dictionary has no [get], and the
    exception leaves the loop, which is outside its [try]. *)
Fixpoint run_loop (l : Loop) (tasks : list value) : Loop * option exn :=
  match tasks with
  | [] => (l, None)
  | PDict agent_config :: rest => run_loop (step l agent_config) rest
  | task :: _ =>
      (l, Some (TypeError ("'" +:+ type_name task +:+ "' object has no attribute 'get'")))
  end.

(** [_execute_agent_sequence]: the final state of the loop, whose
    [execution_results] the method returns, or the exception it raises. *)
Definition _execute_agent_sequence (w : W) (ctx : ConversationContext)
    (agents_sequence : value) : Loop * option exn :=
  let l := {| world := w; context := ctx; executed_agents := [];
              execution_results := [] |} in
  match agents_sequence with
  | PNone | PBool _ | PInt _ | PFloat _ =>
      (l, Some (TypeError ("object of type '" +:+ type_name agents_sequence
                           +:+ "' has no len()")))
  | _ =>
      match elements agents_sequence with
      | Ok tasks => run_loop l tasks
      | Raise e => (l, Some e)
      end
  end.

End Executor.

Arguments Loop : clear implicits.
Arguments world {W} _.
Arguments context {W} _.
Arguments executed_agents {W} _.
Arguments execution_results {W} _.

End PlanExecutor.

(** ** Plan validation on the parsed reply ([agents/strategy.py])

    [Strategy._validate_strategy_decision] above reads the plan at the types
    the code declares for it.  The method itself is given what [json.loads]
    returned and looks at no type: it tests keys with [in], reads them with
    [[]] and writes the missing ones.  This module follows it on any value. *)

Module PlanValidation.
Import Py PyStr PyDyn.

(** What validation raises: one of its four [ValueError]s, or an exception
    of the interpreter on a value of the wrong kind (a [TypeError]), whose
    text is left out. *)
Inductive Refusal : Type :=
  | MissingDecision
  | InvalidDecision (found : value)
  | MissingSequence
  | MissingAgent (i : nat)
  | Interpreter.

Inductive checked (A : Type) : Type :=
  | Valid (a : A)
  | Refused (r : Refusal).
Arguments Valid {A} a.
Arguments Refused {A} r.

#[global] Instance checked_ret : MRet checked := fun A a => Valid a.
#[global] Instance checked_bind : MBind checked := fun A B k c =>
  match c with
  | Valid a => k a
  | Refused r => Refused r
  end.

Definition lift {A : Type} (r : result A) : checked A :=
  match r with
  | Ok a => Valid a
  | Raise _ => Refused Interpreter
  end.

(** [x[k]] for a string [k]. *)
Definition py_getitem (k : string) (x : value) : checked value :=
  match x with
  | PDict d =>
      match dict_get k d with
      | Some v => Valid v
      | None => Refused Interpreter
      end
  | _ => Refused Interpreter
  end.

(** The first loop: every task has an "agent"; a missing "depends_on"
    becomes the empty list.  [i] is the index of the first task of [tasks]. *)
Fixpoint first_loop (i : nat) (tasks : list value) : checked (list value) :=
  match tasks with
  | [] => Valid []
  | agent_config :: rest =>
      present ← lift (py_in "agent" agent_config);
      if negb (present : bool) then Refused (MissingAgent i)
      else
        agent_config ← lift (ensure_key "depends_on" (PList []) agent_config);
        rest ← first_loop (S i) rest;
        Valid (agent_config :: rest)
  end.

(** The inner loop: the search id of the first retrieval task. *)
Fixpoint first_rag_search_id (tasks : list value) : checked (option value) :=
  match tasks with
  | [] => Valid None
  | rag_agent :: rest =>
      agent ← py_getitem "agent" rag_agent;
      if PlanExecutor.is_str "rag_agent" agent
      then
        match rag_agent with
        | PDict d => Valid (Some (default (PStr "search_1") (dict_get "search_id" d)))
        | _ => Refused Interpreter
        end
      else first_rag_search_id rest
  end.

(** The body of the second loop on one task; [tasks] is the whole list. *)
Definition ensure_baseline_source (decision_name : value) (tasks : list value)
    (agent_config : value) : checked value :=
  agent ← py_getitem "agent" agent_config;
  if PlanExecutor.is_str "scoping_agent" agent then
    present ← lift (py_in "baseline_source" agent_config);
    if (present : bool) then Valid agent_config
    else if PlanExecutor.is_str "provide_estimates" decision_name
    then lift (py_setitem "baseline_source" (PStr "direct_lookup") agent_config)
    else
      found ← first_rag_search_id tasks;
      match found with
      | Some search_id => lift (py_setitem "baseline_source" search_id agent_config)
      | None => Valid agent_config
      end
  else Valid agent_config.

Fixpoint for_each (f : value -> checked value) (tasks : list value)
  : checked (list value) :=
  match tasks with
  | [] => Valid []
  | task :: rest =>
      task ← f task;
      rest ← for_each f rest;
      Valid (task :: rest)
  end.

(** [_validate_strategy_decision].  The tasks of a list are changed in
    place, so that the plan returned holds the changed list; the characters of
    a string and the keys of a dictionary are looked at and not changed. *)
Definition _validate_strategy_decision (decision : value) : checked value :=
  present ← lift (py_in "decision" decision);
  if negb (present : bool) then Refused MissingDecision
  else
    name ← py_getitem "decision" decision;
    if negb (existsb (fun known => PlanExecutor.is_str known name)
                     Strategy.valid_decisions)
    then Refused (InvalidDecision name)
    else
      present ← lift (py_in "agents_sequence" decision);
      if negb (present : bool) then Refused MissingSequence
      else
        agents_sequence ← py_getitem "agents_sequence" decision;
        tasks ← lift (PlanExecutor.elements agents_sequence);
        tasks ← first_loop 0 tasks;
        tasks ← for_each (ensure_baseline_source name tasks) tasks;
        match agents_sequence with
        | PList _ => lift (py_setitem "agents_sequence" (PList tasks) decision)
        | _ => Valid decision
        end.

End PlanValidation.

(** * Vocabulary of the statements and sample inputs *)

Module GatewaySpec.
Import Gateway.

(** The state left by the call [w] made after the calls [before]. *)
Definition tripped (st : LLMState) (before : list Replies) (w : Replies) : LLMState :=
  state_after (_generate_response (final_state st before) w).

Definition both_up : Replies :=
  {| gemini_reply := Some "ok"; groq_reply := Some "ok" |}.
Definition primary_down : Replies :=
  {| gemini_reply := None; groq_reply := Some "from groq" |}.

End GatewaySpec.

Module RubricSpec.
Import PyStr Context Strategy.



Definition one_turn (text : string) : ConversationContext :=
  add_message (new_context "session") "user" text.

End RubricSpec.

Module ScopingSpec.
Import Py Context Baseline Scoping.

Definition tier_1 : Tier :=
  {| Baseline.tier := "Tier 1: Focused Strategy";
     price_range := "$75,000 - $200,000";
     Baseline.team_size := "2-4 people";
     Baseline.duration := "4-8 weeks";
     Baseline.description :=
       "A focused strategy for an SMB, single department, or limited scope." |}.

Definition tier_2 : Tier :=
  {| Baseline.tier := "Tier 2: Comprehensive Strategy";
     price_range := "$200,000 - $600,000";
     Baseline.team_size := "5-12+ people";
     Baseline.duration := "3-7 months";
     Baseline.description :=
       "A comprehensive strategy for mid-market clients, including detailed financial and security planning." |}.

Definition tier_3 : Tier :=
  {| Baseline.tier := "Tier 3: Enterprise Transformation Roadmap";
     price_range := "$600,000 - $2,500,000+";
     Baseline.team_size := "5-12+ people";
     Baseline.duration := "3-7 months";
     Baseline.description :=
       "A full transformation roadmap for a large, regulated enterprise with complex legacy systems." |}.

Definition pilot_tier : Tier :=
  {| Baseline.tier := "Only tier";
     price_range := "$10,000";
     Baseline.team_size := "1 person";
     Baseline.duration := "2 weeks";
     Baseline.description := "A single-tier service." |}.

(** A table with a three-tier service (the first entry of the data file) and
    a one-tier service. *)
Definition sample_estimates : EstimatesData :=
  [ ("Strategy & Design: Cloud", [tier_1; tier_2; tier_3]);
    ("Pilot", [pilot_tier]) ].

(** The client factors of the specification's example: enterprise size,
    regulated industry, legacy maturity, urgent. *)
Definition example_factors : list (string * string) :=
  [ ("size", "enterprise"); ("industry", "regulated"); ("complexity", "high");
    ("urgency", "urgent"); ("technical_maturity", "legacy");
    ("integration_needs", "moderate") ].

(** A context whose analysis yields [example_factors]. *)
Definition example_client : ConversationContext :=
  with_facts (new_context "session")
    [ ("company_size", "Enterprise"); ("industry", "Banking/Financial Services") ]
    [ ("timeline", "urgent"); ("technology_maturity", "Legacy systems") ]
    [].

(** The multiplier the table gives a factor value, 1.0 when it has none. *)
Definition multiplier_of (factor_type factor_value : string) : Q :=
  match dict_get factor_type complexity_multipliers with
  | Some table => default 1%Q (dict_get factor_value table)
  | None => 1%Q
  end.

End ScopingSpec.

Module ReportSpec.
Import Py.

(** The value under a key of a returned dictionary. *)
Definition field (k : string) (v : value) : option value :=
  match v with
  | PDict d => dict_get k d
  | _ => None
  end.

End ReportSpec.

Module ExecutorSpec.
Import Py Context Agent Orchestrator.


(** The generic agent-kind name of a task. *)
Definition generic_name (agent_config : AgentConfig) : string :=
  default EmptyString (agent agent_config).

(** Processors that always succeed, with a fixed payload. *)
Definition canned (name : string) (payload : dict)
  : unit -> ConversationContext -> AgentConfig ->
    unit * ConversationContext * result (AgentResponse dict) :=
  fun w ctx _ =>
    (w, ctx,
     Ok {| Agent.success := true; Agent.agent_name := name;
           Agent.content := payload; Agent.confidence := (8 # 10)%Q;
           Agent.error := None |}).

Definition always_succeed : Processors unit :=
  {| rag_process := canned "rag_agent" [("relevant_services", PList [])];
     scoping_process := canned "scoping_agent" [("refined_estimates", PDict [])];
     summarizing_process :=
       canned "summarizing_agent"
         [ ("consultant_message", PStr "Here is what I recommend.");
           ("response_type", PStr "service_recommendations") ] |}.


End ExecutorSpec.

Module ValidationSpec.
Import Py Agent Strategy.

(** The repair as the specification words it: a refine task without a
    baseline source gets "direct_lookup" when the decision is
    [provide_estimates], otherwise the identifier of the first retrieve task
    among the tasks that precede it; everything else is left as it was. *)
Definition repair_as_specified (dec : string) (preceding : list AgentConfig)
    (agent_config : AgentConfig) : AgentConfig :=
  if is_agent "scoping_agent" agent_config then
    match baseline_source agent_config with
    | Some _ => agent_config
    | None =>
        if String.eqb dec "provide_estimates"
        then with_baseline_source agent_config "direct_lookup"
        else match first_rag_search_id preceding with
             | Some sid => with_baseline_source agent_config sid
             | None => agent_config
             end
    end
  else agent_config.

Fixpoint repair_all_as_specified (dec : string) (preceding seq : list AgentConfig)
  : list AgentConfig :=
  match seq with
  | [] => []
  | c :: rest =>
      repair_as_specified dec preceding c
      :: repair_all_as_specified dec (preceding ++ [c]) rest
  end.

Definition validated_as_specified (d : StrategyDecision) : StrategyDecision :=
  {| decision := decision d;
     agents_sequence :=
       repair_all_as_specified (default EmptyString (decision d)) []
         <$> agents_sequence d;
     other_fields := other_fields d |}.

(** What validation makes of one task of the plan [seq]: a missing
    [depends_on] becomes the empty list, and a refine task without a baseline
    source gets "direct_lookup" under [provide_estimates], otherwise the
    search id ("search_1" when it declares none) of the first retrieve task
    anywhere in the plan, if there is one. *)
Definition repaired_baseline_source (dec : string) (seq : list AgentConfig)
    (c : AgentConfig) : option string :=
  match baseline_source c with
  | Some b => Some b
  | None =>
      if is_agent "scoping_agent" c then
        if String.eqb dec "provide_estimates" then Some "direct_lookup"
        else first_rag_search_id seq
      else None
  end.

Definition repaired (dec : string) (seq : list AgentConfig) (c : AgentConfig)
  : AgentConfig :=
  {| agent := agent c; search_id := search_id c; search_focus := search_focus c;
     scope_focus := scope_focus c;
     baseline_source := repaired_baseline_source dec seq c;
     response_type := response_type c; question_focus := question_focus c;
     depends_on := Some (default [] (depends_on c)); other := other c |}.

(** The first loop of validation on one task that names its agent. *)
Definition add_depends_on (c : AgentConfig) : AgentConfig :=
  match depends_on c with
  | None => with_depends_on c []
  | Some _ => c
  end.

(** A plan whose refine task comes before its retrieve task, neither with a
    [depends_on] key. *)
Definition refine_task : AgentConfig :=
  {| agent := Some "scoping_agent"; search_id := None; search_focus := None;
     scope_focus := Some "Strategy & Design: Cloud"; baseline_source := None;
     response_type := None; question_focus := None; depends_on := None;
     other := [] |}.

Definition retrieve_task : AgentConfig :=
  {| agent := Some "rag_agent"; search_id := Some "search_2";
     search_focus := Some "cloud migration"; scope_focus := None;
     baseline_source := None; response_type := None; question_focus := None;
     depends_on := None; other := [] |}.

Definition refine_first_plan : StrategyDecision :=
  {| decision := Some "execute_pipeline";
     agents_sequence := Some [refine_task; retrieve_task];
     other_fields := [] |}.

Definition refine_first_validated : StrategyDecision :=
  {| decision := Some "execute_pipeline";
     agents_sequence :=
       Some [ with_baseline_source (with_depends_on refine_task []) "search_2";
              with_depends_on retrieve_task [] ];
     other_fields := [] |}.

End ValidationSpec.

Module PipelineSpec.
Import Py Context Agent Strategy Orchestrator.



(** Both providers fail. *)
Definition providers_down : PlannerEnv :=
  {| prompt_error := None;
     replies := {| Gateway.gemini_reply := None; Gateway.groq_reply := None |} |}.

Definition fresh_system : System unit :=
  {| contexts := ∅; llm_state := Gateway.llm_state_init; processors_world := tt |}.



End PipelineSpec.

Module ExtractorSpec.
Import Py PyStr.

(** Prose, a fenced block, prose. *)
Definition fenced (fence before interior after : string) : string :=
  before +:+ fence +:+ interior +:+ "```" +:+ after.



(** A reply whose object holds a nested object and echoes a template marker. *)
Definition marker_in_string : string :=
  Json.quoted "{'plan': {'step': 1}, 'note': 'Always respond with valid JSON'}".

Definition plain_object : string := Json.quoted "{'decision': 'gather_more_context'}".

End ExtractorSpec.

Module EndToEndSpec.
Import Py Context Agent Strategy Orchestrator.

(** A planner reply: a fenced plan whose composition task depends on the
    retrieval task through [dependency]. *)
Definition planner_reply (dependency : string) : string :=
  "Here is the plan." +:+ nl +:+ "```json" +:+ nl
  +:+ Json.quoted
        ("{'decision': 'execute_pipeline', 'agents_sequence': ["
         +:+ "{'agent': 'rag_agent', 'search_id': 'search_1', 'search_focus': 'cloud'}, "
         +:+ "{'agent': 'summarizing_agent', 'response_type': 'service_recommendations', "
         +:+ "'depends_on': ['" +:+ dependency +:+ "']}]}")
  +:+ nl +:+ "```".

Definition planner_answers (dependency : string) : PlannerEnv :=
  {| prompt_error := None;
     replies := {| Gateway.gemini_reply := Some (planner_reply dependency);
                   Gateway.groq_reply := None |} |}.

End EndToEndSpec.

Module ContextSpec.
Import Context.

Definition three_turns : ConversationContext :=
  add_message
    (add_message (add_message (new_context "s") "user" "one") "ai" "two")
    "user" "three".

End ContextSpec.

Module ExtractorMoreSpec.
Import Py PyStr.

(** A reply that echoes the template marker before its answer. *)
Definition echoed_template : string :=
  "Always respond with valid JSON. " +:+ Json.quoted "{'decision': 'gather_more_context'}"
  +:+ " Thanks.".

End ExtractorMoreSpec.

Module PlanSpec.
Import Py Agent Strategy.

(** A plan whose second task names no agent. *)
Definition nameless_task_plan : StrategyDecision :=
  {| decision := Some "execute_pipeline";
     agents_sequence :=
       Some [ fallback_retrieve;
              {| agent := None; search_id := None; search_focus := None;
                 scope_focus := None; baseline_source := None;
                 response_type := Some "service_recommendations";
                 question_focus := None; depends_on := None; other := [] |} ];
     other_fields := [] |}.

End PlanSpec.

Module ExtractionSpec.
Import Py Context Strategy.

(** The order of the assessments: insufficient, partial, sufficient. *)
Definition rank (a : Assessment) : nat :=
  match a with
  | Insufficient => 0
  | Partial => 1
  | Sufficient => 2
  end.

Definition client_keys : list string := ["industry"; "location"; "company_size"].

Definition business_keys : list string :=
  ["technology_maturity"; "key_drivers"; "specific_processes"].

(** The text the extraction searches: the history and the utterance, joined
    and lowered. *)
Definition all_text_of (context : ConversationContext) (user_input : string) : string :=
  PyStr.lower (PyStr.join " "
    ((Context.content <$> conversation_history context) ++ [user_input])).

(** The client facts and the business facts after the extraction on a text. *)
Definition client_facts (all_text : string) (d : list (string * string))
  : list (string * string) :=
  set_if (PyStr.contains "regional" all_text) "company_size" "Regional/Medium Enterprise"
    (set_if (PyStr.contains "qatari" all_text || PyStr.contains "qatar" all_text)
       "location" "Qatar"
       (set_if (PyStr.contains "bank" all_text) "industry" "Banking/Financial Services" d)).

Definition business_facts (all_text : string) (d : list (string * string))
  : list (string * string) :=
  set_if (any_in ["account opening"; "new accounts"] all_text)
    "specific_processes" "Account opening processes"
    (set_if (any_in ["scalability"; "scale"; "demand"; "growth"] all_text)
       "key_drivers" "Scalability and growth"
       (set_if (any_in ["legacy"; "old"; "outdated"] all_text)
          "technology_maturity" "Legacy systems" d)).

(** One keyword of the pain-point table. *)
Definition note_pain_point (all_text : string) (acc : list PainPoint)
    (kd : string * string) : list PainPoint :=
  if PyStr.contains kd.1 all_text then
    if bool_decide (pain_point_of kd.1 kd.2 ∈ acc) then acc
    else acc ++ [pain_point_of kd.1 kd.2]
  else acc.

Definition bank_turn : ConversationContext :=
  add_message (new_context "s") "user"
    "A regional bank in Qatar with legacy applications and scalability trouble".

End ExtractionSpec.

Module DynSpec.
Import Py PyStr PyDyn.

(** The dictionary after [if k not in d: d[k] = v]. *)
Definition filled (k : string) (v : value) (d : dict) : dict :=
  if bool_decide (is_Some (dict_get k d)) then d else dict_set k v d.

(** Every key of [keys] is [in] the value. *)
Definition has_keys (keys : list string) (x : value) : Prop :=
  Forall (fun k => py_in k x = Ok true) keys.

End DynSpec.

Module RefineSpec.
Import Py PyStr.

(** The reply has no refined estimates or has them as a dictionary. *)
Definition replied_estimates (r : dict) : Prop :=
  match dict_get "refined_estimates" r with
  | None | Some (PDict _) => True
  | Some _ => False
  end.

Definition estimate_keys : list string :=
  [ "pricing_range"; "team_composition"; "duration"; "key_assumptions" ].

Definition refinement_keys : list string :=
  [ "scope_rationale"; "risk_factors"; "confidence" ].

Definition priced_reply : dict :=
  [ ("refined_estimates", PDict [ ("pricing_range", PStr "$180K - $240K") ]);
    ("confidence", PFloat (9 # 10)) ].

End RefineSpec.

Module RagSpec.
Import Py PyStr PyDyn DynSpec Rag.

Definition baseline_keys : list string :=
  [ "pricing_range"; "team_size"; "duration"; "complexity_factors" ].

(** A service as [_validate_service_information] lets it through. *)
Definition complete_service (s : value) : Prop :=
  exists d n b,
    s = PDict d
    /\ dict_get "service_name" d = Some (PStr n)
    /\ known_service n = true
    /\ dict_get "baseline_estimates" d = Some b
    /\ has_keys baseline_keys b
    /\ is_Some (dict_get "relevance_score" d).

(** A service of the list with estimates that are not empty. *)
Definition listed_with_estimates (s : value) : Prop :=
  exists d n b,
    s = PDict d
    /\ dict_get "service_name" d = Some (PStr n)
    /\ n ∈ d_and_t_services
    /\ dict_get "baseline_estimates" d = Some b
    /\ truthy_value b = true.

Definition named_with_estimates (s : value) : Prop :=
  exists d,
    s = PDict d
    /\ is_Some (dict_get "service_name" d)
    /\ is_Some (dict_get "baseline_estimates" d).

Definition extracted_services : value :=
  PList [ PDict [ ("service_name", PStr "Cloud migration") ];
          PDict [ ("description", PStr "A service without a name") ] ].

End RagSpec.

Module FollowUpSpec.
Import Context.

(** The questions of a follow-up. *)
Definition py_get_probes (follow_up : Py.value) : option Py.value :=
  match follow_up with
  | Py.PDict d => Py.dict_get "suggested_probes" d
  | _ => None
  end.


End FollowUpSpec.

Module TurnSpec.
Import Py Context Agent Orchestrator.

(** No processor touches the conversation history of the context it is
    given. *)
Definition keeps_history {W : Type} (P : Processors W) : Prop :=
  forall (w : W) (ctx : ConversationContext) (agent_config : AgentConfig),
    conversation_history (rag_process P w ctx agent_config).1.2
    = conversation_history ctx
    /\ conversation_history (scoping_process P w ctx agent_config).1.2
       = conversation_history ctx
    /\ conversation_history (summarizing_process P w ctx agent_config).1.2
       = conversation_history ctx.

(** The message of a response of the summarizing agent is a string, when
    there is one. *)
Definition message_is_text (c : dict) : Prop :=
  match dict_get "consultant_message" c with
  | Some (PStr _) | None => True
  | Some _ => False
  end.

Definition answers_in_text {W : Type} (P : Processors W) : Prop :=
  forall (w : W) (ctx : ConversationContext) (agent_config : AgentConfig)
         (r : AgentResponse dict),
    (summarizing_process P w ctx agent_config).2 = Ok r ->
    message_is_text (Agent.content r).

(** The same of the results of the summarizing agent in a list of results. *)
Definition texts_ok (results : list ExecutionResult) : Prop :=
  Forall (fun r => agent_name r = "summarizing_agent" ->
                   forall c, content r = Some c -> message_is_text c)
         results.

(** The history of a session as stored, empty for a session not seen yet. *)
Definition stored_history (cm : ContextManager) (sid : string) : list Message :=
  match cm !! sid with
  | Some ctx => conversation_history ctx
  | None => []
  end.

Definition turn (r c : string) : Message := {| role := r; Context.content := c |}.

(** The [success] entry of what [process_message] returns is [True]. *)
Definition reports_success (reply : value) : bool :=
  match reply with
  | PDict d => match dict_get "success" d with
               | Some (PBool true) => true
               | _ => false
               end
  | _ => false
  end.

(** The text of the reply, when there is one. *)
Definition reply_text (reply : value) : option string :=
  match reply with
  | PDict d =>
      match dict_get "ai_response" d with
      | Some (PDict a) =>
          match dict_get "content" a with
          | Some (PStr text) => Some text
          | _ => None
          end
      | _ => None
      end
  | _ => None
  end.

(** The tasks of the plan have no dependencies. *)
Definition independent (agents_sequence : list AgentConfig) : Prop :=
  Forall (fun c => default [] (depends_on c) = []) agents_sequence.

(** What the loop keeps true of the map of completed results. *)
Definition tracked_ok {W : Type} (l : Loop W) : Prop :=
  forall k r, executed_agents l !! k = Some r ->
              success r = true /\ r ∈ execution_results l.

Definition unknown_task : AgentConfig :=
  {| agent := Some "pricing_agent"; search_id := None; search_focus := None;
     scope_focus := None; baseline_source := None; response_type := None;
     question_focus := None; depends_on := None; other := [] |}.

End TurnSpec.

Module KeySpec.
Import Py Context Agent Orchestrator ExecutorSpec.

(** The names a task can be recorded under: its identifier, the generic name
    of the scoping agent, the search id of a retrieval task. *)
Definition records_under (agent_config : AgentConfig) (k : string) : Prop :=
  k = agent_id agent_config
  \/ (generic_name agent_config = "scoping_agent" /\ k = "scoping_agent")
  \/ (generic_name agent_config = "rag_agent" /\ search_id agent_config = Some k).

Definition keys_from {W : Type} (agents_sequence : list AgentConfig) (l : Loop W) : Prop :=
  forall k, is_Some (executed_agents l !! k) ->
            exists agent_config,
              agent_config ∈ agents_sequence /\ records_under agent_config k.

End KeySpec.

Module ReportShapeSpec.
Import Py.

(** The outcome of a report, read as a dictionary with a [success] entry. *)
Definition report_outcome (report : value) : option (dict * bool) :=
  match report with
  | PDict d =>
      match dict_get "success" d with
      | Some (PBool b) => Some (d, b)
      | _ => None
      end
  | _ => None
  end.

End ReportShapeSpec.

Module PlanExecutorSpec.
Import Py Context PlanExecutor.

(** The values the task is tracked and looked for under can be keys: its
    agent, search id and scope focus, and its dependencies (a list, or
    nothing that counts as true). *)
Definition keyed (agent_config : dict) : Prop :=
  hashable (agent_of agent_config) = true
  /\ hashable (default PNone (dict_get "search_id" agent_config)) = true
  /\ hashable (default PNone (dict_get "scope_focus" agent_config)) = true
  /\ (truthy (depends_on_of agent_config) = false
      \/ exists dependencies,
           depends_on_of agent_config = PList dependencies
           /\ Forall (fun d => hashable d = true) dependencies).

(** The task has no dependencies. *)
Definition free (agent_config : dict) : Prop :=
  truthy (depends_on_of agent_config) = false.

(** Agents that always succeed, with a fixed payload. *)
Definition replying (name : string) (payload : dict)
  : unit -> ConversationContext -> dict ->
    unit * ConversationContext * result (Agent.AgentResponse dict) :=
  fun w ctx _ =>
    (w, ctx,
     Ok {| Agent.success := true; Agent.agent_name := name;
           Agent.content := payload; Agent.confidence := (8 # 10)%Q;
           Agent.error := None |}).

Definition all_succeed : Agents unit :=
  {| rag_agent := replying "rag_agent" [("relevant_services", PList [])];
     scoping_agent := replying "scoping_agent" [("refined_estimates", PDict [])];
     summarizing_agent :=
       replying "summarizing_agent"
         [ ("consultant_message", PStr "Could you tell me more about the client?");
           ("response_type", PStr "targeted_follow_up") ] |}.

(** A follow-up task that carries a list of services as its scope focus. *)
Definition follow_up_on_two_services : dict :=
  [ ("agent", PStr "summarizing_agent");
    ("response_type", PStr "targeted_follow_up");
    ("scope_focus", PList [ PStr "Strategy & Design: Cloud"; PStr "Execution: ERP" ]);
    ("depends_on", PList []) ].

(** A task whose dependency is written as a list inside the list. *)
Definition compose_after_nested : dict :=
  [ ("agent", PStr "summarizing_agent");
    ("response_type", PStr "service_recommendations");
    ("depends_on", PList [ PList [ PStr "search_1" ] ]) ].

Definition search_task : dict :=
  [ ("agent", PStr "rag_agent");
    ("search_id", PStr "search_1");
    ("search_focus", PStr "cloud migration");
    ("depends_on", PList []) ].

End PlanExecutorSpec.

Module PlanValidationSpec.
Import Py PyStr PlanValidation.

(** A task that validation lets through, and a task as validation leaves
    it. *)
Definition names_agent (task : value) : Prop :=
  exists d, task = PDict d /\ is_Some (dict_get "agent" d).

Definition ready (task : value) : Prop :=
  exists d, task = PDict d
            /\ is_Some (dict_get "agent" d)
            /\ is_Some (dict_get "depends_on" d).

(** A sequence of tasks: a list of them, or one of the two empty values that
    a loop also goes through. *)
Definition sequence_of (P : value -> Prop) (agents_sequence : value) : Prop :=
  (exists tasks, agents_sequence = PList tasks /\ Forall P tasks)
  \/ agents_sequence = PStr EmptyString
  \/ agents_sequence = PDict [].

(** A plan that validation accepts: a dictionary with one of the three known
    decisions and a sequence of tasks that each have an "agent". *)
Definition well_formed (plan : value) : Prop :=
  exists D name agents_sequence,
    plan = PDict D
    /\ dict_get "decision" D = Some (PStr name)
    /\ str_in name Strategy.valid_decisions = true
    /\ dict_get "agents_sequence" D = Some agents_sequence
    /\ sequence_of names_agent agents_sequence.

(** [plan.get("agents_sequence", [])], as [process_message] reads it. *)
Definition sequence_in (plan : value) : value :=
  match plan with
  | PDict D => default (PList []) (dict_get "agents_sequence" D)
  | _ => PList []
  end.

Definition decision_in (plan : value) : option value :=
  match plan with
  | PDict D => dict_get "decision" D
  | _ => None
  end.

(** A plan whose follow-up task carries a list as its scope focus. *)
Definition follow_up_plan : value :=
  PDict [ ("decision", PStr "gather_more_context");
          ("agents_sequence", PList [ PDict PlanExecutorSpec.follow_up_on_two_services ]) ].

(** A plan without task list, as a reply may give it. *)
Definition null_sequence_plan : value :=
  PDict [ ("decision", PStr "execute_pipeline"); ("agents_sequence", PNone) ].

End PlanValidationSpec.

(** * Properties *)

(** ** Provider gateway *)

Module GatewayFacts.
Import Gateway GatewaySpec.

Lemma sticky_call st w :
  should_use_groq st = true ->
  called (_generate_response st w) = [Groq]
  /\ state_after (_generate_response st w) = st.
Proof.
  intros Hflag. unfold _generate_response. rewrite Hflag. done.
Qed.

Lemma flag_kept_by_call st w :
  should_use_groq st = true ->
  should_use_groq (state_after (_generate_response st w)) = true.
Proof.
  intros Hflag. destruct (sticky_call st w Hflag) as [_ ->]. done.
Qed.

Lemma flag_kept_by_op st op :
  should_use_groq st = true -> should_use_groq (apply_op st op) = true.
Proof.
  destruct op; simpl; auto using flag_kept_by_call.
Qed.

Lemma flag_kept_by_ops ops : forall st,
  should_use_groq st = true -> should_use_groq (foldl apply_op st ops) = true.
Proof.
  induction ops as [|op ops IH]; intros st Hflag; simpl; [done|].
  apply IH, flag_kept_by_op, Hflag.
Qed.

Lemma failed_primary_sets_flag st w :
  primary_failed st w = true ->
  called (_generate_response st w) = [Gemini; Groq]
  /\ should_use_groq (state_after (_generate_response st w)) = true.
Proof.
  unfold primary_failed, _generate_response.
  destruct (should_use_groq st); simpl; [done|].
  destruct (gemini_reply w) as [text|]; simpl; [|done].
  intros Hfail. done.
Qed.

Lemma sticky_run ws : forall st,
  should_use_groq st = true ->
  Forall (fun g => called g = [Groq] /\ should_use_groq (state_after g) = true)
         (generate_all st ws).
Proof.
  induction ws as [|w ws IH]; intros st Hflag; simpl; constructor.
  - destruct (sticky_call st w Hflag) as [-> ->]. done.
  - apply IH, flag_kept_by_call, Hflag.
Qed.

(** C4.  Once a call finds the primary provider failing, that call sets the
    process-wide flag; every later call, whatever its replies, calls the
    secondary provider only and leaves the flag set; and no sequence of
    operations on the state unsets it. *)
Theorem gateway_fallback_monotonic
    (st : LLMState) (before : list Replies) (w : Replies) (after : list Replies) :
  primary_failed (final_state st before) w = true ->
  should_use_groq (tripped st before w) = true
  /\ Forall (fun g => called g = [Groq] /\ should_use_groq (state_after g) = true)
            (generate_all (tripped st before w) after)
  /\ (forall ops, should_use_groq (foldl apply_op (tripped st before w) ops) = true).
Proof.
  intros Hfail.
  assert (Hflag : should_use_groq (tripped st before w) = true)
    by (apply failed_primary_sets_flag, Hfail).
  split; [exact Hflag|]. split.
  - apply sticky_run, Hflag.
  - intros ops. apply flag_kept_by_ops, Hflag.
Qed.

Lemma gateway_fallback_monotonic_witness :
  primary_failed (final_state llm_state_init [both_up]) primary_down = true
  /\ Forall (fun g => called g = [Groq] /\ should_use_groq (state_after g) = true)
       (generate_all (tripped llm_state_init [both_up] primary_down)
                     [both_up; primary_down; both_up]).
Proof.
  split; [reflexivity|].
  apply (gateway_fallback_monotonic llm_state_init [both_up] primary_down
           [both_up; primary_down; both_up]).
  reflexivity.
Defined.

Example gateway_run :
  called <$> generate_all llm_state_init [both_up; primary_down; both_up]
  = [[Gemini]; [Gemini; Groq]; [Groq]].
Proof. reflexivity. Qed.

End GatewayFacts.

(** ** Python string facts *)

Module PyStrFacts.
Import PyStr.

Lemma starts_with_app p s : starts_with p (p +:+ s) = true.
Proof.
  induction p as [|c p IH]; simpl; [done|].
  rewrite Ascii.eqb_refl. exact IH.
Qed.


Lemma app_nil (s : string) : EmptyString +:+ s = s.
Proof. reflexivity. Qed.

Lemma app_cons (c : ascii) (a b : string) : String c a +:+ b = String c (a +:+ b).
Proof. reflexivity. Qed.

Lemma app_assoc (a b c : string) : (a +:+ b) +:+ c = a +:+ b +:+ c.
Proof. induction a as [|x a IH]; [reflexivity|]. rewrite !app_cons, IH. reflexivity. Qed.

Lemma length_app (a b : string) :
  String.length (a +:+ b) = String.length a + String.length b.
Proof. induction a as [|x a IH]; [reflexivity|]. rewrite app_cons. simpl. by rewrite IH. Qed.

Lemma drop_app_length (a b : string) (n : nat) :
  drop (String.length a + n) (a +:+ b) = drop n b.
Proof. induction a as [|x a IH]; [reflexivity|]. rewrite app_cons. simpl. exact IH. Qed.

Lemma take_app_length (a b : string) : take (String.length a) (a +:+ b) = a.
Proof. induction a as [|x a IH]; [reflexivity|]. rewrite app_cons. simpl. by rewrite IH. Qed.





Lemma free_of_lstrip (c : ascii) (p : string) :
  free_of c p = true -> free_of c (lstrip p) = true.
Proof.
  induction p as [|x p IH]; [done|]. simpl.
  destruct (is_space x); simpl; [|done].
  intros [_ H]%andb_true_iff. auto.
Qed.

Lemma find_starts_with (needle s : string) :
  starts_with needle s = true -> find needle s = Some 0.
Proof. destruct s; simpl; intros ->; reflexivity. Qed.

Lemma find_after_free (c : ascii) (needle q rest : string) :
  free_of c q = true ->
  find (String c needle) (q +:+ String c needle +:+ rest) = Some (String.length q).
Proof.
  induction q as [|x q IH]; intros Hfree.
  - rewrite app_nil. apply find_starts_with, starts_with_app.
  - simpl in Hfree. apply andb_true_iff in Hfree as [Hx Hq].
    rewrite app_cons. cbn [find starts_with].
    apply negb_true_iff in Hx. rewrite Hx. simpl.
    rewrite (IH Hq). reflexivity.
Qed.








End PyStrFacts.

(** ** Completeness rubric *)

Module RubricFacts.
Import PyStr Context Strategy RubricSpec.





Example retail_client_is_insufficient :
  assessment (one_turn "I have a retail client") = Insufficient.
Proof. vm_compute. reflexivity. Qed.

Example slow_legacy_system_is_sufficient :
  assessment
    (add_message
       (add_message
          (one_turn "My client is a retail chain with about two thousand employees")
          "ai" "Thanks. What is the situation at the moment?")
       "user"
       "Their legacy system is slow and they are losing money on every busy day")
  = Sufficient.
Proof. vm_compute. reflexivity. Qed.

Example no_impact_is_partial :
  assessment
    (one_turn "The client runs a legacy system in every one of its forty stores and the staff keep using it all day long")
  = Partial.
Proof. vm_compute. reflexivity. Qed.

End RubricFacts.

(** ** Baseline selection and mathematical refinement *)

Module ScopingFacts.
Import Py Context Baseline Scoping ScopingSpec.



Example sole_tier_is_selected :
  _get_baseline_estimates sample_estimates "Pilot" = of_tier pilot_tier [pilot_tier] None.
Proof. reflexivity. Qed.

Example fuzzy_match_uses_second_tier :
  let b := _get_baseline_estimates sample_estimates "cloud" in
  matched_service b = Some "Strategy & Design: Cloud"
  /\ Scoping.tier b = Some "Tier 2: Comprehensive Strategy".
Proof. split; reflexivity. Qed.

Example unknown_service_gets_generic :
  _get_baseline_estimates sample_estimates "Quantum" = generic_baseline.
Proof. reflexivity. Qed.

(** Of the six analysed factors only [urgency] and [technical_maturity] are
    keys of the multiplier table; [size] and [industry] are not (the table
    has [client_size] and [industry_complexity]). *)
Lemma total_multiplier_of_factors (s i c u m n : string) :
  total_multiplier
    [ ("size", s); ("industry", i); ("complexity", c); ("urgency", u);
      ("technical_maturity", m); ("integration_needs", n) ]
  = (1 * multiplier_of "urgency" u * multiplier_of "technical_maturity" m)%Q.
Proof. reflexivity. Qed.

(** C3 (the code at the specification's example).  For size=enterprise,
    industry=regulated, maturity=legacy, urgency=urgent the composite factor
    of the mathematical refinement is 1.2 x 1.4 = 1.68, not 4.032: the size
    and industry multipliers are not multiplied in. *)
Theorem composite_factor_at_example :
  _analyze_client_factors example_client = example_factors
  /\ (total_multiplier example_factors == 168 # 100)%Q
  /\ ~ (total_multiplier example_factors == 4032 # 1000)%Q
  /\ rationale (_mathematical_refinement generic_baseline example_factors)
     = "Mathematical refinement applied with 1.7x complexity factor".
Proof.
  split; [vm_compute; reflexivity|].
  split; [reflexivity|].
  split; [|vm_compute; reflexivity].
  intros H. vm_compute in H. discriminate H.
Qed.

End ScopingFacts.

(** ** Analysis report *)

Module ReportFacts.
Import Py Context Orchestrator ReportSpec.

Lemma unseen_session_has_no_history (cm : ContextManager) (sid : string) :
  cm !! sid = None -> conversation_history (get_context cm sid).2 = [].
Proof. intros H. unfold get_context. rewrite H. reflexivity. Qed.

(** C10.  For a session whose context has an empty conversation history the
    report is the dictionary with [success] false and an [error] text and
    nothing else: none of the report fields is in it. *)
Theorem report_without_history (cm : ContextManager) (now : Q) (sid : string) :
  conversation_history (get_context cm sid).2 = [] ->
  (generate_analysis_report cm now sid).2
  = PDict [ ("success", PBool false);
            ("error", PStr "No conversation history available for analysis") ]
  /\ Forall (fun k => field k (generate_analysis_report cm now sid).2 = None)
            report_fields.
Proof.
  intros Hempty. unfold generate_analysis_report.
  destruct (get_context cm sid) as [cm' ctx]. simpl in Hempty. rewrite Hempty.
  split; [reflexivity|]. simpl. repeat constructor.
Qed.

Lemma report_without_history_witness :
  field "success" (generate_analysis_report ∅ 0 "fresh").2 = Some (PBool false)
  /\ field "conversation_summary" (generate_analysis_report ∅ 0 "fresh").2 = None.
Proof.
  destruct (report_without_history ∅ 0 "fresh") as [Heq _].
  - apply unseen_session_has_no_history. reflexivity.
  - rewrite Heq. split; reflexivity.
Defined.

Example report_with_history_has_fields :
  let cm := {[ "s" := add_message (new_context "s") "user" "hello" ]} in
  field "success" (generate_analysis_report cm 0 "s").2 = Some (PBool true)
  /\ Forall (fun k => is_Some (field k (generate_analysis_report cm 0 "s").2))
            report_fields.
Proof.
  vm_compute. split; [reflexivity|]. repeat constructor; eauto.
Qed.

End ReportFacts.

(** ** Dependency executor *)

Module ExecutorFacts.
Import Py Context Agent Orchestrator ExecutorSpec.

Section WithProcessors.
Context {W : Type} (P : Processors W).






(** What a successful task is indexed under. *)
Lemma track_own_identifier (agent_config : AgentConfig) (r : ExecutionResult)
    (m : gmap string ExecutionResult) :
  track agent_config r m !! agent_id agent_config = Some r.
Proof.
  unfold track.
  destruct (String.eqb (default EmptyString (agent agent_config)) "scoping_agent").
  - destruct (decide ("scoping_agent" = agent_id agent_config)) as [<- | Hne].
    + apply lookup_insert_eq.
    + rewrite lookup_insert_ne by done. apply lookup_insert_eq.
  - destruct (search_id agent_config) as [sid|]; [|apply lookup_insert_eq].
    destruct (String.eqb _ "rag_agent"); [|apply lookup_insert_eq].
    destruct (decide (sid = agent_id agent_config)) as [<- | Hne].
    + apply lookup_insert_eq.
    + rewrite lookup_insert_ne by done. apply lookup_insert_eq.
Qed.

Lemma track_scoping_generic (agent_config : AgentConfig) (r : ExecutionResult)
    (m : gmap string ExecutionResult) :
  agent agent_config = Some "scoping_agent" ->
  track agent_config r m !! "scoping_agent" = Some r.
Proof.
  intros Ha. unfold track. rewrite Ha. simpl. apply lookup_insert_eq.
Qed.

(** A retrieval task that declares a search id is indexed under that id
    only: the entry of the generic name is left as it was. *)
Lemma track_rag_not_generic (agent_config : AgentConfig) (sid : string)
    (r : ExecutionResult) (m : gmap string ExecutionResult) :
  agent agent_config = Some "rag_agent" ->
  search_id agent_config = Some sid ->
  sid <> EmptyString -> sid <> "rag_agent" ->
  track agent_config r m !! "rag_agent" = m !! "rag_agent".
Proof.
  intros Ha Hs Hne Hne'. unfold track, agent_id. rewrite Ha, Hs. simpl.
  destruct sid as [|c sid']; [done|]. simpl.
  rewrite !lookup_insert_ne by done. reflexivity.
Qed.

(** C2 (the code at the planner's own fallback plan).  The retrieval task
    declares the search id "search_1" and the composition task depends on
    "rag_agent".  When the retrieval succeeds its result is indexed under
    "search_1" but not under "rag_agent", so the composition task is skipped:
    the run ends with the retrieval result alone. *)
Theorem generic_name_of_retrieval_not_indexed
    (w w' : W) (ctx ctx' : ConversationContext) (r : AgentResponse dict) :
  rag_process P w ctx Strategy.fallback_retrieve = (w', ctx', Ok r) ->
  Agent.success r = true ->
  executed_agents
    (_execute_agent_sequence P w ctx [Strategy.fallback_retrieve]) !! "rag_agent" = None
  /\ is_Some (executed_agents
               (_execute_agent_sequence P w ctx [Strategy.fallback_retrieve]) !! "search_1")
  /\ agent_name <$> execution_results
       (_execute_agent_sequence P w ctx
          [Strategy.fallback_retrieve; Strategy.fallback_compose])
     = ["rag_agent"].
Proof.
  intros Hrag Hok.
  unfold _execute_agent_sequence, run_loop. simpl.
  unfold step at 2. simpl. unfold _execute_single_agent. simpl.
  rewrite Hrag. simpl. rewrite Hok. simpl.
  unfold step. simpl. unfold _execute_single_agent. simpl.
  rewrite Hrag. simpl. rewrite Hok. simpl.
  split; [|split].
  - vm_compute. reflexivity.
  - eexists. vm_compute. reflexivity.
  - unfold track, agent_id. simpl.
    rewrite lookup_insert_ne by done. rewrite lookup_insert_ne by done.
    rewrite lookup_empty. simpl. reflexivity.
Qed.

End WithProcessors.


Lemma generic_name_of_retrieval_not_indexed_witness :
  agent_name <$> execution_results
    (_execute_agent_sequence always_succeed tt (new_context "session")
       [Strategy.fallback_retrieve; Strategy.fallback_compose])
  = ["rag_agent"].
Proof.
  eapply (generic_name_of_retrieval_not_indexed always_succeed tt tt
            (new_context "session") (new_context "session")).
  - reflexivity.
  - reflexivity.
Defined.

End ExecutorFacts.

(** ** Plan validation *)

Module ValidationFacts.
Import Py Agent Strategy ValidationSpec.

Lemma check_agents_ok (seq : list AgentConfig) : forall i seq',
  check_agents i seq = Ok seq' -> seq' = add_depends_on <$> seq.
Proof.
  induction seq as [|c seq IH]; intros i seq'; cbn [check_agents].
  - intros [= <-]. reflexivity.
  - destruct (agent c); [|discriminate].
    destruct (check_agents (S i) seq) as [rest|e] eqn:Hrest; simpl; [|discriminate].
    intros [= <-]. rewrite (IH _ _ Hrest). reflexivity.
Qed.

Lemma add_depends_on_agent (c : AgentConfig) (name : string) :
  is_agent name (add_depends_on c) = is_agent name c.
Proof. unfold add_depends_on. destruct (depends_on c); reflexivity. Qed.

Lemma first_rag_add_depends_on (seq : list AgentConfig) :
  first_rag_search_id (add_depends_on <$> seq) = first_rag_search_id seq.
Proof.
  induction seq as [|c seq IH]; [reflexivity|].
  rewrite fmap_cons. cbn [first_rag_search_id].
  rewrite add_depends_on_agent, IH.
  unfold add_depends_on. destruct (depends_on c); reflexivity.
Qed.

Lemma ensure_baseline_source_repaired (dec : string) (seq : list AgentConfig)
    (c : AgentConfig) :
  ensure_baseline_source dec (add_depends_on <$> seq) (add_depends_on c)
  = repaired dec seq c.
Proof.
  unfold ensure_baseline_source, repaired, repaired_baseline_source.
  rewrite add_depends_on_agent, first_rag_add_depends_on.
  destruct c as [a sid sf sc base rt qf deps oth]; unfold add_depends_on; simpl.
  destruct (is_agent "scoping_agent" _); destruct deps, base; simpl;
    try reflexivity;
    destruct (String.eqb dec "provide_estimates"); try reflexivity;
    destruct (first_rag_search_id seq); reflexivity.
Qed.

(** C6 (as amended).  A plan that passes validation comes back with the same
    decision and the same other keys, and with every task repaired in place:
    a missing [depends_on] is the empty list, and a refine task without a
    baseline source has "direct_lookup" when the decision is
    [provide_estimates], otherwise the search id of the first retrieve task
    anywhere in the plan when the plan has one. *)
Theorem validation_repairs_plan (d d' : StrategyDecision) :
  _validate_strategy_decision d = Ok d' ->
  exists dec seq,
    decision d = Some dec
    /\ agents_sequence d = Some seq
    /\ d' = {| decision := Some dec;
               agents_sequence := Some (repaired dec seq <$> seq);
               other_fields := other_fields d |}.
Proof.
  unfold _validate_strategy_decision.
  destruct (decision d) as [dec|]; [|discriminate].
  destruct (negb (str_in dec valid_decisions)); [discriminate|].
  destruct (agents_sequence d) as [seq|]; [|discriminate].
  destruct (check_agents 0 seq) as [seq1|e] eqn:Hcheck; simpl; [|discriminate].
  intros [= <-]. exists dec, seq. split; [reflexivity|]. split; [reflexivity|].
  apply check_agents_ok in Hcheck. subst seq1.
  f_equal. f_equal. rewrite <- list_fmap_compose.
  apply list_fmap_ext. intros i c _. simpl.
  apply ensure_baseline_source_repaired.
Qed.

Lemma validation_repairs_plan_witness :
  _validate_strategy_decision refine_first_plan = Ok refine_first_validated
  /\ agents_sequence refine_first_validated
     = Some (repaired "execute_pipeline" [refine_task; retrieve_task]
               <$> [refine_task; retrieve_task]).
Proof.
  split; [reflexivity|].
  destruct (validation_repairs_plan refine_first_plan refine_first_validated eq_refl)
    as (dec & seq & Hdec & Hseq & Hd').
  injection Hdec as <-. injection Hseq as <-. rewrite Hd'. reflexivity.
Defined.

(** C6 (as stated) fails: the refine task of [refine_first_plan] has no
    retrieve task before it, yet validation points it at the retrieve task
    that follows, and both tasks come back with a [depends_on] key they did
    not have. *)
Lemma validation_repair_counterexample :
  _validate_strategy_decision refine_first_plan = Ok refine_first_validated
  /\ refine_first_validated <> validated_as_specified refine_first_plan.
Proof.
  split; [reflexivity|].
  intros H. vm_compute in H. discriminate H.
Qed.

Example estimates_only_plan_gets_direct_lookup :
  repaired "provide_estimates" [refine_task] refine_task
  = with_baseline_source (with_depends_on refine_task []) "direct_lookup".
Proof. reflexivity. Qed.

Example plan_without_retrieve_is_not_repaired :
  baseline_source (repaired "execute_pipeline" [refine_task] refine_task) = None.
Proof. reflexivity. Qed.

End ValidationFacts.

(** ** Planning failure *)

Module PipelineFacts.
Import Py Context Agent Strategy Orchestrator ExecutorSpec PipelineSpec.






End PipelineFacts.

(** ** Response extractor *)

Module ExtractorFacts.
Import Py PyStr PyStrFacts Extractor ExtractorSpec.













(** The conditions on the prose are needed.  A json fence quoted in the
    prose is taken for the opening fence, and a backtick that ends the prose
    before a bare fence moves the block by one character. *)
Example json_fence_in_prose_is_taken_first :
  _parse_json_response "strategy_agent"
    (fenced "```json" "A ```json block follows. " plain_object " Done.")
  = Raise (ValueError "Invalid JSON response from strategy_agent").
Proof. vm_compute. reflexivity. Qed.

Example backtick_before_bare_fence_shifts_block :
  _parse_json_response "strategy_agent"
    (fenced "```" "The value of `decision`" plain_object " Done.")
  = Raise (ValueError "Invalid JSON response from strategy_agent").
Proof. vm_compute. reflexivity. Qed.

Example inline_code_before_bare_fence_is_harmless :
  _parse_json_response "strategy_agent"
    (fenced "```" "The value of `decision` is: " plain_object " Done.")
  = Ok (PDict [("decision", PStr "gather_more_context")]).
Proof. vm_compute. reflexivity. Qed.


(** With a template marker in the object, the extractor returns the last
    brace-balanced object instead of the whole one. *)
Example marker_in_string_yields_inner_object :
  Json.loads marker_in_string
  = Some (PDict [ ("plan", PDict [("step", PInt 1)]);
                  ("note", PStr "Always respond with valid JSON") ])
  /\ _parse_json_response "strategy_agent"
       (fenced "```json" "Plan: " marker_in_string " Done.")
     = Ok (PDict [("step", PInt 1)]).
Proof. split; vm_compute; reflexivity. Qed.

Example unfenced_object_is_parsed :
  _parse_json_response "strategy_agent" ("  " +:+ plain_object +:+ Strategy.nl)
  = Ok (PDict [("decision", PStr "gather_more_context")]).
Proof. vm_compute. reflexivity. Qed.

End ExtractorFacts.

(** ** The pipeline on a planner reply *)

Module EndToEndFacts.
Import Py Context Agent Strategy Orchestrator ExecutorSpec PipelineSpec EndToEndSpec.

Example plan_by_search_id_runs_both_tasks :
  ReportSpec.field "agents_executed"
    (process_message always_succeed (planner_answers "search_1") fresh_system
       "session" "Their legacy system is slow").2
  = Some (PList [PStr "rag_agent"; PStr "summarizing_agent"]).
Proof. vm_compute. reflexivity. Qed.

Example plan_by_generic_name_skips_composition :
  ReportSpec.field "agents_executed"
    (process_message always_succeed (planner_answers "rag_agent") fresh_system
       "session" "Their legacy system is slow").2
  = Some (PList [PStr "rag_agent"]).
Proof. vm_compute. reflexivity. Qed.

End EndToEndFacts.

(** ** The composite factor on any analysed context *)

Module CompositeFacts.
Import Py Context Scoping ScopingSpec.

Lemma analysed_factors_shape (context : ConversationContext) :
  exists s i c u m n,
    _analyze_client_factors context
    = [ ("size", s); ("industry", i); ("complexity", c); ("urgency", u);
        ("technical_maturity", m); ("integration_needs", n) ].
Proof.
  unfold _analyze_client_factors, size_factor, initial_factors.
  repeat case_match; cbn [dict_set String.eqb Ascii.eqb Bool.eqb];
    do 6 eexists; reflexivity.
Qed.

(** Whatever the client, the size and the industry found by the analysis do
    not enter the composite factor. *)
Lemma composite_ignores_size_and_industry (context : ConversationContext) :
  exists u m,
    dict_get "urgency" (_analyze_client_factors context) = Some u
    /\ dict_get "technical_maturity" (_analyze_client_factors context) = Some m
    /\ total_multiplier (_analyze_client_factors context)
       = (1 * multiplier_of "urgency" u * multiplier_of "technical_maturity" m)%Q.
Proof.
  destruct (analysed_factors_shape context) as (s & i & c & u & m & n & ->).
  exists u, m. repeat split; reflexivity.
Qed.

End CompositeFacts.

(** ** More on the provider gateway *)

Module GatewayMoreFacts.
Import Gateway GatewaySpec.

Lemma flag_after_call (st : LLMState) (w : Replies) :
  should_use_groq (state_after (_generate_response st w)) = true
  <-> should_use_groq st = true \/ gemini_reply w = None.
Proof.
  unfold _generate_response.
  destruct (should_use_groq st) eqn:Hst; simpl; [rewrite Hst; tauto|].
  destruct (gemini_reply w); simpl; [rewrite Hst|]; intuition congruence.
Qed.

(** X1.  After any run of calls the fallback flag is set exactly when it was
    set before the run or some call of the run found the primary provider
    failing. *)
Theorem flag_set_iff_primary_failed (st : LLMState) (ws : list Replies) :
  should_use_groq (final_state st ws) = true
  <-> should_use_groq st = true \/ exists w, w ∈ ws /\ gemini_reply w = None.
Proof.
  revert st. induction ws as [|w ws IH]; intros st.
  - simpl. split; [tauto|]. intros [H | (w & Hin & _)]; [done|].
    by apply not_elem_of_nil in Hin.
  - change (final_state st (w :: ws))
      with (final_state (state_after (_generate_response st w)) ws).
    rewrite IH, flag_after_call. split.
    + intros [[H | H] | (w' & Hin & H)].
      * by left.
      * right. exists w. split; [apply list_elem_of_here|done].
      * right. exists w'. split; [by apply list_elem_of_further|done].
    + intros [H | (w' & Hin & H)]; [by left; left|].
      apply elem_of_cons in Hin as [-> | Hin]; [by left; right|].
      right. eauto.
Qed.

(** X2.  A call raises exactly when the secondary provider is the one that
    has to answer (the flag is set, or the primary fails) and it fails too;
    whenever a call raises, the flag is set afterwards.  A primary that
    answers while the flag is unset is returned as it is, the secondary is not
    called and the state is left alone. *)
Theorem gateway_errors_come_from_secondary (st : LLMState) (w : Replies) :
  ((exists e, returned (_generate_response st w) = Raise e)
   <-> groq_reply w = None /\ (should_use_groq st = true \/ gemini_reply w = None))
  /\ ((exists e, returned (_generate_response st w) = Raise e) ->
      should_use_groq (state_after (_generate_response st w)) = true)
  /\ (forall text, should_use_groq st = false -> gemini_reply w = Some text ->
      _generate_response st w
      = {| state_after := st; called := [Gemini]; returned := Ok text |}).
Proof.
  unfold _generate_response, _generate_response_groq.
  destruct (should_use_groq st) eqn:Hst, (gemini_reply w) as [t|],
    (groq_reply w) as [g|]; simpl; rewrite ?Hst;
    repeat split; intros;
    repeat match goal with
           | H : ex _ |- _ => destruct H
           | H : _ /\ _ |- _ => destruct H
           | H : _ \/ _ |- _ => destruct H
           end;
    try discriminate; try congruence; eauto.
Qed.

Lemma gateway_errors_come_from_secondary_witness :
  exists e, returned (_generate_response llm_state_init
                        {| gemini_reply := None; groq_reply := None |}) = Raise e.
Proof.
  apply (gateway_errors_come_from_secondary llm_state_init
           {| gemini_reply := None; groq_reply := None |}).
  split; [reflexivity|]. right. reflexivity.
Defined.

End GatewayMoreFacts.

(** ** Conversation context and context manager *)

Module ContextFacts.
Import Context ContextOps ContextSpec.

(** X3.  [get_recent_messages] returns a suffix of the history: for a
    positive count the last [count] turns (all of them when the history is
    shorter), and for a count of zero the whole history, not the empty
    list. *)
Theorem recent_messages_are_a_suffix (ctx : ConversationContext) (count : Z) :
  get_recent_messages ctx count `suffix_of` conversation_history ctx
  /\ ((0 < count)%Z ->
      length (get_recent_messages ctx count)
      = Nat.min (Z.to_nat count) (length (conversation_history ctx)))
  /\ get_recent_messages ctx 0 = conversation_history ctx.
Proof.
  unfold get_recent_messages. split; [|split].
  - destruct (0 <? count)%Z; apply suffix_drop.
  - intros Hpos. apply Z.ltb_lt in Hpos. rewrite Hpos, length_drop. lia.
  - reflexivity.
Qed.

Lemma recent_messages_are_a_suffix_witness :
  (0 < 2)%Z
  /\ length (get_recent_messages three_turns 2) = 2
  /\ length (get_recent_messages three_turns 0) = 3.
Proof.
  split; [reflexivity|]. split.
  - rewrite (proj1 (proj2 (recent_messages_are_a_suffix three_turns 2)));
      reflexivity.
  - rewrite (proj2 (proj2 (recent_messages_are_a_suffix three_turns 2))).
    reflexivity.
Defined.

(** X4.  The context manager is a store with get-or-create: a stored context
    is handed back without touching the store; an unseen session gets a fresh
    context that is stored; what [update_context] stores is what [get_context]
    returns; a cleared session starts afresh; and a lookup for one session
    leaves the entries of the other sessions alone. *)
Theorem context_manager_round_trips
    (cm : ContextManager) (ctx : ConversationContext) (sid other : string) :
  (cm !! sid = Some ctx -> get_context cm sid = (cm, ctx))
  /\ (cm !! sid = None ->
      get_context cm sid = (<[sid := new_context sid]> cm, new_context sid))
  /\ get_context (get_context cm sid).1 sid = get_context cm sid
  /\ get_context (update_context cm ctx) (session_id ctx) = (update_context cm ctx, ctx)
  /\ (get_context (clear_context cm sid) sid).2 = new_context sid
  /\ (other <> sid -> (get_context cm sid).1 !! other = cm !! other).
Proof.
  unfold get_context, update_context, clear_context. repeat split.
  - intros ->. reflexivity.
  - intros ->. reflexivity.
  - destruct (cm !! sid) as [c|] eqn:H; simpl.
    + rewrite H. reflexivity.
    + rewrite lookup_insert_eq. reflexivity.
  - rewrite lookup_insert_eq. reflexivity.
  - rewrite lookup_delete_eq. reflexivity.
  - intros Hne. destruct (cm !! sid); simpl; [reflexivity|].
    by rewrite lookup_insert_ne.
Qed.

Lemma context_manager_round_trips_witness :
  ({[ "a" := new_context "a" ]} : ContextManager) !! "a" = Some (new_context "a")
  /\ get_context {[ "a" := new_context "a" ]} "a"
     = ({[ "a" := new_context "a" ]}, new_context "a").
Proof.
  split; [reflexivity|].
  apply (context_manager_round_trips {[ "a" := new_context "a" ]}
           (new_context "a") "a" "b").
  reflexivity.
Defined.

End ContextFacts.

(** ** More on the response extractor *)

Module ExtractorMoreFacts.
Import Py PyStr PyStrFacts Extractor ExtractorSpec ExtractorMoreSpec.

Lemma free_of_not_contained (c : ascii) (needle s : string) :
  free_of c s = true -> contains (String c needle) s = false.
Proof.
  unfold contains. induction s as [|d s IH]; intros Hfree; [reflexivity|].
  simpl in Hfree. apply andb_true_iff in Hfree as [Hd Hs].
  apply negb_true_iff in Hd. cbn [find starts_with]. rewrite Hd. simpl.
  specialize (IH Hs). destruct (find (String c needle) s); [discriminate IH|].
  reflexivity.
Qed.

Lemma free_of_rstrip (c : ascii) (s : string) :
  free_of c s = true -> free_of c (rstrip s) = true.
Proof.
  induction s as [|d s IH]; [done|]. simpl.
  intros [Hd Hs]%andb_true_iff.
  destruct (is_space d && is_empty (rstrip s)); [reflexivity|].
  simpl. rewrite Hd. simpl. auto.
Qed.

Lemma free_of_strip (c : ascii) (s : string) :
  free_of c s = true -> free_of c (strip s) = true.
Proof. intros H. apply free_of_rstrip, free_of_lstrip, H. Qed.

Lemma extract_unfenced (text : string) :
  free_of "`" text = true ->
  contains "### Response Format:" (strip text) = false ->
  contains "Always respond with valid JSON" (strip text) = false ->
  extract_json_text text = strip text.
Proof.
  intros Hfree Hm1 Hm2. unfold extract_json_text.
  rewrite !(free_of_not_contained "`") by (by apply free_of_strip).
  rewrite Hm1, Hm2. reflexivity.
Qed.

(** X5.  A reply without any backtick and without template marker is parsed
    as it is, trimmed: the extractor returns the value when the trimmed text is
    a JSON document and raises the agent's ValueError when it is not. *)
Theorem unfenced_reply_is_parsed_whole (agent_name text : string) :
  free_of "`" text = true ->
  contains "### Response Format:" (strip text) = false ->
  contains "Always respond with valid JSON" (strip text) = false ->
  _parse_json_response agent_name text
  = match Json.loads (strip text) with
    | Some j => Ok j
    | None => Raise (ValueError ("Invalid JSON response from " +:+ agent_name))
    end.
Proof.
  intros Hfree Hm1 Hm2. unfold _parse_json_response.
  rewrite extract_unfenced by done. reflexivity.
Qed.

Lemma unfenced_reply_is_parsed_whole_witness :
  _parse_json_response "rag_agent" "  [1, 2]  " = Ok (PList [PInt 1; PInt 2])
  /\ _parse_json_response "rag_agent" "no json here"
     = Raise (ValueError "Invalid JSON response from rag_agent").
Proof.
  split.
  - rewrite (unfenced_reply_is_parsed_whole "rag_agent" "  [1, 2]  ");
      vm_compute; reflexivity.
  - rewrite (unfenced_reply_is_parsed_whole "rag_agent" "no json here");
      vm_compute; reflexivity.
Defined.

Lemma rfind_free (c : ascii) (s : string) :
  free_of c s = true -> rfind (String c EmptyString) s = None.
Proof.
  induction s as [|d s IH]; [reflexivity|]. simpl.
  intros [Hd Hs]%andb_true_iff. rewrite (IH Hs).
  apply negb_true_iff in Hd. rewrite Hd. reflexivity.
Qed.

Lemma rfind_last (c : ascii) (pre tail : string) :
  rfind (String c EmptyString) tail = None ->
  rfind (String c EmptyString) (pre +:+ String c tail) = Some (String.length pre).
Proof.
  intros Htail. induction pre as [|d pre IH].
  - rewrite app_nil. cbn [rfind]. rewrite Htail. cbn [starts_with].
    rewrite Ascii.eqb_refl. reflexivity.
  - rewrite app_cons. cbn [rfind]. rewrite IH. reflexivity.
Qed.

Lemma match_brace_skip (body rest : string) : forall (i : nat) (n : Z),
  free_of "{" body = true -> free_of "}" body = true ->
  match_brace (body +:+ rest) i n = match_brace rest (i + String.length body) n.
Proof.
  induction body as [|d body IH]; intros i n Ho Hc.
  - rewrite app_nil. simpl. f_equal. lia.
  - cbn [free_of] in Ho, Hc.
    apply andb_true_iff in Ho as [Hd1 Ho]. apply andb_true_iff in Hc as [Hd2 Hc].
    apply negb_true_iff in Hd1, Hd2.
    rewrite app_cons. cbn [match_brace].
    rewrite (Ascii.eqb_sym d "{"), Hd1, (Ascii.eqb_sym d "}"), Hd2.
    rewrite IH by done. simpl. f_equal. lia.
Qed.

Lemma match_brace_none (s : string) : forall (i : nat) (n : Z),
  free_of "}" s = true -> match_brace s i n = None.
Proof.
  induction s as [|d s IH]; intros i n Hc; [reflexivity|].
  cbn [free_of] in Hc. apply andb_true_iff in Hc as [Hd Hc]. apply negb_true_iff in Hd.
  cbn [match_brace]. rewrite (Ascii.eqb_sym d "}"), Hd.
  destruct (Ascii.eqb d "{"); apply IH, Hc.
Qed.

Lemma drop_app_exact (a b : string) : drop (String.length a) (a +:+ b) = b.
Proof.
  rewrite <- (Nat.add_0_r (String.length a)). rewrite drop_app_length. reflexivity.
Qed.

Lemma free_of_app (c : ascii) (a b : string) :
  free_of c a = true -> free_of c b = true -> free_of c (a +:+ b) = true.
Proof.
  intros Ha Hb. induction a as [|x a IH]; [exact Hb|].
  cbn [free_of] in Ha. apply andb_true_iff in Ha as [Hx Ha].
  rewrite app_cons. cbn [free_of]. rewrite Hx. simpl. auto.
Qed.

(** The scan from the last opening brace, when none follows in [tail]. *)
Lemma last_object_from (pre tail : string) :
  free_of "{" tail = true ->
  last_object (pre +:+ String "{" tail)
  = take (default (String.length pre)
            (match_brace tail (S (String.length pre)) 1) - String.length pre)
         (String "{" tail).
Proof.
  intros Htail. unfold last_object.
  rewrite rfind_last by (by apply rfind_free).
  unfold slice. rewrite drop_app_exact. cbn [match_brace].
  rewrite Ascii.eqb_refl. reflexivity.
Qed.

(** X6.  The scan for "the last JSON object" starts at the last opening brace
    of the text.  It returns the braces and what lies between them when the
    next closing brace follows with no brace in between; it returns the empty
    text when no closing brace follows at all; and it returns the text
    unchanged when the text has no opening brace. *)
Theorem last_object_starts_at_last_brace (pre body post : string) :
  free_of "{" body = true ->
  free_of "}" body = true ->
  free_of "{" post = true ->
  last_object (pre +:+ "{" +:+ body +:+ "}" +:+ post) = "{" +:+ body +:+ "}"
  /\ (free_of "}" post = true -> last_object (pre +:+ "{" +:+ body +:+ post) = EmptyString)
  /\ last_object post = post.
Proof.
  intros Hbo Hbc Hpo. split; [|split].
  - change ("{" +:+ body +:+ "}" +:+ post) with (String "{" (body +:+ String "}" post)).
    rewrite last_object_from by (apply free_of_app; [done|exact Hpo]).
    rewrite match_brace_skip by done. cbn [match_brace].
    change (Ascii.eqb "}" "{") with false. rewrite Ascii.eqb_refl.
    change (1 - 1 =? 0)%Z with true. cbv [default from_option id].
    replace (S (String.length pre) + String.length body + 1 - String.length pre)
      with (S (String.length (body +:+ "}"))) by (rewrite length_app; simpl; lia).
    cbn [take]. change ("{" +:+ body +:+ "}") with (String "{" (body +:+ "}")).
    f_equal. change (String "}" post) with ("}" +:+ post).
    rewrite <- app_assoc. apply take_app_length.
  - intros Hpc.
    change ("{" +:+ body +:+ post) with (String "{" (body +:+ post)).
    rewrite last_object_from by (by apply free_of_app).
    rewrite match_brace_none by (by apply free_of_app).
    cbv [default from_option id]. rewrite Nat.sub_diag. reflexivity.
  - unfold last_object. rewrite rfind_free by done. reflexivity.
Qed.

Lemma last_object_starts_at_last_brace_witness :
  last_object "see {a{b} {c} end" = "{c}".
Proof.
  apply (last_object_starts_at_last_brace "see {a{b} " "c" " end"); reflexivity.
Defined.

Example echoed_template_yields_object :
  _parse_json_response "strategy_agent" echoed_template
  = Ok (PDict [("decision", PStr "gather_more_context")]).
Proof. vm_compute. reflexivity. Qed.

End ExtractorMoreFacts.

(** ** More on the strategy planner *)

Module PlannerFacts.
Import Py Context Agent Strategy ValidationSpec ValidationFacts PlanSpec.

(** X7.  The planner's confidence always lies between 0.7 and 1.0, so the
    bound [0, 1] that [AgentResponse] puts on it always holds. *)
Theorem planner_confidence_bounds (d : StrategyDecision) (context : ConversationContext) :
  (7 # 10 <= _calculate_confidence d context)%Q
  /\ (_calculate_confidence d context <= 1)%Q.
Proof.
  unfold _calculate_confidence.
  destruct (bool_decide (pain_points context = [])),
    (bool_decide (business_context context = [])),
    (2 <? length (conversation_history context)),
    (bool_decide (decision d = Some "execute_pipeline"));
    vm_compute; split; intros H; discriminate H.
Qed.

Lemma check_agents_named (seq : list AgentConfig) : forall i,
  Forall (fun c => is_Some (agent c)) seq ->
  check_agents i seq = Ok (add_depends_on <$> seq).
Proof.
  induction seq as [|c seq IH]; intros i Hall; [reflexivity|].
  apply Forall_cons in Hall as [[a Ha] Hall].
  cbn [check_agents]. rewrite Ha, (IH _ Hall). reflexivity.
Qed.

Lemma check_agents_ok_named (seq : list AgentConfig) : forall i seq',
  check_agents i seq = Ok seq' -> Forall (fun c => is_Some (agent c)) seq.
Proof.
  induction seq as [|c seq IH]; intros i seq'; cbn [check_agents]; [constructor|].
  destruct (agent c) eqn:Ha; [|discriminate].
  destruct (check_agents (S i) seq) as [rest|e] eqn:Hrest; simpl; [|discriminate].
  intros _. constructor; [eauto|]. eapply IH, Hrest.
Qed.

(** What validation returns on a well-formed plan. *)
Lemma validate_well_formed (d : StrategyDecision) (dec : string) (seq : list AgentConfig) :
  decision d = Some dec ->
  str_in dec valid_decisions = true ->
  agents_sequence d = Some seq ->
  Forall (fun c => is_Some (agent c)) seq ->
  _validate_strategy_decision d
  = Ok {| decision := Some dec;
          agents_sequence := Some (repaired dec seq <$> seq);
          other_fields := other_fields d |}.
Proof.
  intros Hdec Hvalid Hseq Hall. unfold _validate_strategy_decision.
  rewrite Hdec, Hvalid, Hseq. simpl. rewrite (check_agents_named _ _ Hall). simpl.
  f_equal. f_equal. f_equal. rewrite <- list_fmap_compose.
  apply list_fmap_ext. intros i c _. simpl. apply ensure_baseline_source_repaired.
Qed.

(** What an accepted plan was and what it became. *)
Lemma validate_ok_inv (d d' : StrategyDecision) :
  _validate_strategy_decision d = Ok d' ->
  exists dec seq,
    decision d = Some dec
    /\ str_in dec valid_decisions = true
    /\ agents_sequence d = Some seq
    /\ Forall (fun c => is_Some (agent c)) seq
    /\ d' = {| decision := Some dec;
               agents_sequence := Some (repaired dec seq <$> seq);
               other_fields := other_fields d |}.
Proof.
  intros Hok. pose proof Hok as Hok'. unfold _validate_strategy_decision in Hok.
  destruct (decision d) as [dec|] eqn:Hdec; [|discriminate].
  destruct (str_in dec valid_decisions) eqn:Hvalid; cbn [negb] in Hok; [|discriminate].
  destruct (agents_sequence d) as [seq|] eqn:Hseq; [|discriminate].
  destruct (check_agents 0 seq) as [seq1|e] eqn:Hcheck; [|discriminate].
  clear Hok. apply check_agents_ok_named in Hcheck.
  exists dec, seq. repeat split; try done.
  rewrite (validate_well_formed d dec seq Hdec Hvalid Hseq Hcheck) in Hok'.
  by injection Hok'.
Qed.

Example nameless_task_is_refused :
  _validate_strategy_decision nameless_task_plan
  = Raise (ValueError "Agent 1 missing 'agent' field").
Proof. reflexivity. Qed.

Lemma repaired_agent (dec : string) (seq : list AgentConfig) (c : AgentConfig) (name : string) :
  is_agent name (repaired dec seq c) = is_agent name c.
Proof. reflexivity. Qed.

Lemma first_rag_repaired (dec : string) (seq0 seq : list AgentConfig) :
  first_rag_search_id (repaired dec seq0 <$> seq) = first_rag_search_id seq.
Proof.
  induction seq as [|c seq IH]; [reflexivity|].
  rewrite fmap_cons. cbn [first_rag_search_id].
  rewrite repaired_agent, IH. reflexivity.
Qed.

Lemma repaired_twice (dec : string) (seq : list AgentConfig) (c : AgentConfig) :
  repaired dec (repaired dec seq <$> seq) (repaired dec seq c) = repaired dec seq c.
Proof.
  unfold repaired at 1. unfold repaired_baseline_source at 1.
  rewrite repaired_agent, first_rag_repaired.
  unfold repaired, repaired_baseline_source. simpl.
  destruct (baseline_source c); simpl; [reflexivity|].
  destruct (is_agent "scoping_agent" c); simpl; [|reflexivity].
  destruct (String.eqb dec "provide_estimates"); simpl; [reflexivity|].
  destruct (first_rag_search_id seq); reflexivity.
Qed.

(** X9.  Validation is idempotent: a plan that came out of validation passes
    it again unchanged. *)
Theorem validation_is_idempotent (d d' : StrategyDecision) :
  _validate_strategy_decision d = Ok d' ->
  _validate_strategy_decision d' = Ok d'.
Proof.
  intros Hok.
  apply validate_ok_inv in Hok as (dec & seq & Hdec & Hvalid & Hseq & Hall & ->).
  rewrite (validate_well_formed _ dec (repaired dec seq <$> seq)); try reflexivity;
    try done.
  - f_equal. f_equal. simpl. f_equal. rewrite <- list_fmap_compose.
    apply list_fmap_ext. intros i c _. simpl. apply repaired_twice.
  - apply Forall_fmap. eapply Forall_impl; [exact Hall|]. intros c Hc. exact Hc.
Qed.

Lemma validation_is_idempotent_witness :
  _validate_strategy_decision refine_first_plan = Ok refine_first_validated
  /\ _validate_strategy_decision refine_first_validated = Ok refine_first_validated.
Proof.
  split; [reflexivity|].
  apply (validation_is_idempotent refine_first_plan). reflexivity.
Defined.

End PlannerFacts.

(** ** Insertion-ordered dictionaries *)

Module DictFacts.
Import Py.

Section Dict.
Context {V : Type}.
Implicit Types (d : list (string * V)) (k : string) (v : V).

Lemma dict_get_set_eq d k v : dict_get k (dict_set k v d) = Some v.
Proof.
  induction d as [|[k' v'] d IH]; simpl.
  - rewrite String.eqb_refl. reflexivity.
  - destruct (String.eqb k k') eqn:E; simpl.
    + rewrite String.eqb_refl. reflexivity.
    + rewrite E. exact IH.
Qed.

Lemma dict_get_set_ne d k k' v : k <> k' -> dict_get k (dict_set k' v d) = dict_get k d.
Proof.
  intros Hne. induction d as [|[k0 v0] d IH]; simpl.
  - apply String.eqb_neq in Hne. rewrite Hne. reflexivity.
  - destruct (String.eqb k' k0) eqn:E; simpl.
    + apply String.eqb_eq in E. subst k0.
      apply String.eqb_neq in Hne. rewrite Hne. reflexivity.
    + destruct (String.eqb k k0); [reflexivity|exact IH].
Qed.

Lemma dict_set_id d k v : dict_get k d = Some v -> dict_set k v d = d.
Proof.
  induction d as [|[k0 v0] d IH]; simpl; [discriminate|].
  destruct (String.eqb k k0) eqn:E.
  - apply String.eqb_eq in E. intros [= ->]. congruence.
  - intros H. rewrite (IH H). reflexivity.
Qed.

Lemma dict_get_set_is_Some d k k' v :
  is_Some (dict_get k d) -> is_Some (dict_get k (dict_set k' v d)).
Proof.
  intros H. destruct (decide (k = k')) as [->|Hne].
  - rewrite dict_get_set_eq. eauto.
  - by rewrite dict_get_set_ne.
Qed.

Lemma dict_get_keys d k v : dict_get k d = Some v -> k ∈ dict_keys d.
Proof.
  unfold dict_keys. induction d as [|[k0 v0] d IH]; simpl; [discriminate|].
  destruct (String.eqb k k0) eqn:E.
  - apply String.eqb_eq in E. subst. intros _. apply list_elem_of_here.
  - intros H. apply list_elem_of_further, IH, H.
Qed.

End Dict.

End DictFacts.

(** ** Fact extraction and the completeness rubric over a growing conversation *)

Module ExtractionFacts.
Import Py PyStr PyStrFacts Context Strategy DictFacts RubricSpec ExtractionSpec.

Lemma set_if_absorb {V : Type} (b : bool) (k : string) (v : V) (d : list (string * V)) :
  (b = true -> dict_get k d = Some v) -> set_if b k v d = d.
Proof. destruct b; simpl; [|done]. intros H. apply dict_set_id, H. reflexivity. Qed.

Lemma dict_get_set_if {V : Type} (b : bool) (k k' : string) (v : V)
    (d : list (string * V)) :
  dict_get k (set_if b k' v d)
  = if b && String.eqb k k' then Some v else dict_get k d.
Proof.
  destruct b; simpl; [|reflexivity].
  destruct (String.eqb_spec k k') as [->|Hne].
  - apply dict_get_set_eq.
  - by apply dict_get_set_ne.
Qed.

Lemma three_sets_idempotent {V : Type} (b1 b2 b3 : bool) (k1 k2 k3 : string)
    (v1 v2 v3 : V) (d : list (string * V)) :
  k1 <> k2 -> k1 <> k3 -> k2 <> k3 ->
  set_if b3 k3 v3 (set_if b2 k2 v2 (set_if b1 k1 v1
    (set_if b3 k3 v3 (set_if b2 k2 v2 (set_if b1 k1 v1 d)))))
  = set_if b3 k3 v3 (set_if b2 k2 v2 (set_if b1 k1 v1 d)).
Proof.
  intros H12 H13 H23.
  assert (E12 := proj2 (String.eqb_neq k1 k2) H12).
  assert (E13 := proj2 (String.eqb_neq k1 k3) H13).
  assert (E23 := proj2 (String.eqb_neq k2 k3) H23).
  assert (E21 : String.eqb k2 k1 = false) by (apply String.eqb_neq; congruence).
  assert (E31 : String.eqb k3 k1 = false) by (apply String.eqb_neq; congruence).
  assert (E32 : String.eqb k3 k2 = false) by (apply String.eqb_neq; congruence).
  rewrite (set_if_absorb b1 k1 v1).
  2:{ intros ->. rewrite !dict_get_set_if, E13, E12, String.eqb_refl, !andb_false_r.
      reflexivity. }
  rewrite (set_if_absorb b2 k2 v2).
  2:{ intros ->. rewrite !dict_get_set_if, E23, String.eqb_refl, !andb_false_r.
      reflexivity. }
  rewrite (set_if_absorb b3 k3 v3); [reflexivity|].
  intros ->. rewrite !dict_get_set_if, String.eqb_refl. reflexivity.
Qed.

Lemma three_sets_keep {V : Type} (b1 b2 b3 : bool) (k k1 k2 k3 : string)
    (v1 v2 v3 : V) (d : list (string * V)) :
  (is_Some (dict_get k d) ->
   is_Some (dict_get k (set_if b3 k3 v3 (set_if b2 k2 v2 (set_if b1 k1 v1 d)))))
  /\ (k ∉ [k1; k2; k3] ->
      dict_get k (set_if b3 k3 v3 (set_if b2 k2 v2 (set_if b1 k1 v1 d)))
      = dict_get k d).
Proof.
  split.
  - intros H. rewrite !dict_get_set_if.
    repeat match goal with |- context [if ?c then _ else _] => destruct c end; eauto.
  - intros Hk. rewrite !dict_get_set_if.
    assert (String.eqb k k1 = false) by (apply String.eqb_neq; set_solver).
    assert (String.eqb k k2 = false) by (apply String.eqb_neq; set_solver).
    assert (String.eqb k k3 = false) by (apply String.eqb_neq; set_solver).
    repeat match goal with H : String.eqb _ _ = false |- _ => rewrite H; clear H end.
    rewrite !andb_false_r. reflexivity.
Qed.

Lemma note_prefix all_text acc kd : acc `prefix_of` note_pain_point all_text acc kd.
Proof.
  unfold note_pain_point. destruct (contains _ _); [|done].
  case_bool_decide; [done|]. by apply prefix_app_r.
Qed.

Lemma notes_prefix all_text kws : forall acc,
  acc `prefix_of` foldl (note_pain_point all_text) acc kws.
Proof.
  induction kws as [|kd kws IH]; intros acc; simpl; [done|].
  etransitivity; [apply note_prefix|apply IH].
Qed.

Lemma notes_have all_text kws : forall acc kd,
  kd ∈ kws -> contains kd.1 all_text = true ->
  pain_point_of kd.1 kd.2 ∈ foldl (note_pain_point all_text) acc kws.
Proof.
  induction kws as [|kd0 kws IH]; intros acc kd Hin Hc; [by apply not_elem_of_nil in Hin|].
  simpl. apply elem_of_cons in Hin as [-> | Hin]; [|by apply IH].
  destruct (notes_prefix all_text kws (note_pain_point all_text acc kd0)) as [tail ->].
  apply elem_of_app. left. unfold note_pain_point. rewrite Hc.
  case_bool_decide; [done|]. apply elem_of_app. right. apply list_elem_of_here.
Qed.

Lemma notes_fixed all_text kws : forall acc,
  (forall kd, kd ∈ kws -> contains kd.1 all_text = true ->
              pain_point_of kd.1 kd.2 ∈ acc) ->
  foldl (note_pain_point all_text) acc kws = acc.
Proof.
  induction kws as [|kd kws IH]; intros acc Hacc; [reflexivity|]. simpl.
  assert (Hstep : note_pain_point all_text acc kd = acc).
  { unfold note_pain_point. destruct (contains kd.1 all_text) eqn:Hc; [|done].
    rewrite bool_decide_true; [done|]. apply Hacc; [apply list_elem_of_here|done]. }
  rewrite Hstep. apply IH. intros kd' Hin. apply Hacc. by apply list_elem_of_further.
Qed.

Lemma notes_nodup all_text kws : forall acc,
  NoDup acc -> NoDup (foldl (note_pain_point all_text) acc kws).
Proof.
  induction kws as [|kd kws IH]; intros acc Hnd; [done|]. simpl. apply IH.
  unfold note_pain_point. destruct (contains _ _); [|done].
  case_bool_decide; [done|]. apply NoDup_app. repeat split; [done| |apply NoDup_singleton].
  intros x Hx Hx'. apply list_elem_of_singleton in Hx'. by subst.
Qed.

Lemma extract_unfold (context : ConversationContext) (user_input : string) :
  _extract_context_from_conversation context user_input
  = with_facts context
      (client_facts (all_text_of context user_input) (client_context context))
      (business_facts (all_text_of context user_input) (business_context context))
      (foldl (note_pain_point (all_text_of context user_input))
             (pain_points context) pain_point_keywords).
Proof. reflexivity. Qed.

(** X10.  Fact extraction is idempotent: running it again on its own result
    with the same utterance changes nothing, in particular no pain point is
    recorded twice. *)
Theorem extraction_is_idempotent (context : ConversationContext) (user_input : string) :
  _extract_context_from_conversation
    (_extract_context_from_conversation context user_input) user_input
  = _extract_context_from_conversation context user_input.
Proof.
  rewrite (extract_unfold (_extract_context_from_conversation context user_input)).
  rewrite (extract_unfold context).
  change (all_text_of (with_facts context _ _ _) user_input)
    with (all_text_of context user_input).
  set (all_text := all_text_of context user_input).
  unfold with_facts. cbn [conversation_history client_context business_context
    pain_points session_id discovered_services rag_results scoping_results
    current_phase].
  unfold client_facts, business_facts.
  rewrite !three_sets_idempotent by discriminate.
  rewrite (notes_fixed all_text pain_point_keywords
             (foldl (note_pain_point all_text) (pain_points context) pain_point_keywords)).
  - reflexivity.
  - intros kd Hin Hc. by apply notes_have.
Qed.

(** X11.  Fact extraction only accumulates: the history and the agents'
    results are left as they are, every fact key that was present stays
    present, only the three client keys and the three business keys can
    change, the pain points that were recorded stay at the head of the list in
    their order, and a list without duplicates stays without duplicates. *)
Theorem extraction_accumulates (context : ConversationContext) (user_input k : string) :
  conversation_history (_extract_context_from_conversation context user_input)
  = conversation_history context
  /\ rag_results (_extract_context_from_conversation context user_input)
     = rag_results context
  /\ scoping_results (_extract_context_from_conversation context user_input)
     = scoping_results context
  /\ (is_Some (dict_get k (client_context context)) ->
      is_Some (dict_get k
        (client_context (_extract_context_from_conversation context user_input))))
  /\ (is_Some (dict_get k (business_context context)) ->
      is_Some (dict_get k
        (business_context (_extract_context_from_conversation context user_input))))
  /\ (k ∉ client_keys ->
      dict_get k (client_context (_extract_context_from_conversation context user_input))
      = dict_get k (client_context context))
  /\ (k ∉ business_keys ->
      dict_get k (business_context (_extract_context_from_conversation context user_input))
      = dict_get k (business_context context))
  /\ pain_points context
     `prefix_of` pain_points (_extract_context_from_conversation context user_input)
  /\ (NoDup (pain_points context) ->
      NoDup (pain_points (_extract_context_from_conversation context user_input))).
Proof.
  rewrite extract_unfold. unfold with_facts, client_keys, business_keys.
  cbn [conversation_history client_context business_context pain_points
       rag_results scoping_results].
  unfold client_facts, business_facts.
  repeat split.
  - apply three_sets_keep.
  - apply three_sets_keep.
  - intros Hk. apply three_sets_keep. set_solver.
  - intros Hk. apply three_sets_keep. set_solver.
  - apply notes_prefix.
  - apply notes_nodup.
Qed.

Lemma extraction_accumulates_witness :
  is_Some (dict_get "tier" [("tier", "gold")])
  /\ is_Some (dict_get "tier"
       (client_context
          (_extract_context_from_conversation
             (with_facts bank_turn [("tier", "gold")] [] [])
             "A regional bank in Qatar"))).
Proof.
  split; [eexists; reflexivity|].
  apply (extraction_accumulates (with_facts bank_turn [("tier", "gold")] [] [])
           "A regional bank in Qatar" "tier").
  eexists. reflexivity.
Defined.

Example extraction_on_bank_turn :
  let ctx := _extract_context_from_conversation bank_turn EmptyString in
  client_context ctx
  = [ ("industry", "Banking/Financial Services"); ("location", "Qatar");
      ("company_size", "Regional/Medium Enterprise") ]
  /\ length (pain_points ctx) = 2.
Proof. vm_compute. split; reflexivity. Qed.

End ExtractionFacts.

(** ** The rubric over a growing conversation *)

Module RubricGrowthFacts.
Import Py PyStr PyStrFacts Context Strategy RubricSpec ExtractionSpec.

Lemma lower_app (a b : string) : lower (a +:+ b) = lower a +:+ lower b.
Proof.
  induction a as [|c a IH]; [reflexivity|].
  rewrite app_cons. cbn [lower]. rewrite IH, app_cons. reflexivity.
Qed.

Lemma starts_with_app_l (p a b : string) :
  starts_with p a = true -> starts_with p (a +:+ b) = true.
Proof.
  revert a. induction p as [|x p IH]; intros a; [done|].
  destruct a as [|y a]; [discriminate|].
  rewrite app_cons. cbn [starts_with].
  intros [-> H]%andb_true_iff. simpl. apply IH, H.
Qed.

Lemma contains_app_l (p a b : string) :
  contains p a = true -> contains p (a +:+ b) = true.
Proof.
  unfold contains. induction a as [|c a IH].
  - cbn [find]. destruct (starts_with p EmptyString) eqn:Hs; [|discriminate].
    intros _. rewrite app_nil.
    destruct p; [|discriminate]. destruct b; reflexivity.
  - rewrite app_cons. cbn [find].
    destruct (starts_with p (String c a)) eqn:Hs.
    + intros _. rewrite <- app_cons, (starts_with_app_l _ _ b Hs). reflexivity.
    + destruct (find p a) eqn:Hf; [|discriminate]. intros _.
      destruct (starts_with p (String c (a +:+ b))); [reflexivity|].
      specialize (IH eq_refl). destruct (find p (a +:+ b)); [reflexivity|discriminate].
Qed.

Lemma count_words_app (a b : string) : forall in_word : bool,
  count_words in_word a <= count_words in_word (a +:+ b).
Proof.
  induction a as [|c a IH]; intros in_word; [simpl; lia|].
  rewrite app_cons. cbn [count_words].
  destruct (is_space c); [apply IH|].
  destruct in_word; [apply IH|]. specialize (IH true). lia.
Qed.

Lemma join_snoc (sep x y : string) (l : list string) :
  join sep ((x :: l) ++ [y]) = join sep (x :: l) +:+ sep +:+ y.
Proof.
  revert x. induction l as [|z l IH]; intros x; [reflexivity|].
  change (join sep ((x :: z :: l) ++ [y]))
    with (x +:+ sep +:+ join sep ((z :: l) ++ [y])).
  rewrite IH.
  change (join sep (x :: z :: l)) with (x +:+ sep +:+ join sep (z :: l)).
  rewrite !app_assoc. reflexivity.
Qed.

(** The conversation text after one more turn. *)
Lemma text_after_turn (context : ConversationContext) (r c : string) :
  conversation_history context <> [] ->
  all_conversation_text (add_message context r c)
  = all_conversation_text context +:+ lower (" " +:+ c).
Proof.
  intros Hne. unfold all_conversation_text, add_message, with_history.
  cbn [conversation_history]. rewrite fmap_app.
  destruct (conversation_history context) as [|m h]; [done|].
  rewrite fmap_cons. change (Context.content <$> [ {| role := r; content := c |} ])
    with [c].
  rewrite join_snoc, lower_app. reflexivity.
Qed.

Lemma rubric_inputs_grow (context : ConversationContext) (r c : string) :
  (specific_challenges context = true ->
   specific_challenges (add_message context r c) = true)
  /\ (business_impact context = true ->
      business_impact (add_message context r c) = true)
  /\ (has_detail context = true -> has_detail (add_message context r c) = true).
Proof.
  destruct (conversation_history context) as [|m h] eqn:Hh.
  - unfold specific_challenges, business_impact, has_detail, all_conversation_text.
    rewrite Hh. repeat split; intros H; vm_compute in H; discriminate H.
  - assert (Hne : conversation_history context <> []) by (rewrite Hh; discriminate).
    unfold specific_challenges, business_impact, has_detail, any_in.
    rewrite (text_after_turn context r c Hne). repeat split.
    + rewrite !existsb_exists. intros (p & Hin & Hc). exists p.
      split; [done|]. by apply contains_app_l.
    + rewrite !existsb_exists. intros (p & Hin & Hc). exists p.
      split; [done|]. by apply contains_app_l.
    + rewrite !Nat.ltb_lt. intros H. unfold word_count in *.
      pose proof (count_words_app (all_conversation_text context)
                    (lower (" " +:+ c)) false). lia.
Qed.

(** X12.  The completeness assessment never gets worse when a turn is added
    to the conversation: an insufficient conversation may become partial or
    sufficient, a partial one may become sufficient, and a sufficient one
    stays sufficient. *)
Theorem assessment_never_degrades (context : ConversationContext) (r c : string) :
  rank (assessment context) <= rank (assessment (add_message context r c)).
Proof.
  destruct (rubric_inputs_grow context r c) as (Hs & Hb & Hd).
  unfold assessment.
  destruct (specific_challenges context), (business_impact context),
    (has_detail context); simpl;
    rewrite ?Hs, ?Hb, ?Hd by reflexivity; simpl; try lia;
    repeat match goal with
           | |- context [if ?b then _ else _] => destruct b; simpl
           end; lia.
Qed.

End RubricGrowthFacts.

(** ** More on baselines and the composite factor *)

Module ScopingMoreFacts.
Import Py PyStr PyStrFacts Context Baseline Scoping ScopingSpec DictFacts.

(** X13.  On the factors the analysis can produce, the composite factor of
    the mathematical refinement lies between 0.8 and 1.68; the team and the
    duration are therefore the baseline ones, with or without the addition for
    complexity, and the "streamlined" and "accelerated" variants (for a factor
    below 0.8) never occur. *)
Theorem composite_factor_range (context : ConversationContext) (base : string) :
  (8 # 10 <= total_multiplier (_analyze_client_factors context))%Q
  /\ (total_multiplier (_analyze_client_factors context) <= 168 # 100)%Q
  /\ (_adjust_team_size base (total_multiplier (_analyze_client_factors context))
      = base
      \/ _adjust_team_size base (total_multiplier (_analyze_client_factors context))
         = base +:+ " + additional specialists for complexity")
  /\ (_adjust_duration base (total_multiplier (_analyze_client_factors context))
      = base
      \/ _adjust_duration base (total_multiplier (_analyze_client_factors context))
         = base +:+ " + buffer for complexity").
Proof.
  unfold _analyze_client_factors, size_factor, initial_factors.
  repeat case_match;
    cbn [dict_set String.eqb Ascii.eqb Bool.eqb];
    (split; [vm_compute; by intros ?|]);
    (split; [vm_compute; by intros ?|]);
    split; vm_compute; auto.
Qed.

Lemma lower_char_idempotent (c : ascii) : lower_char (lower_char c) = lower_char c.
Proof. destruct c as [[] [] [] [] [] [] [] []]; reflexivity. Qed.

Lemma lower_idempotent (s : string) : lower (lower s) = lower s.
Proof.
  induction s as [|c s IH]; [reflexivity|].
  cbn [lower]. rewrite lower_char_idempotent, IH. reflexivity.
Qed.

Lemma starts_with_refl (s : string) : starts_with s s = true.
Proof. induction s as [|c s IH]; [done|]. simpl. by rewrite Ascii.eqb_refl. Qed.

Lemma contains_refl (s : string) : contains s s = true.
Proof. unfold contains. by rewrite find_starts_with by apply starts_with_refl. Qed.

Lemma contains_empty (s : string) : contains EmptyString s = true.
Proof. unfold contains. destruct s; reflexivity. Qed.

(** X14.  The fuzzy search ignores letter case and finds every service of
    the table under its own name: a query equal to a service name up to case
    has that service among its matches; the matches are services of the table;
    and the empty query matches them all. *)
Theorem search_finds_own_name
    (estimates_data : EstimatesData) (service_name query : string) (tiers : list Tier) :
  get_baseline_estimates estimates_data service_name = Some tiers ->
  lower query = lower service_name ->
  service_name ∈ search_services estimates_data query
  /\ search_services estimates_data query ⊆ dict_keys estimates_data
  /\ search_services estimates_data EmptyString = dict_keys estimates_data.
Proof.
  intros Hget Hq. unfold search_services. split; [|split].
  - apply list_elem_of_filter. split.
    + rewrite Hq, contains_refl. done.
    + eapply dict_get_keys, Hget.
  - intros x Hx. by apply list_elem_of_filter in Hx as [_ Hx].
  - cbn [lower]. induction (dict_keys estimates_data) as [|x l IH]; [reflexivity|].
    rewrite filter_cons. rewrite decide_True by (rewrite contains_empty; done).
    by rewrite IH.
Qed.

Lemma search_finds_own_name_witness :
  get_baseline_estimates sample_estimates "Pilot" = Some [pilot_tier]
  /\ "Pilot" ∈ search_services sample_estimates "PILOT".
Proof.
  split; [reflexivity|].
  apply (search_finds_own_name sample_estimates "Pilot" "PILOT" [pilot_tier]);
    reflexivity.
Defined.

End ScopingMoreFacts.

(** ** Filling in the missing keys of a reply *)

Module DynFacts.
Import Py PyStr PyDyn DynSpec DictFacts.

Lemma bind_ok {A B : Type} (a : A) (f : A -> result B) : (Ok a ≫= f) = f a.
Proof. reflexivity. Qed.

Lemma bind_ok_inv {A B : Type} (m : result A) (f : A -> result B) (y : B) :
  (m ≫= f) = Ok y -> exists x, m = Ok x /\ f x = Ok y.
Proof. destruct m as [a|e]; [intros H; exists a; split; [reflexivity|exact H]|discriminate]. Qed.

Lemma ensure_key_dict k v d : ensure_key k v (PDict d) = Ok (PDict (filled k v d)).
Proof.
  unfold ensure_key, filled. cbn [py_in]. rewrite bind_ok.
  case_bool_decide; reflexivity.
Qed.

Lemma filled_has k v d : is_Some (dict_get k (filled k v d)).
Proof.
  unfold filled. case_bool_decide as H; [exact H|].
  rewrite dict_get_set_eq. eauto.
Qed.

Lemma filled_other k k' v d : k' <> k -> dict_get k' (filled k v d) = dict_get k' d.
Proof.
  intros Hne. unfold filled. case_bool_decide; [reflexivity|].
  by apply dict_get_set_ne.
Qed.

Lemma filled_keeps k k' v u d :
  dict_get k' d = Some u -> dict_get k' (filled k v d) = Some u.
Proof.
  intros Hget. unfold filled. case_bool_decide as H; [exact Hget|].
  rewrite dict_get_set_ne; [exact Hget|].
  intros ->. apply H. eauto.
Qed.

Lemma filled_id k v d : is_Some (dict_get k d) -> filled k v d = d.
Proof. intros H. unfold filled. by rewrite bool_decide_eq_true_2. Qed.

Lemma ensure_key_cases k v x x' :
  ensure_key k v x = Ok x' ->
  (py_in k x = Ok true /\ x' = x)
  \/ (exists d, x = PDict d /\ dict_get k d = None /\ x' = PDict (dict_set k v d)).
Proof.
  unfold ensure_key. destruct x as [ |b|z|q|s|l|d]; cbn [py_in]; try discriminate.
  - rewrite bind_ok. destruct (contains k s); [|discriminate].
    intros [= <-]. by left.
  - rewrite bind_ok. destruct (str_elem k l); [|discriminate].
    intros [= <-]. by left.
  - rewrite bind_ok. case_bool_decide as H; cbn [py_setitem]; intros [= <-].
    + by left.
    + right. exists d. by rewrite eq_None_not_Some.
Qed.

Lemma py_in_set k k' v d :
  py_in k' (PDict d) = Ok true -> py_in k' (PDict (dict_set k v d)) = Ok true.
Proof.
  cbn [py_in]. intros [= H]. apply bool_decide_eq_true in H.
  f_equal. apply bool_decide_eq_true. by apply dict_get_set_is_Some.
Qed.

Lemma ensure_key_has k v x x' : ensure_key k v x = Ok x' -> py_in k x' = Ok true.
Proof.
  intros H. apply ensure_key_cases in H as [[Hin ->]|(d & -> & _ & ->)]; [exact Hin|].
  cbn [py_in]. f_equal. apply bool_decide_eq_true. rewrite dict_get_set_eq. eauto.
Qed.

Lemma ensure_key_keeps k k' v x x' :
  ensure_key k v x = Ok x' -> py_in k' x = Ok true -> py_in k' x' = Ok true.
Proof.
  intros H Hin. apply ensure_key_cases in H as [[_ ->]|(d & -> & _ & ->)]; [exact Hin|].
  by apply py_in_set.
Qed.

Lemma ensure_key_of_dict k v d x' :
  ensure_key k v (PDict d) = Ok x' -> x' = PDict (filled k v d).
Proof. rewrite ensure_key_dict. by intros [= <-]. Qed.

Lemma has_keys_dict keys d :
  has_keys keys (PDict d) <-> Forall (fun k => is_Some (dict_get k d)) keys.
Proof.
  unfold has_keys. apply Forall_iff. intros k. cbn [py_in]. split.
  - intros [= H]. by apply bool_decide_eq_true in H.
  - intros H. f_equal. by apply bool_decide_eq_true.
Qed.

End DynFacts.

(** ** Refinement through the provider *)

Module RefineFacts.
Import Py PyStr PyDyn DynSpec DictFacts DynFacts Scoping Refine RefineSpec.

#[local] Ltac fill_step :=
  rewrite ensure_key_dict; cbv beta iota.

(** X15.  Validation of a parsed refinement fills in what is missing and
    nothing else: on a reply whose refined estimates are absent or a
    dictionary it never raises, the result has the rationale, the risk factors
    and the confidence, its refined estimates have the price range, the team,
    the duration and the assumptions, and every entry the reply came with is
    kept with its value, at both levels. *)
Theorem refinement_validation_fills_only_gaps (r : dict) (b : BaselineEstimates) :
  replied_estimates r ->
  exists r' e',
    _validate_refinement (PDict r) b = Ok (PDict r')
    /\ dict_get "refined_estimates" r' = Some (PDict e')
    /\ Forall (fun k => is_Some (dict_get k r')) refinement_keys
    /\ Forall (fun k => is_Some (dict_get k e')) estimate_keys
    /\ (forall k v, k <> "refined_estimates" ->
                    dict_get k r = Some v -> dict_get k r' = Some v)
    /\ (forall e k v, dict_get "refined_estimates" r = Some (PDict e) ->
                      dict_get k e = Some v -> dict_get k e' = Some v).
Proof.
  intros Hshape. unfold _validate_refinement, mbind, result_bind. fill_step.
  set (r1 := filled "refined_estimates" (PDict []) r).
  assert (exists e, dict_get "refined_estimates" r1 = Some (PDict e)
                    /\ forall e0, dict_get "refined_estimates" r = Some (PDict e0) -> e0 = e)
    as (e & He & Hsame).
  { unfold replied_estimates in Hshape. subst r1. unfold filled.
    destruct (dict_get "refined_estimates" r) as [v|] eqn:Eg.
    - destruct v; try done. rewrite bool_decide_eq_true_2 by eauto.
      rewrite Eg. eexists. split; [reflexivity|]. by intros e0 [= ->].
    - rewrite bool_decide_eq_false_2 by (intros [? ?]; discriminate).
      rewrite dict_get_set_eq. eexists. split; [reflexivity|]. intros ? [=]. }
  rewrite He. cbv beta iota. repeat fill_step.
  eexists. eexists. split; [reflexivity|].
  assert (forall k, k <> "refined_estimates" ->
                    forall v, dict_get k r = Some v -> dict_get k r1 = Some v) as Hr1.
  { intros k _ v Hv. subst r1. by apply filled_keeps. }
  split; [|split; [|split; [|split]]].
  - rewrite !filled_other by done. apply dict_get_set_eq.
  - unfold refinement_keys. repeat apply Forall_cons_2; [| | |apply Forall_nil_2].
    + do 2 (rewrite filled_other by done). apply filled_has.
    + rewrite filled_other by done. apply filled_has.
    + apply filled_has.
  - unfold estimate_keys. repeat apply Forall_cons_2; [| | | |apply Forall_nil_2].
    + do 3 (rewrite filled_other by done). apply filled_has.
    + do 2 (rewrite filled_other by done). apply filled_has.
    + rewrite filled_other by done. apply filled_has.
    + apply filled_has.
  - intros k v Hk Hv. do 3 apply filled_keeps.
    rewrite dict_get_set_ne by done. by apply Hr1.
  - intros e0 k v He0 Hv. apply Hsame in He0 as ->.
    by do 4 apply filled_keeps.
Qed.

Lemma refinement_validation_fills_only_gaps_witness :
  exists r' e',
    _validate_refinement (PDict priced_reply) generic_baseline = Ok (PDict r')
    /\ dict_get "refined_estimates" r' = Some (PDict e')
    /\ Forall (fun k => is_Some (dict_get k r')) refinement_keys
    /\ Forall (fun k => is_Some (dict_get k e')) estimate_keys
    /\ (forall k v, k <> "refined_estimates" ->
                    dict_get k priced_reply = Some v -> dict_get k r' = Some v)
    /\ (forall e k v, dict_get "refined_estimates" priced_reply = Some (PDict e) ->
                      dict_get k e = Some v -> dict_get k e' = Some v).
Proof.
  apply (refinement_validation_fills_only_gaps priced_reply generic_baseline).
  exact I.
Defined.

(** What a validated refinement is, whatever the reply was. *)
Lemma validated_refinement_shape (v v' : value) (b : BaselineEstimates) :
  _validate_refinement v b = Ok v' ->
  exists d, v' = PDict d
            /\ is_Some (dict_get "confidence" d)
            /\ is_Some (dict_get "refined_estimates" d).
Proof.
  unfold _validate_refinement. intros H.
  apply bind_ok_inv in H as (x1 & _ & H).
  destruct x1 as [ | | | | | |r1]; try discriminate.
  destruct (dict_get "refined_estimates" r1) as [est|]; [|discriminate].
  do 4 (apply bind_ok_inv in H as (? & _ & H)).
  rewrite bind_ok in H. cbv beta in H.
  apply bind_ok_inv in H as (x6 & E6 & H). apply ensure_key_of_dict in E6 as ->.
  apply bind_ok_inv in H as (x7 & E7 & H). apply ensure_key_of_dict in E7 as ->.
  apply ensure_key_of_dict in H as ->.
  eexists. split; [reflexivity|]. split; [apply filled_has|].
  do 3 (rewrite filled_other by done). rewrite dict_get_set_eq. eauto.
Qed.

(** X16.  Refinement fails only with the provider gateway: when the gateway
    returns a text, whatever it is, the result is a dictionary with a
    confidence and with the estimates under one of the two names the caller
    looks up; when [_refine_estimates] raises, it is the gateway's error. *)
Theorem refinement_always_carries_confidence
    (st : Gateway.LLMState) (w : Gateway.Replies) (b : BaselineEstimates)
    (client_factors : list (string * string)) :
  match (_refine_estimates st w b client_factors).2 with
  | Ok v =>
      exists d, v = PDict d
                /\ is_Some (dict_get "confidence" d)
                /\ (is_Some (dict_get "estimates" d)
                    \/ is_Some (dict_get "refined_estimates" d))
  | Raise e => Gateway.returned (Gateway._generate_response st w) = Raise e
  end.
Proof.
  unfold _refine_estimates. cbn [snd].
  destruct (Gateway.returned (Gateway._generate_response st w)) as [text|e];
    [|reflexivity].
  rewrite bind_ok.
  destruct (Extractor._parse_json_response "scoping_agent" text ≫=
              (fun refinement_result => _validate_refinement refinement_result b))
    as [v'|e] eqn:E.
  - apply bind_ok_inv in E as (parsed & _ & E).
    apply validated_refinement_shape in E as (d & -> & Hc & Hr).
    exists d. eauto.
  - eexists. split; [reflexivity|]. cbn. split; eauto.
Qed.

End RefineFacts.

(** ** Retrieval *)

Module RagFacts.
Import Py PyStr PyDyn DynSpec DictFacts DynFacts Rag RagSpec.

Lemma mapped_listed_and_known (service_name : string) :
  _map_to_dt_service service_name ∈ d_and_t_services
  /\ known_service (_map_to_dt_service service_name) = true.
Proof.
  unfold _map_to_dt_service.
  repeat match goal with
         | |- context [if ?c then _ else _] => destruct c
         end;
    (split; [apply list_elem_of_In; cbn; tauto | vm_compute; reflexivity]).
Qed.

(** X17.  A service name that is mapped lands on a service of the list,
    whatever the name; the default is the cloud strategy service. *)
Theorem mapped_service_is_listed (service_name : string) :
  _map_to_dt_service service_name ∈ d_and_t_services
  /\ known_service (_map_to_dt_service service_name) = true
  /\ _map_to_dt_service EmptyString = "Strategy & Design: Cloud".
Proof.
  destruct (mapped_listed_and_known service_name) as [H1 H2].
  split; [exact H1|]. split; [exact H2|]. vm_compute. reflexivity.
Qed.

Lemma baseline_filled (b0 b1 b2 b3 b4 : value) (v1 v2 v3 v4 : value) :
  ensure_key "pricing_range" v1 b0 = Ok b1 ->
  ensure_key "team_size" v2 b1 = Ok b2 ->
  ensure_key "duration" v3 b2 = Ok b3 ->
  ensure_key "complexity_factors" v4 b3 = Ok b4 ->
  has_keys baseline_keys b4.
Proof.
  intros E1 E2 E3 E4. unfold has_keys, baseline_keys.
  repeat apply Forall_cons_2; [| | | |apply Forall_nil_2].
  - eapply ensure_key_keeps; [exact E4|]. eapply ensure_key_keeps; [exact E3|].
    eapply ensure_key_keeps; [exact E2|]. eapply ensure_key_has, E1.
  - eapply ensure_key_keeps; [exact E4|]. eapply ensure_key_keeps; [exact E3|].
    eapply ensure_key_has, E2.
  - eapply ensure_key_keeps; [exact E4|]. eapply ensure_key_has, E3.
  - eapply ensure_key_has, E4.
Qed.

Lemma validate_service_complete (service s' : value) :
  validate_service service = Ok (Some s') -> complete_service s'.
Proof.
  unfold validate_service. intros H.
  apply bind_ok_inv in H as (present & _ & H).
  destruct present; cbn [negb] in H; [|discriminate].
  destruct service as [ | | | | | |s]; try discriminate.
  destruct (dict_get "service_name" s) as [[ | | | |n| | ]|] eqn:En; try discriminate.
  set (s0 := if known_service n then s
             else dict_set "service_name" (PStr (_map_to_dt_service n)) s) in H.
  assert (exists n', dict_get "service_name" s0 = Some (PStr n')
                     /\ known_service n' = true) as (n' & Hn' & Hknown).
  { subst s0. destruct (known_service n) eqn:Ek.
    - eauto.
    - eexists. split; [apply dict_get_set_eq|]. apply mapped_listed_and_known. }
  clearbody s0.
  rewrite ensure_key_dict, bind_ok in H. cbv beta iota in H.
  set (s1 := filled "baseline_estimates" (PDict []) s0) in H.
  rewrite bind_ok in H. cbv beta in H.
  apply bind_ok_inv in H as (b1 & E1 & H).
  apply bind_ok_inv in H as (b2 & E2 & H).
  apply bind_ok_inv in H as (b3 & E3 & H).
  apply bind_ok_inv in H as (b4 & E4 & H).
  rewrite ensure_key_dict, bind_ok in H. injection H as <-.
  exists (filled "relevance_score" (PFloat (7 # 10))
            (dict_set "baseline_estimates" b4 s1)), n', b4.
  split; [reflexivity|]. split; [|split; [exact Hknown|split; [|split]]].
  - rewrite filled_other by done. rewrite dict_get_set_ne by done.
    subst s1. rewrite filled_other by done. exact Hn'.
  - rewrite filled_other by done. apply dict_get_set_eq.
  - eapply baseline_filled; eassumption.
  - apply filled_has.
Qed.

Lemma validated_all_complete (services : list value) (validated : list value) :
  foldr (fun service acc =>
           validated ← validate_service service;
           rest ← acc;
           Ok (match validated with Some s => s :: rest | None => rest end))
        (Ok []) services = Ok validated ->
  Forall complete_service validated /\ length validated <= length services.
Proof.
  revert validated. induction services as [|s l IH]; intros validated; cbn [foldr].
  - intros [= <-]. split; [constructor|done].
  - intros H. apply bind_ok_inv in H as (o & Eo & H).
    apply bind_ok_inv in H as (rest & Er & H).
    destruct (IH rest Er) as [Hall Hlen].
    injection H as <-. destruct o as [s'|].
    + split; [|cbn; lia]. constructor; [|exact Hall].
      eapply validate_service_complete, Eo.
    + split; [exact Hall|cbn; lia].
Qed.

Lemma validation_gives_complete (services : value) (validated : list value) :
  _validate_service_information services = Ok validated ->
  Forall complete_service validated.
Proof.
  unfold _validate_service_information. intros H.
  apply bind_ok_inv in H as (l & _ & H).
  by apply validated_all_complete in H as [H _].
Qed.

(** X18.  Every service that passes [_validate_service_information] is a
    dictionary with a name that a service of the list holds or is held by
    (letter case apart), with baseline estimates that have the price range,
    the team size, the duration and the complexity factors, and with a
    relevance score; services are dropped, never added. *)
Theorem validated_services_are_complete (services : value) (validated : list value) :
  _validate_service_information services = Ok validated ->
  Forall complete_service validated
  /\ forall l, services = PList l -> length validated <= length l.
Proof.
  intros H. split; [by eapply validation_gives_complete|].
  intros l ->. unfold _validate_service_information in H.
  cbn [Orchestrator.py_iter] in H. rewrite bind_ok in H.
  by apply validated_all_complete in H as [_ H].
Qed.

Lemma validated_services_are_complete_witness :
  _validate_service_information extracted_services
  = Ok [ PDict [ ("service_name", PStr "Strategy & Design: Cloud");
                 ("baseline_estimates",
                  PDict [ ("pricing_range", PStr "To be determined based on scope");
                          ("team_size", PStr "2-5 consultants");
                          ("duration", PStr "3-6 months");
                          ("complexity_factors",
                           PList [ PStr "Client size"; PStr "Integration complexity";
                                   PStr "Timeline requirements" ]) ]);
                 ("relevance_score", PFloat (7 # 10)) ] ]
  /\ Forall complete_service
       [ PDict [ ("service_name", PStr "Strategy & Design: Cloud");
                 ("baseline_estimates",
                  PDict [ ("pricing_range", PStr "To be determined based on scope");
                          ("team_size", PStr "2-5 consultants");
                          ("duration", PStr "3-6 months");
                          ("complexity_factors",
                           PList [ PStr "Client size"; PStr "Integration complexity";
                                   PStr "Timeline requirements" ]) ]);
                 ("relevance_score", PFloat (7 # 10)) ] ].
Proof.
  split; [vm_compute; reflexivity|].
  apply (validated_services_are_complete extracted_services).
  vm_compute. reflexivity.
Defined.

Lemma detected_listed (result : SearchResult) :
  Forall (fun s => listed_with_estimates (with_baseline_estimates s))
         (detect_service result).
Proof.
  unfold detect_service.
  repeat match goal with
         | |- context [if ?c then _ else _] => destruct c
         end;
    repeat constructor;
    (eexists; eexists; eexists; split; [reflexivity|];
     split; [reflexivity|]; split; [apply list_elem_of_In; cbn; tauto|];
     split; reflexivity).
Qed.

Lemma defaults_listed :
  Forall (fun s => listed_with_estimates (with_baseline_estimates s)) default_services.
Proof.
  repeat constructor;
    (eexists; eexists; eexists; split; [reflexivity|];
     split; [reflexivity|]; split; [apply list_elem_of_In; cbn; tauto|];
     split; reflexivity).
Qed.

Lemma fallback_listed (search_results : list SearchResult) :
  Forall listed_with_estimates (_create_fallback_services search_results).
Proof.
  unfold _create_fallback_services.
  destruct search_results as [|r rs]; [constructor|].
  apply Forall_take. apply Forall_fmap.
  destruct ((r :: rs) ≫= detect_service) eqn:E; [apply defaults_listed|].
  rewrite <- E. apply Forall_bind.
  apply Forall_forall. intros x _. apply detected_listed.
Qed.

(** X19.  The fallback services: none without search results; otherwise
    between one and three of them, each a service of the list with baseline
    estimates that are not empty. *)
Theorem fallback_services_bounds (search_results : list SearchResult) :
  length (_create_fallback_services search_results) <= 3
  /\ (_create_fallback_services search_results = [] <-> search_results = [])
  /\ Forall listed_with_estimates (_create_fallback_services search_results).
Proof.
  unfold _create_fallback_services.
  destruct search_results as [|r rs]; [cbn; split; [lia|split; [done|constructor]]|].
  split; [|split].
  - rewrite length_firstn. lia.
  - split; [|discriminate]. intros H. exfalso.
    destruct ((r :: rs) ≫= detect_service); discriminate H.
  - apply (fallback_listed (r :: rs)).
Qed.

Lemma complete_is_named (s : value) : complete_service s -> named_with_estimates s.
Proof. intros (d & n & b & -> & Hn & _ & Hb & _). exists d. rewrite Hn, Hb. eauto. Qed.

Lemma listed_is_named (s : value) : listed_with_estimates s -> named_with_estimates s.
Proof. intros (d & n & b & -> & Hn & _ & Hb & _). exists d. rewrite Hn, Hb. eauto. Qed.

(** X20.  Extraction fails only with the provider gateway, which it asks
    only when there are search results.  Whatever the provider replied, every
    service returned is a dictionary with a name and baseline estimates; and
    without search results no service is returned and the state of the
    gateway is left as it was. *)
Theorem extraction_returns_named_services
    (st : Gateway.LLMState) (w : Gateway.Replies) (search_results : list SearchResult) :
  match (_extract_service_information st w search_results).2 with
  | Ok x =>
      Forall named_with_estimates (services x)
      /\ (search_results = [] ->
          services x = [] /\ (_extract_service_information st w search_results).1 = st)
  | Raise e =>
      search_results <> []
      /\ Gateway.returned (Gateway._generate_response st w) = Raise e
  end.
Proof.
  unfold _extract_service_information.
  destruct search_results as [|r rs]; cbn [snd fst].
  - split; [constructor|]. by intros _.
  - destruct (Gateway.returned (Gateway._generate_response st w)) as [text|e];
      [|by split].
    rewrite bind_ok.
    match goal with
    | |- context [match ?m with Ok _ => _ | Raise _ => _ end] =>
        destruct m as [x|e] eqn:E
    end.
    + apply bind_ok_inv in E as (parsed & _ & E).
      apply bind_ok_inv in E as (relevant & _ & E).
      apply bind_ok_inv in E as (validated & Ev & E).
      apply bind_ok_inv in E as (key_insights & _ & E).
      apply bind_ok_inv in E as (c0 & _ & E).
      apply bind_ok_inv in E as (c1 & Ec & E).
      injection E as <-. cbn [services]. split; [|discriminate].
      apply validation_gives_complete in Ev.
      eapply Forall_impl; [exact Ev|]. apply complete_is_named.
    + cbn [services]. split; [|discriminate].
      pose proof (fallback_listed (r :: rs)) as H.
      eapply Forall_impl; [exact H|]. apply listed_is_named.
Qed.

Lemma join_cons_app (sep p : string) (rest : list string) :
  exists tail, join sep (p :: rest) = p +:+ tail.
Proof.
  destruct rest as [|q rest].
  - exists EmptyString. cbn [join]. induction p as [|c p IH]; [reflexivity|].
    rewrite PyStrFacts.app_cons. by rewrite <- IH.
  - eexists. reflexivity.
Qed.

(** X21.  The enhanced search query starts with the search focus it was
    given, whatever the context adds to it; on a context without pain points
    and without business facts it is the search focus itself. *)
Theorem enhanced_query_extends_base (base_query : string) (ctx : Context.ConversationContext) :
  starts_with base_query (_enhance_search_query base_query ctx) = true
  /\ _enhance_search_query base_query (Context.new_context (Context.session_id ctx))
     = base_query.
Proof.
  split; [|reflexivity].
  unfold _enhance_search_query.
  match goal with
  | |- context [join " " ?parts] =>
      assert (exists rest, parts = base_query :: rest) as (rest & ->)
  end.
  { repeat case_match; eexists; reflexivity. }
  destruct (join_cons_app " " base_query rest) as (tail & ->).
  apply PyStrFacts.starts_with_app.
Qed.

End RagFacts.

(** ** Follow-up questions *)

Module FollowUpFacts.
Import Py PyStr PyDyn DynSpec DictFacts DynFacts Summarizing FollowUpSpec.


Lemma structured_follow_up_valid (question_focus : string) :
  _validate_follow_up_response (_create_structured_follow_up question_focus)
    (PStr question_focus)
  = Ok (_create_structured_follow_up question_focus).
Proof.
  unfold _validate_follow_up_response, _create_structured_follow_up.
  repeat (rewrite ensure_key_dict, bind_ok; rewrite filled_id by (cbn; eauto)).
  rewrite ensure_key_dict. rewrite filled_id by (cbn; eauto). reflexivity.
Qed.

(** X22.  The structured follow-up built without the provider passes the
    validation of follow-ups unchanged, whatever the question focus, and it
    always asks three questions; an unknown focus gets the questions on the
    business context. *)
Theorem structured_follow_up_is_valid (question_focus : string) :
  _validate_follow_up_response (_create_structured_follow_up question_focus)
    (PStr question_focus)
  = Ok (_create_structured_follow_up question_focus)
  /\ (exists q1 q2 q3,
        py_get_probes (_create_structured_follow_up question_focus)
        = Some (PList [PStr q1; PStr q2; PStr q3]))
  /\ py_get_probes (_create_structured_follow_up question_focus)
     = py_get_probes
         (_create_structured_follow_up
            (if bool_decide (is_Some (dict_get question_focus focus_questions))
             then question_focus else "business_context")).
Proof.
  split; [apply structured_follow_up_valid|]. split.
  - assert (exists q1 q2 q3,
               default (default [] (dict_get "business_context" focus_questions))
                       (dict_get question_focus focus_questions) = [q1; q2; q3])
      as (q1 & q2 & q3 & Hq).
    { unfold focus_questions. cbn [dict_get].
      destruct (String.eqb question_focus "business_context"); [cbn; eauto|].
      destruct (String.eqb question_focus "pain_points"); [cbn; eauto|].
      destruct (String.eqb question_focus "priorities"); cbn; eauto. }
    exists q1, q2, q3. unfold _create_structured_follow_up. rewrite Hq. reflexivity.
  - case_bool_decide as Hsome; [reflexivity|].
    apply eq_None_not_Some in Hsome.
    unfold _create_structured_follow_up. rewrite Hsome. reflexivity.
Qed.


End FollowUpFacts.

(** ** More on the dependency executor *)

Module ExecutorMoreFacts.
Import Py Context Agent Orchestrator ExecutorSpec TurnSpec.

Section WithProcessors.
Context {W : Type} (P : Processors W).

Lemma track_lookup (agent_config : AgentConfig) (r r' : ExecutionResult)
    (m : gmap string ExecutionResult) (k : string) :
  track agent_config r m !! k = Some r' -> r' = r \/ m !! k = Some r'.
Proof.
  unfold track. intros H.
  repeat match type of H with
         | context [if ?c then _ else _] => destruct c
         | context [match ?o with Some _ => _ | None => _ end] => destruct o
         end;
    repeat (apply lookup_insert_Some in H as [[_ <-]|[_ H]]; [by left|]);
    by right.
Qed.

Lemma step_tracked_ok (l : Loop W) (agent_config : AgentConfig) :
  tracked_ok l -> tracked_ok (step P l agent_config).
Proof.
  intros Hok. unfold step.
  destruct (negb _); [exact Hok|].
  destruct (_execute_single_agent P (world l) (context l) agent_config)
    as [[w ctx] r].
  intros k r'. cbn [executed_agents execution_results].
  destruct (success r) eqn:Hr.
  - intros H. apply track_lookup in H as [->|H].
    + split; [exact Hr|]. apply elem_of_app. right. apply list_elem_of_here.
    + destruct (Hok k r' H) as [H1 H2]. split; [exact H1|].
      apply elem_of_app. by left.
  - intros H. destruct (Hok k r' H) as [H1 H2]. split; [exact H1|].
    apply elem_of_app. by left.
Qed.

Lemma run_loop_tracked_ok (agents_sequence : list AgentConfig) : forall l : Loop W,
  tracked_ok l -> tracked_ok (run_loop P l agents_sequence).
Proof.
  induction agents_sequence as [|c seq IH]; intros l Hok; [exact Hok|].
  apply IH, step_tracked_ok, Hok.
Qed.

(** X24.  The map of completed results only ever holds successful results,
    each of them also in the list the executor returns; so a dependency is met
    exactly when its name is a key of the map. *)
Theorem completed_map_holds_successes
    (w : W) (ctx : ConversationContext) (agents_sequence : list AgentConfig) :
  (forall k r,
     executed_agents (_execute_agent_sequence P w ctx agents_sequence) !! k = Some r ->
     success r = true
     /\ r ∈ execution_results (_execute_agent_sequence P w ctx agents_sequence))
  /\ (forall deps,
        _dependencies_satisfied deps
          (executed_agents (_execute_agent_sequence P w ctx agents_sequence)) = true
        <-> Forall (fun d =>
                      is_Some (executed_agents
                                 (_execute_agent_sequence P w ctx agents_sequence) !! d))
                   deps).
Proof.
  assert (tracked_ok (_execute_agent_sequence P w ctx agents_sequence)) as Hok.
  { apply run_loop_tracked_ok. intros k r. cbn. by rewrite lookup_empty. }
  split; [exact Hok|].
  intros deps. unfold _dependencies_satisfied. rewrite forallb_forall, Forall_forall.
  split; intros H d Hd.
  - apply list_elem_of_In in Hd. specialize (H d Hd).
    destruct (_ !! d); [eauto|discriminate].
  - apply list_elem_of_In in Hd. destruct (H d Hd) as [r Hr]. rewrite Hr.
    by apply Hok in Hr as [Hr _].
Qed.

(** The loop and the history. *)
Lemma single_agent_history (w : W) (ctx : ConversationContext) (agent_config : AgentConfig) :
  keeps_history P ->
  conversation_history (_execute_single_agent P w ctx agent_config).1.2
  = conversation_history ctx.
Proof.
  intros Hkeep. destruct (Hkeep w ctx agent_config) as (H1 & H2 & H3).
  unfold _execute_single_agent.
  repeat match goal with
         | |- context [if ?c then _ else _] => destruct c
         end; try reflexivity.
  - destruct (rag_process P w ctx agent_config) as [[? ?] [?|?]]; exact H1.
  - destruct (scoping_process P w ctx agent_config) as [[? ?] [?|?]]; exact H2.
  - destruct (summarizing_process P w ctx agent_config) as [[? ?] [?|?]]; exact H3.
Qed.

Lemma run_loop_history (agents_sequence : list AgentConfig) : forall l : Loop W,
  keeps_history P ->
  conversation_history (context (run_loop P l agents_sequence))
  = conversation_history (context l).
Proof.
  induction agents_sequence as [|c seq IH]; intros l Hkeep; [reflexivity|].
  change (run_loop P l (c :: seq)) with (run_loop P (step P l c) seq).
  rewrite (IH _ Hkeep). unfold step.
  destruct (negb _); [reflexivity|].
  pose proof (single_agent_history (world l) (context l) c Hkeep) as Hh.
  destruct (_execute_single_agent P (world l) (context l) c) as [[w ctx] r].
  exact Hh.
Qed.

(** The loop and the messages of the summarizing agent. *)
Lemma single_agent_text (w : W) (ctx : ConversationContext) (agent_config : AgentConfig) :
  answers_in_text P ->
  texts_ok [(_execute_single_agent P w ctx agent_config).2].
Proof.
  intros Htext. apply Forall_singleton. unfold _execute_single_agent.
  destruct (String.eqb _ "rag_agent") eqn:E1.
  { apply String.eqb_eq in E1.
    destruct (rag_process P w ctx agent_config) as [[? ?] [?|?]];
      cbn; rewrite E1; discriminate. }
  destruct (String.eqb _ "scoping_agent") eqn:E2.
  { apply String.eqb_eq in E2.
    destruct (scoping_process P w ctx agent_config) as [[? ?] [?|?]];
      cbn; rewrite E2; discriminate. }
  destruct (String.eqb _ "summarizing_agent") eqn:E3.
  - specialize (Htext w ctx agent_config).
    destruct (summarizing_process P w ctx agent_config) as [[? ?] [r|e]]; cbn.
    + intros _ c0 [= <-]. by apply Htext.
    + intros _ c0 [=].
  - cbn. intros _ c0 [=].
Qed.

Lemma run_loop_texts (agents_sequence : list AgentConfig) : forall l : Loop W,
  answers_in_text P ->
  texts_ok (execution_results l) ->
  texts_ok (execution_results (run_loop P l agents_sequence)).
Proof.
  induction agents_sequence as [|c seq IH]; intros l Htext Hok; [exact Hok|].
  change (run_loop P l (c :: seq)) with (run_loop P (step P l c) seq).
  apply (IH _ Htext). unfold step.
  destruct (negb _); [exact Hok|].
  pose proof (single_agent_text (world l) (context l) c Htext) as Hr.
  destruct (_execute_single_agent P (world l) (context l) c) as [[w ctx] r].
  cbn [execution_results]. apply Forall_app. split; [exact Hok|exact Hr].
Qed.

End WithProcessors.

Lemma final_content_is_text (strategy_decision : StrategyDecision)
    (results : list ExecutionResult) (final : value) :
  texts_ok results ->
  _generate_final_response strategy_decision results = Ok final ->
  exists d text, final = PDict d /\ dict_get "content" d = Some (PStr text).
Proof.
  intros Hok. unfold _generate_final_response.
  destruct (summarizing_result results) as [r|] eqn:Er.
  - assert (forall c, content r = Some c -> message_is_text c) as Hr.
    { unfold summarizing_result in Er. apply head_Some_elem_of in Er.
      apply list_elem_of_filter in Er as [Hp Hin].
      apply list_elem_of_In in Hin. apply in_rev in Hin. apply list_elem_of_In in Hin.
      unfold texts_ok in Hok. rewrite Forall_forall in Hok. apply (Hok r Hin).
      apply andb_prop_elim in Hp as [Hp _].
      by apply Is_true_eq_true, String.eqb_eq in Hp. }
    intros H. apply DynFacts.bind_ok_inv in H as (rec & _ & H).
    injection H as <-.
    destruct (content r) as [c|].
    + specialize (Hr c eq_refl). unfold message_is_text in Hr.
      change (default [] (Some c)) with c.
      destruct (dict_get "consultant_message" c) as [[ | | | |text| | ]|];
        try done; eexists; eexists; (split; reflexivity).
    + eexists; eexists; (split; reflexivity).
  - destruct (filter _ results); intros [= <-]; eexists; eexists;
      (split; reflexivity).
Qed.

End ExecutorMoreFacts.

(** ** The turns of a conversation *)

Module TurnFacts.
Import Py Context Agent Strategy Orchestrator ExecutorSpec TurnSpec PipelineSpec.

Lemma planner_keeps_history (env : PlannerEnv) (st : Gateway.LLMState)
    (ctx : ConversationContext) (user_input : string) :
  conversation_history (Strategy.process env st ctx user_input).1.2
  = conversation_history ctx.
Proof.
  unfold Strategy.process. destruct (plan env st) as [st' [d|e]]; reflexivity.
Qed.

Lemma stored_history_get (cm : ContextManager) (sid : string) :
  conversation_history (get_context cm sid).2 = stored_history cm sid.
Proof. unfold get_context, stored_history. by destruct (cm !! sid). Qed.

Lemma stored_after_update (cm : ContextManager) (sid : string) (ctx : ConversationContext) :
  stored_history (update_context (<[sid := ctx]> cm) ctx) sid = conversation_history ctx.
Proof.
  unfold stored_history, update_context.
  destruct (decide (session_id ctx = sid)) as [->|Hne].
  - by rewrite lookup_insert_eq.
  - rewrite lookup_insert_ne by done. by rewrite lookup_insert_eq.
Qed.

(** X27.  Every turn is recorded.  With processors that leave the history
    alone and a summarizing agent whose message is a string, a call of
    [process_message] appends the user's message to the stored history of the
    session on every exit, also when planning fails or an error is caught; it
    appends the reply after it exactly when it reports success, and the
    recorded reply is the text returned. *)
Theorem turns_are_recorded {W : Type} (P : Processors W) (env : PlannerEnv)
    (sys : System W) (sid user_message : string) :
  keeps_history P ->
  answers_in_text P ->
  if reports_success (process_message P env sys sid user_message).2
  then exists text,
      reply_text (process_message P env sys sid user_message).2 = Some text
      /\ stored_history (contexts (process_message P env sys sid user_message).1) sid
         = stored_history (contexts sys) sid
           ++ [turn "user" user_message; turn "ai" text]
  else stored_history (contexts (process_message P env sys sid user_message).1) sid
       = stored_history (contexts sys) sid ++ [turn "user" user_message].
Proof.
  intros Hkeep Htext. unfold process_message.
  pose proof (stored_history_get (contexts sys) sid) as Hget.
  destruct (get_context (contexts sys) sid) as [cm ctx0]. cbn [snd] in Hget.
  pose proof (planner_keeps_history env (llm_state sys)
                (add_message ctx0 "user" user_message) user_message) as Hplan.
  destruct (Strategy.process env (llm_state sys)
              (add_message ctx0 "user" user_message) user_message)
    as [[st ctx1] response].
  cbn [fst snd] in Hplan. cbn [add_message with_history conversation_history] in Hplan.
  destruct (Agent.success response); cbn [negb].
  - unfold run_strategy.
    pose proof (ExecutorMoreFacts.run_loop_history P
                  (default [] (agents_sequence (Agent.content response)))
                  {| world := processors_world sys; context := ctx1;
                     executed_agents := ∅; execution_results := [] |} Hkeep) as Hloop.
    pose proof (ExecutorMoreFacts.run_loop_texts P
                  (default [] (agents_sequence (Agent.content response)))
                  {| world := processors_world sys; context := ctx1;
                     executed_agents := ∅; execution_results := [] |} Htext
                  (Forall_nil_2 _)) as Htexts.
    cbn [context] in Hloop.
    fold (_execute_agent_sequence P (processors_world sys) ctx1
            (default [] (agents_sequence (Agent.content response)))) in Hloop, Htexts.
    set (l := _execute_agent_sequence P (processors_world sys) ctx1
                (default [] (agents_sequence (Agent.content response)))) in *.
    destruct (_generate_final_response (Agent.content response) (execution_results l))
      as [final|e] eqn:Ef.
    + rewrite DynFacts.bind_ok.
      destruct (ExecutorMoreFacts.final_content_is_text _ _ _ Htexts Ef)
        as (d & text & -> & Ec).
      rewrite Ec.
      cbn [fst snd reports_success dict_get String.eqb Ascii.eqb Bool.eqb contexts].
      exists text. split.
      * cbn [reply_text dict_get String.eqb Ascii.eqb Bool.eqb]. by rewrite Ec.
      * rewrite stored_after_update.
        cbn [add_message with_history conversation_history].
        rewrite Hloop, Hplan, Hget. by rewrite <- app_assoc.
    + cbn. unfold stored_history. rewrite lookup_insert_eq.
      rewrite Hloop, Hplan, Hget. reflexivity.
  - cbn. unfold stored_history at 1. rewrite lookup_insert_eq.
    rewrite Hplan, Hget. reflexivity.
Qed.

Lemma turns_are_recorded_witness :
  stored_history
    (contexts (process_message always_succeed providers_down fresh_system
                 "session" "hello").1) "session"
  = [turn "user" "hello"].
Proof.
  apply (turns_are_recorded always_succeed providers_down fresh_system "session" "hello").
  - intros w ctx agent_config. repeat split.
  - intros w ctx agent_config r [= <-]. exact I.
Defined.

End TurnFacts.

(** ** Extracted facts and the search query *)

Module QueryFacts.
Import Py PyStr Context Strategy Rag ExtractionSpec.

(** X28.  The industry and the company size that the planner extracts never
    reach the search query: the extraction records them in the client context,
    the query reads them from the business context.  On a context whose
    business context has neither key, the query after an extraction is the
    search focus followed by the descriptions of the pain points. *)
Theorem extracted_facts_do_not_reach_query
    (base_query : string) (ctx : ConversationContext) (user_input : string) :
  dict_get "industry" (business_context ctx) = None ->
  dict_get "company_size" (business_context ctx) = None ->
  _enhance_search_query base_query (_extract_context_from_conversation ctx user_input)
  = match pain_points (_extract_context_from_conversation ctx user_input) with
    | [] => base_query
    | pains => base_query +:+ " " +:+ join " " (Context.description <$> pains)
    end.
Proof.
  intros Hind Hsize. rewrite ExtractionFacts.extract_unfold.
  unfold _enhance_search_query.
  cbn [business_context pain_points with_facts].
  unfold business_facts. rewrite !ExtractionFacts.dict_get_set_if.
  rewrite Hind, Hsize. rewrite !andb_false_r.
  destruct (foldl _ _ _); reflexivity.
Qed.

Lemma extracted_facts_do_not_reach_query_witness :
  dict_get "industry"
    (client_context (_extract_context_from_conversation bank_turn "What do we offer?"))
  = Some "Banking/Financial Services"
  /\ exists pains,
       _enhance_search_query "cloud"
         (_extract_context_from_conversation bank_turn "What do we offer?")
       = "cloud" +:+ " " +:+ pains.
Proof.
  split; [vm_compute; reflexivity|]. eexists.
  rewrite (extracted_facts_do_not_reach_query "cloud" bank_turn "What do we offer?");
    [|reflexivity|reflexivity].
  vm_compute. reflexivity.
Defined.

End QueryFacts.

(** ** The names of the completed results *)

Module KeyFacts.
Import Py Context Agent Orchestrator ExecutorSpec KeySpec.

Section WithProcessors.
Context {W : Type} (P : Processors W).

Lemma track_key (agent_config : AgentConfig) (r : ExecutionResult)
    (m : gmap string ExecutionResult) (k : string) :
  is_Some (track agent_config r m !! k) ->
  is_Some (m !! k) \/ records_under agent_config k.
Proof.
  unfold track, records_under, generic_name.
  destruct (String.eqb _ "scoping_agent") eqn:E1.
  - apply String.eqb_eq in E1. intros H.
    apply lookup_insert_is_Some in H as [<-|[_ H]]; [right; right; left; done|].
    apply lookup_insert_is_Some in H as [<-|[_ H]]; [right; by left|by left].
  - destruct (search_id agent_config) as [sid|] eqn:Es.
    + destruct (String.eqb _ "rag_agent") eqn:E2.
      * apply String.eqb_eq in E2. intros H.
        apply lookup_insert_is_Some in H as [<-|[_ H]]; [right; right; right; done|].
        apply lookup_insert_is_Some in H as [<-|[_ H]]; [right; by left|by left].
      * intros H.
        apply lookup_insert_is_Some in H as [<-|[_ H]]; [right; by left|by left].
    + intros H.
      apply lookup_insert_is_Some in H as [<-|[_ H]]; [right; by left|by left].
Qed.

Lemma run_loop_keys (agents_sequence : list AgentConfig) :
  forall (done : list AgentConfig) (l : Loop W),
    keys_from done l ->
    keys_from (done ++ agents_sequence) (run_loop P l agents_sequence).
Proof.
  induction agents_sequence as [|c seq IH]; intros done l Hl.
  - by rewrite app_nil_r.
  - change (run_loop P l (c :: seq)) with (run_loop P (step P l c) seq).
    rewrite (cons_middle c done seq), app_assoc. apply IH.
    intros k. unfold step.
    destruct (negb _).
    + intros H. destruct (Hl k H) as (c' & Hin & Hc').
      exists c'. split; [apply elem_of_app; by left|exact Hc'].
    + destruct (_execute_single_agent P (world l) (context l) c) as [[w ctx] r].
      cbn [executed_agents]. intros H.
      assert (is_Some (executed_agents l !! k) \/ records_under c k) as [Hk|Hk].
      { destruct (success r); [by apply track_key in H|by left]. }
      * destruct (Hl k Hk) as (c' & Hin & Hc').
        exists c'. split; [apply elem_of_app; by left|exact Hc'].
      * exists c. split; [|exact Hk]. apply elem_of_app. right. apply list_elem_of_here.
Qed.

(** X29.  Every name in the map of completed results comes from a task of
    the plan: it is the task's identifier (its search id, else its scope
    focus, else its agent name), or "scoping_agent" for a scoping task, or the
    search id of a retrieval task.  A dependency on any other name is never
    met. *)
Theorem completed_keys_come_from_plan
    (w : W) (ctx : ConversationContext) (agents_sequence : list AgentConfig)
    (k : string) :
  (is_Some (executed_agents (_execute_agent_sequence P w ctx agents_sequence) !! k) ->
   exists agent_config,
     agent_config ∈ agents_sequence /\ records_under agent_config k)
  /\ ((forall agent_config,
         agent_config ∈ agents_sequence -> ~ records_under agent_config k) ->
      forall deps,
        k ∈ deps ->
        _dependencies_satisfied deps
          (executed_agents (_execute_agent_sequence P w ctx agents_sequence)) = false).
Proof.
  assert (keys_from agents_sequence (_execute_agent_sequence P w ctx agents_sequence))
    as Hkeys.
  { apply (run_loop_keys agents_sequence []).
    intros k' [r Hr]. cbn in Hr. by rewrite lookup_empty in Hr. }
  split; [apply Hkeys|].
  intros Hnone deps Hin. unfold _dependencies_satisfied.
  apply not_true_is_false. intros Hall. rewrite forallb_forall in Hall.
  apply list_elem_of_In in Hin. specialize (Hall k Hin).
  destruct (executed_agents _ !! k) as [r|] eqn:Er; [|discriminate].
  destruct (Hkeys k) as (c & Hc & Hrec); [by rewrite Er|].
  exact (Hnone c Hc Hrec).
Qed.

End WithProcessors.

Lemma completed_keys_come_from_plan_witness :
  _dependencies_satisfied ["rag_agent"]
    (executed_agents
       (_execute_agent_sequence always_succeed tt (new_context "session")
          [Strategy.fallback_retrieve])) = false.
Proof.
  apply (completed_keys_come_from_plan always_succeed tt (new_context "session")
           [Strategy.fallback_retrieve] "rag_agent").
  - intros c Hc. apply list_elem_of_singleton in Hc as ->.
    unfold records_under. cbn. intros [H|[[H _]|[_ H]]]; discriminate H.
  - apply list_elem_of_here.
Defined.

End KeyFacts.

(** ** The shape of a report *)

Module ReportShapeFacts.
Import Py Context Agent Orchestrator ReportShapeSpec.

(** X30.  A report never fails and never loses a conversation: what
    [generate_analysis_report] returns is a dictionary with a [success] flag,
    with the six sections of the report when the flag is set and with an error
    text otherwise; every stored conversation is still stored as it was, and
    the session asked for is stored afterwards, also when it was unknown. *)
Theorem report_is_total_and_keeps_store
    (cm : ContextManager) (now : Q) (sid : string) :
  (exists d b,
     report_outcome (generate_analysis_report cm now sid).2 = Some (d, b)
     /\ if b then Forall (fun k => is_Some (dict_get k d)) report_fields
        else is_Some (dict_get "error" d))
  /\ cm ⊆ (generate_analysis_report cm now sid).1
  /\ is_Some ((generate_analysis_report cm now sid).1 !! sid).
Proof.
  unfold generate_analysis_report, get_context.
  assert (exists cm' ctx,
             match cm !! sid with
             | Some ctx => (cm, ctx)
             | None => (<[sid := new_context sid]> cm, new_context sid)
             end = (cm', ctx)
             /\ cm ⊆ cm' /\ is_Some (cm' !! sid)) as (cm' & ctx & -> & Hsub & Hsid).
  { destruct (cm !! sid) as [ctx|] eqn:E.
    - exists cm, ctx. by rewrite E.
    - eexists. eexists. split; [reflexivity|]. split.
      + by apply insert_subseteq.
      + rewrite lookup_insert_eq. eauto. }
  destruct (conversation_history ctx) as [|m h].
  - split; [|done]. eexists. exists false. split; [reflexivity|]. cbn. eauto.
  - destruct (_create_service_summary ctx) as [services|e]; cbn [mbind result_bind].
    + destruct (_create_scoping_summary ctx) as [scoping|e]; cbn [mbind result_bind].
      * split; [|done]. eexists. exists true. split; [reflexivity|].
        unfold report_fields. repeat constructor; cbn; eauto.
      * split; [|done]. eexists. exists false. split; [reflexivity|]. cbn. eauto.
    + split; [|done]. eexists. exists false. split; [reflexivity|]. cbn. eauto.
Qed.

End ReportShapeFacts.

(** ** The executor on plans as the planner hands them over *)

Module PlanExecutorFacts.
Import Py Context PlanExecutor PlanExecutorSpec.

Section WithAgents.
Context {W : Type} (A : Agents W).

(** C5.  The executor does not keep to one result per task.  When a task
    without dependencies succeeds and the value it is to be tracked under
    (its search id, else its scope focus, else its agent name) cannot be a
    key, the assignment to the map raises inside the [try] of the loop, after
    the result has been appended: the handler appends a second, failed result
    for the same task, and the success is not tracked.  A plan of this one
    task gives two results. *)
Theorem successful_task_is_recorded_twice
    (w w' : W) (ctx ctx' : ConversationContext) (agent_config : dict)
    (r : ExecutionResult) :
  free agent_config ->
  _execute_single_agent A w ctx agent_config = (w', ctx', r) ->
  success r = true ->
  hashable (agent_id agent_config) = false ->
  exists failure,
    _execute_agent_sequence A w ctx (PList [PDict agent_config])
    = ({| world := w'; context := ctx'; executed_agents := [];
          execution_results := [r; failure] |}, None)
    /\ success failure = false
    /\ length (execution_results
                 (_execute_agent_sequence A w ctx (PList [PDict agent_config])).1) = 2.
Proof.
  intros Hfree Hrun Hok Hkey.
  unfold _execute_agent_sequence. cbn [elements run_loop].
  unfold step. cbn [executed_agents world context execution_results].
  unfold _dependencies_satisfied. unfold free in Hfree. rewrite Hfree. cbn [negb].
  rewrite Hrun, Hok.
  unfold track, tracker_set. rewrite Hkey.
  eexists. split; [reflexivity|]. split; reflexivity.
Qed.

(** A dependency that cannot be a key is not looked up: the [in] test
    raises, and the task gets a failed result instead of being passed over.
    No agent is run. *)
Lemma unhashable_dependency_is_recorded_as_failed
    (w : W) (ctx : ConversationContext) (agent_config : dict)
    (dependency : value) (rest : list value) :
  depends_on_of agent_config = PList (dependency :: rest) ->
  hashable dependency = false ->
  _execute_agent_sequence A w ctx (PList [PDict agent_config])
  = ({| world := w; context := ctx; executed_agents := [];
        execution_results :=
          [failed_result (default (PStr "unknown") (dict_get "agent" agent_config))
             (Text (exn_message (unhashable dependency)))] |}, None).
Proof.
  intros Hdeps Hkey.
  unfold _execute_agent_sequence. cbn [elements run_loop].
  unfold step. cbn [executed_agents world context execution_results].
  unfold _dependencies_satisfied. rewrite Hdeps.
  cbn [truthy negb elements mbind result_bind all_completed].
  rewrite bool_decide_eq_false_2 by done. cbn [negb].
  rewrite Hkey. reflexivity.
Qed.

(** On keyed tasks nothing raises inside the loop. *)
Lemma dependencies_checked (agent_config : dict) (executed : Tracker) :
  keyed agent_config ->
  exists b, _dependencies_satisfied (depends_on_of agent_config) executed = Ok b.
Proof.
  intros (_ & _ & _ & [Hnone|(deps & -> & Hall)]); unfold _dependencies_satisfied.
  - rewrite Hnone. eauto.
  - destruct (negb (truthy (PList deps))); [eauto|].
    cbn [elements mbind result_bind].
    induction Hall as [|d deps Hd _ IH]; cbn [all_completed]; [eauto|].
    rewrite Hd. cbn [negb].
    destruct (tracker_get d executed) as [r|]; [|eauto].
    destruct (success r); [exact IH|eauto].
Qed.

Lemma agent_id_keyed (agent_config : dict) :
  keyed agent_config -> hashable (agent_id agent_config) = true.
Proof.
  intros (Ha & Hs & Hf & _). unfold agent_id, py_or.
  repeat match goal with |- context [if ?c then _ else _] => destruct c end; done.
Qed.

Lemma track_keyed (agent_config : dict) (r : ExecutionResult) (executed : Tracker) :
  keyed agent_config -> (track agent_config r executed).2 = None.
Proof.
  intros Hk. unfold track, tracker_set. rewrite (agent_id_keyed _ Hk).
  destruct (is_str "scoping_agent" _); [reflexivity|].
  destruct (dict_get "search_id" agent_config) as [sid|] eqn:Es; [|reflexivity].
  destruct (is_str "rag_agent" _); [|reflexivity].
  destruct Hk as (_ & Hs & _). rewrite Es in Hs. cbn in Hs. rewrite Hs. reflexivity.
Qed.

Lemma single_agent_name (w : W) (ctx : ConversationContext) (agent_config : dict) :
  agent_name (_execute_single_agent A w ctx agent_config).2 = agent_of agent_config.
Proof.
  unfold _execute_single_agent.
  repeat match goal with
         | |- context [if ?c then _ else _] => destruct c
         end; try reflexivity.
  - by destruct (rag_agent A w ctx agent_config) as [[? ?] [?|?]].
  - by destruct (scoping_agent A w ctx agent_config) as [[? ?] [?|?]].
  - by destruct (summarizing_agent A w ctx agent_config) as [[? ?] [?|?]].
Qed.

(** What one iteration appends on a keyed task: nothing, or the result of
    the task. *)
Lemma step_keyed (l : Loop W) (agent_config : dict) :
  keyed agent_config ->
  step A l agent_config = l
  \/ exists r,
       execution_results (step A l agent_config) = execution_results l ++ [r]
       /\ agent_name r = agent_of agent_config.
Proof.
  intros Hk. unfold step.
  destruct (dependencies_checked agent_config (executed_agents l) Hk) as [b ->].
  destruct b; [|by left]. right.
  pose proof (single_agent_name (world l) (context l) agent_config) as Hname.
  destruct (_execute_single_agent A (world l) (context l) agent_config)
    as [[w ctx] r]. cbn [snd] in Hname.
  exists r. split; [|exact Hname].
  destruct (success r); [|reflexivity].
  pose proof (track_keyed agent_config r (executed_agents l) Hk) as Htr.
  destruct (track agent_config r (executed_agents l)) as [tracked raised].
  cbn [snd] in Htr. subst raised. reflexivity.
Qed.

Lemma step_free (l : Loop W) (agent_config : dict) :
  keyed agent_config -> free agent_config ->
  exists r,
    execution_results (step A l agent_config) = execution_results l ++ [r]
    /\ agent_name r = agent_of agent_config.
Proof.
  intros Hk Hfree. unfold step, _dependencies_satisfied.
  unfold free in Hfree. rewrite Hfree. cbn [negb].
  pose proof (single_agent_name (world l) (context l) agent_config) as Hname.
  destruct (_execute_single_agent A (world l) (context l) agent_config)
    as [[w ctx] r]. cbn [snd] in Hname.
  exists r. split; [|exact Hname].
  destruct (success r); [|reflexivity].
  pose proof (track_keyed agent_config r (executed_agents l) Hk) as Htr.
  destruct (track agent_config r (executed_agents l)) as [tracked raised].
  cbn [snd] in Htr. subst raised. reflexivity.
Qed.

(** What one iteration appends on any task: at most two results. *)
Lemma step_adds_at_most_two (l : Loop W) (agent_config : dict) :
  exists added,
    execution_results (step A l agent_config) = execution_results l ++ added
    /\ length added <= 2.
Proof.
  unfold step, handler.
  destruct (_dependencies_satisfied _ _) as [[|]|e].
  - destruct (_execute_single_agent A (world l) (context l) agent_config)
      as [[w ctx] r].
    destruct (success r).
    + destruct (track agent_config r (executed_agents l)) as [tracked [e|]];
        cbn [execution_results].
      * exists [r; failed_result (default (PStr "unknown") (dict_get "agent" agent_config))
                     (Text (exn_message e))].
        split; [by rewrite <- app_assoc|cbn; lia].
      * exists [r]. split; [reflexivity|cbn; lia].
    + exists [r]. split; [reflexivity|cbn; lia].
  - exists []. split; [by rewrite app_nil_r|cbn; lia].
  - cbn [execution_results]. eexists. split; [reflexivity|cbn; lia].
Qed.

Lemma run_loop_dicts (tasks : list dict) : forall l : Loop W,
  run_loop A l (PDict <$> tasks) = (foldl (step A) l tasks, None).
Proof.
  induction tasks as [|c tasks IH]; intros l; [reflexivity|].
  cbn [fmap list_fmap run_loop foldl]. apply IH.
Qed.

Lemma run_at_most_two (tasks : list dict) : forall l : Loop W,
  length (execution_results (foldl (step A) l tasks))
  <= length (execution_results l) + 2 * length tasks.
Proof.
  induction tasks as [|c tasks IH]; intros l; cbn [foldl length]; [lia|].
  etransitivity; [apply IH|].
  destruct (step_adds_at_most_two l c) as (added & -> & Hlen).
  rewrite length_app. lia.
Qed.

Lemma run_keyed (tasks : list dict) : forall l : Loop W,
  Forall keyed tasks ->
  exists ran,
    agent_name <$> execution_results (foldl (step A) l tasks)
    = (agent_name <$> execution_results l) ++ ran
    /\ ran `sublist_of` (agent_of <$> tasks).
Proof.
  induction tasks as [|c tasks IH]; intros l Hall.
  - exists []. split; [by rewrite app_nil_r|constructor].
  - apply Forall_cons in Hall as [Hc Hall]. cbn [foldl].
    destruct (IH (step A l c) Hall) as (ran & Heq & Hsub).
    rewrite Heq, fmap_cons.
    destruct (step_keyed l c Hc) as [->|(r & -> & Hr)].
    + exists ran. split; [reflexivity|]. by apply sublist_cons.
    + exists (agent_of c :: ran). split.
      * rewrite fmap_app, <- app_assoc. cbn. by rewrite Hr.
      * by apply sublist_skip.
Qed.

Lemma run_free (tasks : list dict) : forall l : Loop W,
  Forall keyed tasks -> Forall free tasks ->
  agent_name <$> execution_results (foldl (step A) l tasks)
  = (agent_name <$> execution_results l) ++ (agent_of <$> tasks).
Proof.
  induction tasks as [|c tasks IH]; intros l Hall Hfree.
  - by rewrite app_nil_r.
  - apply Forall_cons in Hall as [Hc Hall]. apply Forall_cons in Hfree as [Hf Hfree].
    cbn [foldl]. rewrite (IH _ Hall Hfree), fmap_cons.
    destruct (step_free l c Hc Hf) as (r & -> & Hr).
    rewrite fmap_app, <- app_assoc. cbn. by rewrite Hr.
Qed.

(** X25.  On a plan whose tasks are dictionaries the executor returns, and
    with at most two results for a task; when the values the tasks are
    tracked and looked for under can be keys, the results come in the order of
    the plan, at most one for a task: their agent names are the agent names of
    the tasks with some tasks left out. *)
Theorem results_follow_plan_order
    (w : W) (ctx : ConversationContext) (tasks : list dict) :
  (_execute_agent_sequence A w ctx (PList (PDict <$> tasks))).2 = None
  /\ length (execution_results
               (_execute_agent_sequence A w ctx (PList (PDict <$> tasks))).1)
     <= 2 * length tasks
  /\ (Forall keyed tasks ->
      (agent_name
         <$> execution_results
               (_execute_agent_sequence A w ctx (PList (PDict <$> tasks))).1)
        `sublist_of` (agent_of <$> tasks)).
Proof.
  unfold _execute_agent_sequence. cbn [elements]. rewrite run_loop_dicts.
  cbn [fst snd]. split; [reflexivity|]. split.
  - etransitivity; [apply run_at_most_two|]. cbn. lia.
  - intros Hall.
    destruct (run_keyed tasks
                {| world := w; context := ctx; executed_agents := [];
                   execution_results := [] |} Hall) as (ran & -> & Hsub).
    exact Hsub.
Qed.

(** X26.  Tasks without dependencies all run, once each and in the order of
    the plan, whatever the tasks before them did, when the values they are
    tracked under can be keys: a task that fails or names an unknown agent
    gives a failed result and does not stop the others. *)
Theorem independent_tasks_all_run
    (w : W) (ctx : ConversationContext) (tasks : list dict) :
  Forall keyed tasks ->
  Forall free tasks ->
  agent_name
    <$> execution_results (_execute_agent_sequence A w ctx (PList (PDict <$> tasks))).1
  = agent_of <$> tasks.
Proof.
  intros Hall Hfree.
  unfold _execute_agent_sequence. cbn [elements]. rewrite run_loop_dicts.
  cbn [fst]. by rewrite (run_free tasks _ Hall Hfree).
Qed.

End WithAgents.

Lemma successful_task_is_recorded_twice_witness :
  length (execution_results
            (_execute_agent_sequence all_succeed tt (new_context "session")
               (PList [PDict follow_up_on_two_services])).1) = 2.
Proof.
  destruct (successful_task_is_recorded_twice all_succeed tt tt
              (new_context "session") (new_context "session")
              follow_up_on_two_services
              (_execute_single_agent all_succeed tt (new_context "session")
                 follow_up_on_two_services).2)
    as (failure & _ & _ & Hlen); [reflexivity..|].
  exact Hlen.
Defined.

Lemma results_follow_plan_order_witness :
  (agent_name
     <$> execution_results
           (_execute_agent_sequence all_succeed tt (new_context "session")
              (PList (PDict <$> [search_task]))).1)
    `sublist_of` (agent_of <$> [search_task]).
Proof.
  apply (results_follow_plan_order all_succeed tt (new_context "session")
           [search_task]).
  repeat constructor.
Defined.

Lemma independent_tasks_all_run_witness :
  agent_name
    <$> execution_results
          (_execute_agent_sequence all_succeed tt (new_context "session")
             (PList (PDict <$> [search_task; search_task]))).1
  = [PStr "rag_agent"; PStr "rag_agent"].
Proof.
  apply (independent_tasks_all_run all_succeed tt (new_context "session")
           [search_task; search_task]).
  - repeat constructor.
  - repeat constructor.
Defined.

(** The two plans of the lemmas above, run. *)
Example follow_up_on_two_services_gives_two_results :
  (fun r => (success r, agent_name r))
    <$> execution_results
          (_execute_agent_sequence all_succeed tt (new_context "session")
             (PList [PDict follow_up_on_two_services])).1
  = [ (true, PStr "summarizing_agent"); (false, PStr "summarizing_agent") ].
Proof. vm_compute. reflexivity. Qed.

Example nested_dependency_gives_failed_result :
  (fun r => (success r, error r))
    <$> execution_results
          (_execute_agent_sequence all_succeed tt (new_context "session")
             (PList [PDict compose_after_nested])).1
  = [ (false, Some (Text "unhashable type: 'list'")) ].
Proof. vm_compute. reflexivity. Qed.

End PlanExecutorFacts.

(** ** Plan validation on the parsed reply *)

Module PlanValidationFacts.
Import Py PyStr PyDyn DynSpec DictFacts DynFacts PlanValidation PlanValidationSpec.

Lemma bind_valid {A B : Type} (a : A) (f : A -> checked B) : (Valid a ≫= f) = f a.
Proof. reflexivity. Qed.

Lemma bind_valid_inv {A B : Type} (m : checked A) (f : A -> checked B) (y : B) :
  (m ≫= f) = Valid y -> exists x, m = Valid x /\ f x = Valid y.
Proof. destruct m as [a|r]; [intros H; exists a; split; [reflexivity|exact H]|discriminate]. Qed.

Lemma lift_valid_inv {A : Type} (r : result A) (a : A) : lift r = Valid a -> r = Ok a.
Proof. destruct r; [by intros [= ->]|discriminate]. Qed.

Lemma getitem_inv (k : string) (x v : value) :
  py_getitem k x = Valid v -> exists d, x = PDict d /\ dict_get k d = Some v.
Proof.
  destruct x as [ | | | | | |d]; try discriminate. cbn [py_getitem].
  destruct (dict_get k d) as [u|] eqn:E; [|discriminate]. intros [= ->]. eauto.
Qed.

(** *** The first loop *)

Lemma first_loop_dicts (tasks : list dict) : forall i,
  Forall (fun d => is_Some (dict_get "agent" d)) tasks ->
  first_loop i (PDict <$> tasks)
  = Valid ((fun d => PDict (filled "depends_on" (PList []) d)) <$> tasks).
Proof.
  induction tasks as [|d tasks IH]; intros i Hall; [reflexivity|].
  apply Forall_cons in Hall as [Hd Hall].
  rewrite !fmap_cons. cbn [first_loop py_in lift].
  rewrite bind_valid. rewrite bool_decide_eq_true_2 by exact Hd. cbn [negb].
  rewrite ensure_key_dict. cbn [lift]. rewrite bind_valid.
  rewrite (IH _ Hall). reflexivity.
Qed.

Lemma first_loop_inv (tasks : list value) : forall i tasks',
  first_loop i tasks = Valid tasks' ->
  Forall2 (fun t t' => py_in "agent" t = Ok true
                       /\ ensure_key "depends_on" (PList []) t = Ok t')
          tasks tasks'.
Proof.
  induction tasks as [|t tasks IH]; intros i tasks'; cbn [first_loop].
  - intros [= <-]. constructor.
  - intros H. apply bind_valid_inv in H as (present & Hp & H).
    apply lift_valid_inv in Hp. destruct present; cbn [negb] in H; [|discriminate].
    apply bind_valid_inv in H as (t' & Ht & H). apply lift_valid_inv in Ht.
    apply bind_valid_inv in H as (rest & Hr & H). injection H as <-.
    constructor; [done|]. eapply IH, Hr.
Qed.

(** *** The second loop *)

Lemma first_rag_dicts (tasks : list dict) :
  Forall (fun d => is_Some (dict_get "agent" d)) tasks ->
  exists found, first_rag_search_id (PDict <$> tasks) = Valid found.
Proof.
  induction tasks as [|d tasks IH]; intros Hall; [by eexists|].
  apply Forall_cons in Hall as [[a Ha] Hall].
  rewrite fmap_cons. cbn [first_rag_search_id py_getitem]. rewrite Ha, bind_valid.
  destruct (PlanExecutor.is_str "rag_agent" a); [by eexists|]. by apply IH.
Qed.

(** What the second loop makes of a task that is a dictionary with an
    agent: the task, with or without a baseline source added. *)
Lemma ensure_baseline_source_dict (name : value) (tasks : list dict) (d : dict) :
  Forall (fun d => is_Some (dict_get "agent" d)) tasks ->
  is_Some (dict_get "agent" d) ->
  exists d',
    ensure_baseline_source name (PDict <$> tasks) (PDict d) = Valid (PDict d')
    /\ forall k, k <> "baseline_source" -> dict_get k d' = dict_get k d.
Proof.
  intros Hall [a Ha]. unfold ensure_baseline_source. cbn [py_getitem].
  rewrite Ha, bind_valid.
  destruct (PlanExecutor.is_str "scoping_agent" a); [|by exists d].
  cbn [py_in lift]. rewrite bind_valid.
  destruct (bool_decide (is_Some (dict_get "baseline_source" d))); [by exists d|].
  destruct (PlanExecutor.is_str "provide_estimates" name).
  - cbn [py_setitem lift]. eexists. split; [reflexivity|].
    intros k Hk. by apply dict_get_set_ne.
  - destruct (first_rag_dicts tasks Hall) as [found ->]. rewrite bind_valid.
    destruct found as [sid|]; [|by exists d].
    cbn [py_setitem lift]. eexists. split; [reflexivity|].
    intros k Hk. by apply dict_get_set_ne.
Qed.

Lemma for_each_dicts (name : value) (all : list dict) (tasks : list dict) :
  Forall (fun d => is_Some (dict_get "agent" d)) all ->
  Forall (fun d => is_Some (dict_get "agent" d)
                   /\ is_Some (dict_get "depends_on" d)) tasks ->
  exists tasks',
    for_each (ensure_baseline_source name (PDict <$> all)) (PDict <$> tasks)
    = Valid tasks'
    /\ Forall ready tasks'.
Proof.
  intros Hall. induction tasks as [|d tasks IH]; intros Htasks.
  - exists []. split; [reflexivity|constructor].
  - apply Forall_cons in Htasks as [[Ha Hd] Htasks].
    destruct (IH Htasks) as (rest & Hrest & Hready).
    destruct (ensure_baseline_source_dict name all d Hall Ha) as (d' & Hd' & Hsame).
    rewrite fmap_cons. cbn [for_each]. rewrite Hd', bind_valid, Hrest, bind_valid.
    eexists. split; [reflexivity|]. constructor; [|exact Hready].
    exists d'. split; [reflexivity|]. rewrite !Hsame by done. done.
Qed.

Lemma for_each_inv (f : value -> checked value) (tasks : list value) : forall tasks',
  for_each f tasks = Valid tasks' ->
  Forall2 (fun t t' => f t = Valid t') tasks tasks'.
Proof.
  induction tasks as [|t tasks IH]; intros tasks'; cbn [for_each].
  - intros [= <-]. constructor.
  - intros H. apply bind_valid_inv in H as (t' & Ht & H).
    apply bind_valid_inv in H as (rest & Hr & H). injection H as <-.
    constructor; [done|]. by apply IH.
Qed.

(** A task that gets through both loops is a dictionary with an agent. *)
Lemma passed_names_agent (name : value) (all : list value) (t t' t'' : value) :
  ensure_key "depends_on" (PList []) t = Ok t' ->
  ensure_baseline_source name all t' = Valid t'' ->
  names_agent t.
Proof.
  intros H1 H2. unfold ensure_baseline_source in H2.
  apply bind_valid_inv in H2 as (a & Ha & _).
  apply getitem_inv in Ha as (d' & -> & Ha).
  apply ensure_key_cases in H1 as [[_ <-]|(d & -> & _ & [= ->])].
  - exists d'. split; [reflexivity|]. eauto.
  - exists d. split; [reflexivity|].
    rewrite dict_get_set_ne in Ha by done. eauto.
Qed.

Lemma passed_all_name_agent (name : value) (all : list value)
    (tasks tasks' tasks'' : list value) : forall i,
  first_loop i tasks = Valid tasks' ->
  for_each (ensure_baseline_source name all) tasks' = Valid tasks'' ->
  Forall names_agent tasks.
Proof.
  intros i H1 H2. apply first_loop_inv in H1. apply for_each_inv in H2.
  revert tasks'' H2. induction H1 as [|t t' tasks tasks' [_ Ht] _ IH]; intros tasks'' H2.
  - constructor.
  - inversion H2 as [|? t'' ? rest'' Ht'' Hrest]; subst.
    constructor; [by eapply passed_names_agent|]. by eapply IH.
Qed.

Lemma named_tasks_are_dicts (tasks : list value) :
  Forall names_agent tasks ->
  exists ds, tasks = PDict <$> ds /\ Forall (fun d => is_Some (dict_get "agent" d)) ds.
Proof.
  induction 1 as [|t tasks (d & -> & Hd) _ (ds & -> & Hds)].
  - exists []. split; [reflexivity|constructor].
  - exists (d :: ds). split; [reflexivity|]. by constructor.
Qed.

(** *** The method *)

Lemma known_decision (name : value) :
  existsb (fun known => PlanExecutor.is_str known name) Strategy.valid_decisions = true
  <-> exists s, name = PStr s /\ str_in s Strategy.valid_decisions = true.
Proof.
  destruct name as [ |b|z|q|s|l|d];
    try (split; [intros H; vm_compute in H; discriminate H|intros (? & [=] & _)]).
  split.
  - intros H. exists s. split; [reflexivity|exact H].
  - intros (s' & [= <-] & H). exact H.
Qed.

(** What validation makes of a well-formed plan. *)
Lemma well_formed_is_valid (plan : value) :
  well_formed plan ->
  exists D',
    _validate_strategy_decision plan = Valid (PDict D')
    /\ decision_in (PDict D') = decision_in plan
    /\ sequence_of ready (sequence_in (PDict D')).
Proof.
  intros (D & name & seq & -> & Hname & Hknown & Hseq & Hok).
  unfold _validate_strategy_decision. cbn [py_in lift py_getitem].
  rewrite bind_valid, bool_decide_eq_true_2 by (rewrite Hname; eauto). cbn [negb].
  rewrite Hname, bind_valid.
  assert (existsb (fun known => PlanExecutor.is_str known (PStr name))
                  Strategy.valid_decisions = true) as ->.
  { apply known_decision. eauto. }
  cbn [negb]. rewrite bind_valid.
  rewrite bool_decide_eq_true_2 by (rewrite Hseq; eauto). cbn [negb].
  rewrite Hseq, bind_valid.
  destruct Hok as [(tasks & -> & Hall)|[->| ->]].
  - apply named_tasks_are_dicts in Hall as (ds & -> & Hds).
    cbn [PlanExecutor.elements lift]. rewrite bind_valid.
    rewrite (first_loop_dicts ds 0 Hds), bind_valid.
    set (filled_tasks := (fun d => filled "depends_on" (PList []) d) <$> ds).
    assert (Hfilled : (fun d => PDict (filled "depends_on" (PList []) d)) <$> ds
                      = PDict <$> filled_tasks).
    { subst filled_tasks. by rewrite <- list_fmap_compose. }
    rewrite Hfilled.
    assert (Hagents : Forall (fun d => is_Some (dict_get "agent" d)) filled_tasks).
    { subst filled_tasks. apply Forall_fmap. eapply Forall_impl; [exact Hds|].
      intros d [a Ha]. cbn. rewrite (filled_keeps _ _ _ _ _ Ha). eauto. }
    assert (Hboth : Forall (fun d => is_Some (dict_get "agent" d)
                                     /\ is_Some (dict_get "depends_on" d)) filled_tasks).
    { subst filled_tasks. apply Forall_fmap. eapply Forall_impl; [exact Hds|].
      intros d [a Ha]. cbn. split; [rewrite (filled_keeps _ _ _ _ _ Ha); eauto|].
      apply filled_has. }
    destruct (for_each_dicts (PStr name) filled_tasks filled_tasks Hagents Hboth)
      as (tasks' & -> & Hready).
    rewrite bind_valid. cbn [py_setitem lift].
    eexists. split; [reflexivity|]. split.
    + cbn [decision_in]. rewrite dict_get_set_ne by done. reflexivity.
    + cbn [sequence_in]. rewrite dict_get_set_eq. left. eauto.
  - cbn. exists D. split; [reflexivity|]. split; [reflexivity|].
    cbn [sequence_in]. rewrite Hseq. right. by left.
  - cbn. exists D. split; [reflexivity|]. split; [reflexivity|].
    cbn [sequence_in]. rewrite Hseq. right. by right.
Qed.

Lemma char_values_are_not_tasks (s : string) :
  Forall names_agent
    ((fun c => PStr (String c EmptyString)) <$> list_ascii_of_string s) ->
  s = EmptyString.
Proof.
  destruct s as [|c s]; [done|]. cbn. intros H.
  apply Forall_cons in H as [(d & [=] & _) _].
Qed.

Lemma key_values_are_not_tasks (d : dict) :
  Forall names_agent (PStr <$> dict_keys d) -> d = [].
Proof.
  destruct d as [|[k v] d]; [done|]. cbn. intros H.
  apply Forall_cons in H as [(d' & [=] & _) _].
Qed.

(** What a plan that validation accepts was. *)
Lemma valid_was_well_formed (plan plan' : value) :
  _validate_strategy_decision plan = Valid plan' -> well_formed plan.
Proof.
  unfold _validate_strategy_decision. intros H.
  apply bind_valid_inv in H as (present & _ & H).
  destruct present; cbn [negb] in H; [|discriminate].
  apply bind_valid_inv in H as (name & Hname & H).
  apply getitem_inv in Hname as (D & -> & Hname).
  destruct (existsb _ Strategy.valid_decisions) eqn:Hknown; cbn [negb] in H;
    [|discriminate].
  apply known_decision in Hknown as (s & -> & Hknown).
  apply bind_valid_inv in H as (present & _ & H).
  destruct present; cbn [negb] in H; [|discriminate].
  apply bind_valid_inv in H as (seq & Hseq & H).
  apply getitem_inv in Hseq as (D0 & [= <-] & Hseq).
  apply bind_valid_inv in H as (tasks & Htasks & H). apply lift_valid_inv in Htasks.
  apply bind_valid_inv in H as (tasks' & H1 & H).
  apply bind_valid_inv in H as (tasks'' & H2 & _).
  pose proof (passed_all_name_agent _ _ _ _ _ _ H1 H2) as Hall.
  exists D, s, seq. repeat split; try done.
  destruct seq as [ | | | |str|l|d]; try discriminate Htasks;
    cbn [PlanExecutor.elements] in Htasks; injection Htasks as <-.
  - right. left. f_equal. by apply char_values_are_not_tasks.
  - left. eauto.
  - right. right. f_equal. by apply key_values_are_not_tasks.
Qed.

Section WithAgents.
Context {W : Type} (A : PlanExecutor.Agents W).

Lemma ready_sequence_runs (w : W) (ctx : Context.ConversationContext) (seq : value) :
  sequence_of ready seq ->
  (PlanExecutor._execute_agent_sequence A w ctx seq).2 = None.
Proof.
  intros [(tasks & -> & Hall)|[->| ->]]; [|reflexivity..].
  assert (exists ds, tasks = PDict <$> ds) as (ds & ->).
  { induction Hall as [|t tasks (d & -> & _) _ (ds & ->)].
    - by exists [].
    - by exists (d :: ds). }
  unfold PlanExecutor._execute_agent_sequence. cbn [PlanExecutor.elements].
  by rewrite PlanExecutorFacts.run_loop_dicts.
Qed.

(** X8.  Validation returns exactly on the well-formed plans: a dictionary
    with one of the three known decisions and a sequence of tasks that are
    dictionaries with an "agent" (a list of them, or an empty string or
    dictionary).  What it returns has the same decision, every task of it is a
    dictionary with an "agent" and a "depends_on", and the executor does not
    raise on it.  On any other plan validation raises, a [TypeError] of the
    interpreter included: a task list that is [null] is such a plan. *)
Theorem validation_accepts_well_formed_plans
    (plan : value) (w : W) (ctx : Context.ConversationContext) :
  match _validate_strategy_decision plan with
  | Valid plan' =>
      well_formed plan
      /\ decision_in plan' = decision_in plan
      /\ sequence_of ready (sequence_in plan')
      /\ (PlanExecutor._execute_agent_sequence A w ctx (sequence_in plan')).2 = None
  | Refused _ => ~ well_formed plan
  end
  /\ _validate_strategy_decision null_sequence_plan = Refused Interpreter.
Proof.
  split; [|reflexivity].
  destruct (_validate_strategy_decision plan) as [plan'|r] eqn:Hv.
  - pose proof (valid_was_well_formed _ _ Hv) as Hwf.
    destruct (well_formed_is_valid plan Hwf) as (D' & Hv' & Hdec & Hseq).
    rewrite Hv in Hv'. injection Hv' as ->.
    repeat split; try done. by apply ready_sequence_runs.
  - intros Hwf. destruct (well_formed_is_valid plan Hwf) as (D' & Hv' & _).
    rewrite Hv in Hv'. discriminate Hv'.
Qed.

End WithAgents.

(** The plan with a list as scope focus passes validation as it is. *)
Example follow_up_plan_is_valid :
  _validate_strategy_decision follow_up_plan = Valid follow_up_plan.
Proof. vm_compute. reflexivity. Qed.

End PlanValidationFacts.
